(** * SOP finder: catalog parsing, hybrid retrieval and confidence calibration

    A shallow embedding of [src/local_sop_identifier.py]
    (class [LocalSOPIdentifier]) together with the properties of its
    specification.

    Conventions of the embedding.
    - A Python [str] is a [string] whose characters are the code points
      below 256.
    - A Python exception is a value of [exn]; a function that can raise
      returns a [result].
    - A [float] score is an exact rational of [Q]: the arithmetic of the
      retrieval ([/], [*], [+], [max], comparisons, [round(_, 4)]) is the
      real-number arithmetic that the float operations approximate; NaN and
      infinities are not represented.
    - The three external collaborators (sentence encoder, FAISS index,
      BM25 scorer) are functions stored in the identifier object. *)

From Stdlib Require Import List String Ascii Bool Arith ZArith Lia.
From Stdlib Require Import QArith Qround Lqa DecimalString Sorted Permutation.
From Corelib Require PrimFloat.
Import ListNotations.

Set Implicit Arguments.

(** ** Exceptions *)

Inductive exn : Type :=
| ValueError (msg : string)
| IndexError (msg : string)
| AttributeError (msg : string).

Inductive result (A : Type) : Type :=
| Ok (a : A)
| Raise (e : exn).

Arguments Ok {A} a.
Arguments Raise {A} e.

Definition bind {A B : Type} (m : result A) (k : A -> result B) : result B :=
  match m with
  | Ok a => k a
  | Raise e => Raise e
  end.

Declare Scope py_scope.
Delimit Scope py_scope with py.
Notation "x <- m ;; k" := (bind m (fun x => k))
  (at level 61, m at next level, right associativity) : py_scope.

(** [for x in l: ...] where the body can raise: the first exception stops
    the loop. *)
Fixpoint mapM {A B : Type} (f : A -> result B) (l : list A) : result (list B) :=
  match l with
  | [] => Ok []
  | x :: l' =>
      match f x with
      | Raise e => Raise e
      | Ok y =>
          match mapM f l' with
          | Raise e => Raise e
          | Ok ys => Ok (y :: ys)
          end
      end
  end.

(** ** Python string operations *)

Module PyStr.

Open Scope string_scope.

Definition code (c : ascii) : nat := nat_of_ascii c.

Definition between (lo hi n : nat) : bool := (lo <=? n)%nat && (n <=? hi)%nat.

(** [str.isspace] on one character: the code points below 256 that
    Python treats as whitespace are 9..13, 28..32, 133 and 160. *)
Definition isspace (c : ascii) : bool :=
  between 9 13 (code c) || between 28 32 (code c)
  || (code c =? 133)%nat || (code c =? 160)%nat.

Fixpoint lstrip (s : string) : string :=
  match s with
  | EmptyString => EmptyString
  | String c s' => if isspace c then lstrip s' else s
  end.

Fixpoint rstrip (s : string) : string :=
  match s with
  | EmptyString => EmptyString
  | String c s' =>
      match rstrip s' with
      | EmptyString => if isspace c then EmptyString else String c EmptyString
      | r => String c r
      end
  end.

(** [s.strip()] *)
Definition strip (s : string) : string := rstrip (lstrip s).

(** [s.startswith(p)] *)
Definition startswith (s p : string) : bool := String.prefix p s.

(** [c in s] for a one-character [c] *)
Fixpoint contains (c : ascii) (s : string) : bool :=
  match s with
  | EmptyString => false
  | String d s' => if Ascii.eqb c d then true else contains c s'
  end.

(** [sub in s] *)
Fixpoint occurs (sub s : string) : bool :=
  String.prefix sub s
  || match s with
     | EmptyString => false
     | String _ s' => occurs sub s'
     end.

(** [s.split(sep)] for a non-empty [sep]: the text is scanned from the
    left, every occurrence of [sep] found closes the current piece and the
    scan resumes after it.  [skip] counts the characters of a matched
    separator that are still to be passed over. *)
Fixpoint split_go (sep : string) (skip : nat) (s : string) : list string :=
  match s with
  | EmptyString => [EmptyString]
  | String c s' =>
      match skip with
      | S k => split_go sep k s'
      | O =>
          if String.prefix sep s
          then EmptyString :: split_go sep (String.length sep - 1) s'
          else match split_go sep 0 s' with
               | h :: t => String c h :: t
               | [] => [String c EmptyString]
               end
      end
  end.

Definition split (s sep : string) : list string := split_go sep 0 s.

(** [s.split(c, 1)] for a one-character separator: at most one cut, at
    the first occurrence. *)
Fixpoint split1 (s : string) (c : ascii) : list string :=
  match s with
  | EmptyString => [EmptyString]
  | String d s' =>
      if Ascii.eqb c d then [EmptyString; s']
      else match split1 s' c with
           | h :: t => String d h :: t
           | [] => [String d EmptyString]
           end
  end.

(** [s.replace(old, new)] for a non-empty [old] *)
Fixpoint replace_go (old new : string) (skip : nat) (s : string) : string :=
  match s with
  | EmptyString => EmptyString
  | String c s' =>
      match skip with
      | S k => replace_go old new k s'
      | O =>
          if String.prefix old s
          then new ++ replace_go old new (String.length old - 1) s'
          else String c (replace_go old new 0 s')
      end
  end.

Definition replace (s old new : string) : string := replace_go old new 0 s.

(** [s[:n]] *)
Definition take (n : nat) (s : string) : string := String.substring 0 n s.

(** [str(n)] for an integer *)
Definition of_int (n : Z) : string := NilEmpty.string_of_int (Z.to_int n).

(** *** [int(s)]

    The whitespace that [int] trims is narrower than that of [strip]:
    28..31 are not accepted. *)
Definition int_isspace (c : ascii) : bool :=
  between 9 13 (code c) || (code c =? 32)%nat
  || (code c =? 133)%nat || (code c =? 160)%nat.

Fixpoint int_lstrip (s : string) : string :=
  match s with
  | EmptyString => EmptyString
  | String c s' => if int_isspace c then int_lstrip s' else s
  end.

Fixpoint int_rstrip (s : string) : string :=
  match s with
  | EmptyString => EmptyString
  | String c s' =>
      match int_rstrip s' with
      | EmptyString => if int_isspace c then EmptyString else String c EmptyString
      | r => String c r
      end
  end.

Definition is_digit (c : ascii) : bool := between 48 57 (code c).

Definition digit_val (c : ascii) : Z := Z.of_nat (code c - 48).

(** Digits, with single underscores allowed between two digits. *)
Fixpoint int_digits (acc : Z) (after_digit : bool) (s : string) : option Z :=
  match s with
  | EmptyString => if after_digit then Some acc else None
  | String c s' =>
      if is_digit c then int_digits (10 * acc + digit_val c) true s'
      else if Ascii.eqb c "_"
           then (if after_digit then int_digits acc false s' else None)
           else None
  end.

Definition int_signed (s : string) : option Z :=
  match s with
  | String "+" s' => int_digits 0 false s'
  | String "-" s' => option_map Z.opp (int_digits 0 false s')
  | _ => int_digits 0 false s
  end.

Definition int (s : string) : result Z :=
  match int_signed (int_rstrip (int_lstrip s)) with
  | Some n => Ok n
  | None =>
    Raise (ValueError ("invalid literal for int() with base 10: '" ++ s ++ "'"))
  end.

End PyStr.

(** ** Catalog parsing: [parse_sops] *)

Module Catalog.

Open Scope string_scope.
Open Scope py_scope.

(** One entry of the list returned by [parse_sops]. *)
Record Chunk : Type := mkChunk {
  id : string;
  title : string;
  content : string;
  sop_number : Z
}.

Definition LF : ascii := ascii_of_nat 10.

(** The body of the [for section in sop_sections] loop: [Ok None] when
    the section adds nothing, [Ok (Some c)] when chunk [c] is appended. *)
Definition parse_section (section : string) : result (option Chunk) :=
  let section := PyStr.strip section in
  if negb (String.eqb section "") && PyStr.startswith section "SOP-" then
    let lines := PyStr.split section (String LF "") in
    let first_line := PyStr.strip (hd "" lines) in
    if PyStr.contains ":" first_line then
      match PyStr.split1 first_line ":" with
      | [sop_part; title] =>
          sop_number <- PyStr.int (PyStr.replace sop_part "SOP-" "") ;;
          let title := PyStr.strip title in
          Ok (Some {| id := "sop_" ++ PyStr.of_int sop_number;
                      title := "SOP-" ++ PyStr.of_int sop_number ++ ": " ++ title;
                      content := section;
                      sop_number := sop_number |})
      | _ => Raise (ValueError "not enough values to unpack")
      end
    else Ok None
  else Ok None.

Fixpoint parse_sections (sections : list string) : result (list Chunk) :=
  match sections with
  | [] => Ok []
  | section :: rest =>
      r <- parse_section section ;;
      chunks <- parse_sections rest ;;
      Ok (match r with Some c => c :: chunks | None => chunks end)
  end.

(** [parse_sops], from the text of the file on. *)
Definition parse_sops (content : string) : result (list Chunk) :=
  parse_sections (PyStr.split content "---").

End Catalog.

(** ** Array operations of numpy used by the retrieval *)

Module Numpy.

Open Scope Q_scope.
Open Scope py_scope.

(** [np.zeros(n)] *)
Definition zeros (n : nat) : list Q := repeat 0 n.

(** [a[idx]] for a non-negative [idx] *)
Definition getitem {A : Type} (a : list A) (idx : nat) : result A :=
  match nth_error a idx with
  | Some x => Ok x
  | None => Raise (IndexError "index out of range")
  end.

Fixpoint update (a : list Q) (i : nat) (v : Q) : list Q :=
  match a, i with
  | [], _ => []
  | _ :: a', O => v :: a'
  | x :: a', S i' => x :: update a' i' v
  end.

(** [a[idx] = v]: a negative [idx] counts from the end, an [idx] outside
    [-len(a) .. len(a)-1] raises. *)
Definition setitem (a : list Q) (idx : Z) (v : Q) : result (list Q) :=
  let n := Z.of_nat (List.length a) in
  if ((0 <=? idx) && (idx <? n))%Z then Ok (update a (Z.to_nat idx) v)
  else if ((- n <=? idx) && (idx <? 0))%Z then Ok (update a (Z.to_nat (n + idx)) v)
  else Raise (IndexError "index is out of bounds").

Definition Qltb (x y : Q) : bool := negb (Qle_bool y x).

Definition maximum (x y : Q) : Q := if Qle_bool x y then y else x.

(** [a.max()]: raises on an empty array. *)
Definition max (a : list Q) : result Q :=
  match a with
  | [] => Raise (ValueError "zero-size array to reduction operation maximum")
  | x :: a' => Ok (fold_left maximum a' x)
  end.

(** [a / m] and [w * a] for a scalar *)
Definition div_scalar (a : list Q) (m : Q) : list Q := map (fun x => x / m) a.
Definition scale (w : Q) (a : list Q) : list Q := map (fun x => w * x) a.

Fixpoint zip_add (a b : list Q) : list Q :=
  match a, b with
  | x :: a', y :: b' => (x + y) :: zip_add a' b'
  | _, _ => []
  end.

(** [a + b] for one-dimensional arrays: equal lengths add entry by
    entry, an array of length one is broadcast, anything else raises. *)
Definition add (a b : list Q) : result (list Q) :=
  if (List.length a =? List.length b)%nat then Ok (zip_add a b)
  else match a, b with
       | [x], _ => Ok (map (fun y => x + y) b)
       | _, [y] => Ok (map (fun x => x + y) a)
       | _, _ => Raise (ValueError "operands could not be broadcast together")
       end.

(** [np.argsort(a)]: the indices of [a] in ascending order of value.
    numpy sorts short arrays by insertion, which keeps equal values in
    index order; the model is that stable sort at every length. *)
Fixpoint insert (key : nat -> Q) (i : nat) (l : list nat) : list nat :=
  match l with
  | [] => [i]
  | j :: l' => if Qle_bool (key i) (key j) then i :: l else j :: insert key i l'
  end.

Definition key_of (a : list Q) (i : nat) : Q := nth i a 0.

Definition argsort (a : list Q) : list nat :=
  fold_right (insert (key_of a)) [] (seq 0 (List.length a)).

(** [l[:k]]: a negative [k] drops [-k] elements from the end. *)
Definition slice_to {A : Type} (l : list A) (k : Z) : list A :=
  if (0 <=? k)%Z then firstn (Z.to_nat k) l
  else firstn (List.length l - Z.to_nat (- k)) l.

(** [round(x, ndigits)]: to the nearest multiple of [10^-ndigits], a
    tie going to the even one. *)
Definition round_half_even (x : Q) : Z :=
  let f := Qfloor x in
  match Qcompare (x - inject_Z f) (1 # 2) with
  | Lt => f
  | Gt => (f + 1)%Z
  | Eq => if Z.even f then f else (f + 1)%Z
  end.

Definition round (x : Q) (ndigits : nat) : Q :=
  let p := inject_Z (10 ^ Z.of_nat ndigits) in
  inject_Z (round_half_even (x * p)) / p.

End Numpy.

(** ** The identifier object and its results *)

Inductive Level : Type := HIGH | MEDIUM | LOW | NONE.

Inductive Recommendation : Type := ACCEPT | REVIEW | REJECT | NO_MATCH.

(** One entry of the list returned by [retrieve_relevant_sops]. *)
Module Candidate.
Record t : Type := mk {
  id : string;
  title : string;
  sop_number : Z;
  confidence_score : Q;
  confidence_level : Level;
  semantic_score : Q;
  bm25_score : Q;
  content_preview : string
}.
End Candidate.

(** The dictionary returned by [select_best_sop]; a key that one of the
    two return statements leaves out is [None]. *)
Module Decision.
Record t : Type := mk {
  selected_sop_id : option string;
  selected_sop_number : option Z;
  selected_sop_title : option string;
  confidence_score : Q;
  confidence_level : Level;
  semantic_score : option Q;
  bm25_score : option Q;
  recommendation : Recommendation;
  reason : string;
  retrieved_sops : list Candidate.t;
  alternative_sops : option (list Candidate.t)
}.
End Decision.

(** The state of a [LocalSOPIdentifier] that retrieval reads.
    [faiss_index q k] stands for [self.faiss_index.search] applied to the
    normalised embedding of [q]: [k] pairs of a row label ([-1] when the
    index is exhausted) and an inner product.  [bm25 q] stands for
    [self.bm25.get_scores(self._tokenize(q))]. *)
Record Identifier : Type := mkIdentifier {
  sop_chunks : list Catalog.Chunk;
  faiss_index : option (string -> nat -> list (Z * Q));
  bm25 : option (string -> list Q)
}.

(** ** Hybrid retrieval and recommendation *)

Module Retrieval.

Open Scope string_scope.
Open Scope Q_scope.
Open Scope py_scope.

(** [build_index], from the text of the catalog file on.  The embeddings,
    the FAISS index and the BM25 scorer that the method derives from the
    corpus are the two functions handed in; saving the index is left
    out. *)
Definition build_index (content : string)
           (search : string -> nat -> list (Z * Q))
           (get_scores : string -> list Q) : result Identifier :=
  sop_chunks <- Catalog.parse_sops content ;;
  match sop_chunks with
  | [] => Raise (ValueError "No SOP chunks found in the file")
  | _ :: _ =>
      Ok {| sop_chunks := sop_chunks;
            faiss_index := Some search;
            bm25 := Some get_scores |}
  end.

(** The loop over [indices[0]]: every label other than [-1] stores its
    inner product in the dense score array. *)
Fixpoint fill_semantic (semantic_scores : list Q) (hits : list (Z * Q))
  : result (list Q) :=
  match hits with
  | [] => Ok semantic_scores
  | (idx, distance) :: hits' =>
      if (idx =? -1)%Z then fill_semantic semantic_scores hits'
      else
        semantic_scores' <- Numpy.setitem semantic_scores idx distance ;;
        fill_semantic semantic_scores' hits'
  end.

(** [scores / scores.max() if scores.max() > 0 else scores] *)
Definition normalize (scores : list Q) : result (list Q) :=
  m <- Numpy.max scores ;;
  Ok (if Numpy.Qltb 0 m then Numpy.div_scalar scores m else scores).

Record Scores : Type := mkScores {
  semantic_scores_norm : list Q;
  bm25_scores_norm : list Q;
  hybrid_scores : list Q
}.

(** [retrieve_relevant_sops] up to and including the hybrid scoring. *)
Definition score (self : Identifier) (query : string)
           (semantic_weight bm25_weight : Q) : result Scores :=
  match sop_chunks self, faiss_index self with
  | [], _ | _, None =>
      Raise (ValueError
        "Index not built or loaded. Call build_index() or load_index() first.")
  | _ :: _, Some search =>
      let n := List.length (sop_chunks self) in
      let k := Nat.min n 100 in
      semantic_scores <- fill_semantic (Numpy.zeros n) (search query k) ;;
      get_scores <- match bm25 self with
                    | Some g => Ok g
                    | None => Raise (AttributeError
                        "'NoneType' object has no attribute 'get_scores'")
                    end ;;
      let bm25_scores := get_scores query in
      semantic_scores_norm <- normalize semantic_scores ;;
      bm25_scores_norm <- normalize bm25_scores ;;
      hybrid_scores <- Numpy.add (Numpy.scale semantic_weight semantic_scores_norm)
                                 (Numpy.scale bm25_weight bm25_scores_norm) ;;
      Ok {| semantic_scores_norm := semantic_scores_norm;
            bm25_scores_norm := bm25_scores_norm;
            hybrid_scores := hybrid_scores |}
  end.

(** [np.argsort(hybrid_scores)[::-1][:top_k]] *)
Definition top_indices (hybrid_scores : list Q) (top_k : Z) : list nat :=
  Numpy.slice_to (rev (Numpy.argsort hybrid_scores)) top_k.

(** The [if]/[elif]/[else] on [confidence] in the result loop. *)
Definition level_of (confidence : Q) : Level :=
  if Qle_bool 0.7 confidence then HIGH
  else if Qle_bool 0.4 confidence then MEDIUM
  else LOW.

(** The body of [for idx in top_indices]. *)
Definition candidate (self : Identifier) (sc : Scores) (idx : nat)
  : result Candidate.t :=
  confidence <- Numpy.getitem (hybrid_scores sc) idx ;;
  let confidence_level := level_of confidence in
  chunk <- Numpy.getitem (sop_chunks self) idx ;;
  semantic <- Numpy.getitem (semantic_scores_norm sc) idx ;;
  lexical <- Numpy.getitem (bm25_scores_norm sc) idx ;;
  Ok {| Candidate.id := Catalog.id chunk;
        Candidate.title := Catalog.title chunk;
        Candidate.sop_number := Catalog.sop_number chunk;
        Candidate.confidence_score := Numpy.round confidence 4;
        Candidate.confidence_level := confidence_level;
        Candidate.semantic_score := Numpy.round semantic 4;
        Candidate.bm25_score := Numpy.round lexical 4;
        Candidate.content_preview :=
          PyStr.take 200 (Catalog.content chunk) ++ "..." |}.

Definition retrieve_relevant_sops (self : Identifier) (query : string)
           (top_k : Z) (semantic_weight bm25_weight : Q)
  : result (list Candidate.t) :=
  sc <- score self query semantic_weight bm25_weight ;;
  mapM (candidate self sc) (top_indices (hybrid_scores sc) top_k).

(** The [if]/[elif]/[else] on [best_sop['confidence_score']]. *)
Definition recommend (confidence_score confidence_threshold : Q) (title : string)
  : Recommendation * string :=
  if Qle_bool 0.7 confidence_score then
    (ACCEPT,
     "High confidence match. The incident strongly aligns with " ++ title ++ ".")
  else if Qle_bool confidence_threshold confidence_score then
    (REVIEW,
     "Moderate confidence match. Review " ++ title ++ " to confirm applicability.")
  else
    (REJECT,
     "Low confidence. The top match (" ++ title
     ++ ") may not be appropriate. Consider manual review.").

Definition select_best_sop (self : Identifier) (incident_context : string)
           (top_k : Z) (confidence_threshold : Q) : result Decision.t :=
  relevant_sops <- retrieve_relevant_sops self incident_context top_k 0.6 0.4 ;;
  match relevant_sops with
  | [] =>
      Ok {| Decision.selected_sop_id := None;
            Decision.selected_sop_number := None;
            Decision.selected_sop_title := None;
            Decision.confidence_score := 0.0;
            Decision.confidence_level := NONE;
            Decision.semantic_score := None;
            Decision.bm25_score := None;
            Decision.recommendation := NO_MATCH;
            Decision.reason := "No relevant SOPs found";
            Decision.retrieved_sops := [];
            Decision.alternative_sops := None |}
  | best_sop :: rest =>
      let (recommendation, reason) :=
        recommend (Candidate.confidence_score best_sop) confidence_threshold
                  (Candidate.title best_sop) in
      Ok {| Decision.selected_sop_id := Some (Candidate.id best_sop);
            Decision.selected_sop_number := Some (Candidate.sop_number best_sop);
            Decision.selected_sop_title := Some (Candidate.title best_sop);
            Decision.confidence_score := Candidate.confidence_score best_sop;
            Decision.confidence_level := Candidate.confidence_level best_sop;
            Decision.semantic_score := Some (Candidate.semantic_score best_sop);
            Decision.bm25_score := Some (Candidate.bm25_score best_sop);
            Decision.recommendation := recommendation;
            Decision.reason := reason;
            Decision.retrieved_sops := relevant_sops;
            Decision.alternative_sops := Some rest |}
  end.

(** The shapes that a built index guarantees for one query: a non-empty
    catalog, both collaborators present, every label returned by the
    search either [-1] or a row of the catalog, one lexical score per
    row. *)
Definition label_ok (n : nat) (hit : Z * Q) : bool :=
  (fst hit =? -1)%Z || ((0 <=? fst hit)%Z && (fst hit <? Z.of_nat n)%Z).

Definition ready (self : Identifier) (query : string) : bool :=
  match sop_chunks self, faiss_index self, bm25 self with
  | _ :: _, Some search, Some get_scores =>
      let n := List.length (sop_chunks self) in
      forallb (label_ok n) (search query (Nat.min n 100))
      && (List.length (get_scores query) =? n)%nat
  | _, _, _ => false
  end.

End Retrieval.

(** ** The record grammar *)

Module CatalogSpec.

Open Scope string_scope.

(** The condition under which the loop of [parse_sops] reaches [int] for
    a trimmed section: it is not empty, starts with [SOP-], and its
    trimmed first line contains a colon. *)
Definition first_line (section : string) : string :=
  PyStr.strip (hd "" (PyStr.split section (String Catalog.LF ""))).

Definition kept (section : string) : bool :=
  negb (String.eqb section "") && PyStr.startswith section "SOP-"
  && PyStr.contains ":" (first_line section).

(** The header fields that [parse_sops] reads off a kept section: the
    trimmed first line of the content is [sop_part:title_part] cut at its
    first colon, [sop_part] without [SOP-] reads as the number, and the
    identifier and the title are rebuilt from the number. *)
Definition header_of (chunk : Catalog.Chunk) : Prop :=
  exists sop_part title_part,
    first_line (Catalog.content chunk) = sop_part ++ String ":" title_part
    /\ PyStr.contains ":" sop_part = false
    /\ PyStr.int (PyStr.replace sop_part "SOP-" "")
       = Ok (Catalog.sop_number chunk)
    /\ Catalog.id chunk = "sop_" ++ PyStr.of_int (Catalog.sop_number chunk)
    /\ Catalog.title chunk
       = "SOP-" ++ PyStr.of_int (Catalog.sop_number chunk) ++ ": "
         ++ PyStr.strip title_part.

(** The text that [parse_sops] hands to [int] for a kept section: what
    stands before the first colon of the trimmed first line, with every
    [SOP-] removed. *)
Definition number_text (section : string) : string :=
  PyStr.replace (hd "" (PyStr.split1 (first_line section) ":")) "SOP-" "".

(** The splitting that the specification words: the text is read line by
    line and a record ends at a line that is exactly the delimiter. *)
Fixpoint group_lines (current : list string) (lines : list string)
  : list (list string) :=
  match lines with
  | [] => [rev current]
  | line :: lines' =>
      if String.eqb line "---" then rev current :: group_lines [] lines'
      else group_lines (line :: current) lines'
  end.

Definition records_by_line (text : string) : list string :=
  map (String.concat (String Catalog.LF ""))
      (group_lines [] (PyStr.split text (String Catalog.LF ""))).

End CatalogSpec.

(** ** Orders on rows *)

Module Order.

Open Scope Q_scope.

(** Row [i] comes before row [j] in ascending order: a smaller key, or
    the same key and a smaller index.  This is the order in which a
    stable ascending sort leaves the rows. *)
Definition before (key : nat -> Q) (i j : nat) : Prop :=
  key i < key j \/ (key i == key j /\ (i < j)%nat).

(** The order of a result list in which row [a] stands before row [b]:
    a larger key, or the same key and the larger index. *)
Definition descending (key : nat -> Q) (a b : nat) : Prop := before key b a.


End Order.

(** ** Normalisation of a score vector *)

Module RetrievalSpec.

Open Scope Q_scope.


End RetrievalSpec.

(** ** Sample catalogs and indexes *)

Module Samples.

Open Scope string_scope.
Open Scope Q_scope.

Definition two_sops : string :=
  "SOP-001: Database Outage
database connection timeout
---
SOP-002: API Slowness
api response time high".

(** A record body that uses the three dashes inside a line. *)
Definition dashes_in_body : string :=
  "SOP-001: Database Outage
Step 1 --- restart the service
---
SOP-002: API Slowness
api response time high".

(** The header of the second record carries no integer. *)
Definition broken_header : string :=
  "SOP-001: Database Outage
database connection timeout
---
SOP-X: API Slowness
api response time high
---
SOP-003: Authentication Failure
login failures".

Definition chunks_of (text : string) : list Catalog.Chunk :=
  match Catalog.parse_sops text with
  | Ok chunks => chunks
  | Raise _ => []
  end.

(** An index over [two_sops] whose collaborators answer every query with
    the given inner products (in the order the search returns them) and
    lexical scores. *)
Definition index_with (hits : list (Z * Q)) (lexical : list Q) : Identifier :=
  match Retrieval.build_index two_sops (fun _ _ => hits) (fun _ => lexical) with
  | Ok self => self
  | Raise _ => {| sop_chunks := []; faiss_index := None; bm25 := None |}
  end.


(** Row 0 is the best semantic match and a weak lexical one: its fused
    score is 0.6 + 0.4 * 0.2499 = 0.69996. *)
Definition near_breakpoint : Identifier :=
  index_with [(0%Z, 1); (1%Z, 0.4)] [0.2499; 1].

(** Row 0 has a negative cosine similarity with the query. *)
Definition negative_cosine : Identifier :=
  index_with [(1%Z, 0.5); (0%Z, -0.5)] [0; 0].


(** Row 1 has a third of the best semantic score and the best lexical
    score. *)
Definition thirds : Identifier :=
  index_with [(0%Z, 0.9); (1%Z, 0.3)] [0.5; 1].

End Samples.

(** ** Incident dictionaries: [process_incident] *)

Module Incident.

Open Scope string_scope.
Open Scope py_scope.

Local Set Warnings "-register-all".

(** The values of an incident dictionary: [None], booleans, integers,
    strings and dictionaries with string keys (a dictionary is the list of
    its items, keys pairwise distinct). *)
Inductive value : Type :=
| VNone
| VBool (b : bool)
| VInt (n : Z)
| VStr (s : string)
| VDict (items : list (string * value)).

(** [bool(v)] *)
Definition truthy (v : value) : bool :=
  match v with
  | VNone => false
  | VBool b => b
  | VInt n => negb (n =? 0)%Z
  | VStr s => negb (String.eqb s "")
  | VDict items => match items with [] => false | _ :: _ => true end
  end.

Fixpoint lookup (items : list (string * value)) (key : string) : option value :=
  match items with
  | [] => None
  | (k, v) :: items' => if String.eqb k key then Some v else lookup items' key
  end.

(** [v.get(key)] and [v.get(key, default)]: only a dictionary has the
    method. *)
Definition get (v : value) (key : string) (default : value) : result value :=
  match v with
  | VDict items =>
      Ok (match lookup items key with Some x => x | None => default end)
  | VNone => Raise (AttributeError "'NoneType' object has no attribute 'get'")
  | VBool _ => Raise (AttributeError "'bool' object has no attribute 'get'")
  | VInt _ => Raise (AttributeError "'int' object has no attribute 'get'")
  | VStr _ => Raise (AttributeError "'str' object has no attribute 'get'")
  end.

Section WithDictStr.

(** [str(d)] for a dictionary [d], which quotes and escapes its keys and
    values, is not spelled out: it is the function handed in. *)
Variable dict_str : list (string * value) -> string.

(** [str(v)], as an f-string inserts it. *)
Definition str (v : value) : string :=
  match v with
  | VNone => "None"
  | VBool true => "True"
  | VBool false => "False"
  | VInt n => PyStr.of_int n
  | VStr s => s
  | VDict items => dict_str items
  end.

(** [" | ".join(parts)] *)
Definition join_parts (parts : list string) : string :=
  String.concat " | " parts.

(** One [if d.get(key): context_parts.append(f"label: {d[key]}")]. *)
Definition part (d : value) (key label : string) : result (list string) :=
  v <- get d key VNone ;;
  Ok (if truthy v then [label ++ ": " ++ str v] else []).

(** The query that [process_incident] builds from [input_data]. *)
Definition incident_context (input_data : list (string * value))
  : result string :=
  incident <- get (VDict input_data) "incident_details" (VDict []) ;;
  log_insights <- get (VDict input_data) "log_insights" (VDict []) ;;
  short <- part incident "short_description" "Issue" ;;
  long <- part incident "description" "Description" ;;
  log <- part log_insights "full_analysis" "Log Summary" ;;
  let incident_context := join_parts (short ++ long ++ log) in
  Ok (if String.eqb incident_context "" then dict_str input_data
      else incident_context).

(** [process_incident]: the context goes to [select_best_sop] with its
    default [top_k = 3] and [confidence_threshold = 0.4]. *)
Definition process_incident (self : Identifier)
           (input_data : list (string * value)) : result Decision.t :=
  incident_context <- incident_context input_data ;;
  Retrieval.select_best_sop self incident_context 3 0.4.

End WithDictStr.

Definition is_dict (v : value) : bool :=
  match v with
  | VDict _ => true
  | _ => false
  end.

(** The text of a field that is a string, [None] or missing; [None] for
    any other value. *)
Definition text_of (items : list (string * value)) (key : string)
  : option string :=
  match lookup items key with
  | Some (VStr s) => Some s
  | Some VNone | None => Some ""
  | Some _ => None
  end.

(** The incident that [main] builds from a query typed by the user. *)
Definition cli_incident (query : string) : list (string * value) :=
  [("incident_details", VDict [("description", VStr query)])].

End Incident.

(** ** Tokenisation for the lexical scorer: [_tokenize] *)

Module Tokenizer.

Open Scope string_scope.

(** [str.lower()] on one character: among the code points below 256 the
    capitals are 65..90, 192..214 and 216..222, and each has its small
    letter 32 places further. *)
Definition lower_char (c : ascii) : ascii :=
  let n := PyStr.code c in
  if PyStr.between 65 90 n || PyStr.between 192 214 n || PyStr.between 216 222 n
  then ascii_of_nat (n + 32)
  else c.

(** [text.lower()] *)
Fixpoint lower (text : string) : string :=
  match text with
  | EmptyString => EmptyString
  | String c text' => String (lower_char c) (lower text')
  end.

(** The characters that [\w] matches in a [str] pattern: the underscore
    and the alphanumeric characters, which below 256 are the ASCII digits
    and letters, 170, 178, 179, 181, 185, 186, 188..190, 192..214,
    216..246 and 248..255. *)
Definition is_word (c : ascii) : bool :=
  let n := PyStr.code c in
  PyStr.between 48 57 n || PyStr.between 65 90 n || (n =? 95)%nat
  || PyStr.between 97 122 n || (n =? 170)%nat || PyStr.between 178 179 n
  || (n =? 181)%nat || PyStr.between 185 186 n || PyStr.between 188 190 n
  || PyStr.between 192 214 n || PyStr.between 216 246 n
  || PyStr.between 248 255 n.

(** One pass over the text from its end: the run of word characters the
    text starts with, and the maximal runs that follow it. *)
Fixpoint scan (text : string) : string * list string :=
  match text with
  | EmptyString => (EmptyString, [])
  | String c text' =>
      let (run, runs) := scan text' in
      if is_word c then (String c run, runs)
      else (EmptyString,
            match run with
            | EmptyString => runs
            | _ => run :: runs
            end)
  end.

(** [re.findall(r'\w+', text)]: the maximal runs of word characters, from
    left to right. *)
Definition findall_words (text : string) : list string :=
  let (run, runs) := scan text in
  match run with
  | EmptyString => runs
  | _ => run :: runs
  end.

Definition _tokenize (text : string) : list string :=
  findall_words (lower text).

(** The word characters of a text, in order. *)
Fixpoint word_chars (text : string) : string :=
  match text with
  | EmptyString => EmptyString
  | String c text' =>
      if is_word c then String c (word_chars text') else word_chars text'
  end.

(** Every character of [token] satisfies [p]. *)
Fixpoint all_chars (p : ascii -> bool) (token : string) : bool :=
  match token with
  | EmptyString => true
  | String c token' => p c && all_chars p token'
  end.

End Tokenizer.

(** ** Building, saving and loading the index *)

Module Lifecycle.

Open Scope string_scope.

(** *** Paths *)

(** [p[:p.rfind('/') + 1]]: the text up to and including the last
    slash. *)
Fixpoint head_to_last_slash (p : string) : string :=
  match p with
  | EmptyString => EmptyString
  | String c p' =>
      if PyStr.contains "/" p' then String c (head_to_last_slash p')
      else if Ascii.eqb c "/" then String c EmptyString
      else EmptyString
  end.

Fixpoint all_slashes (s : string) : bool :=
  match s with
  | EmptyString => true
  | String c s' => Ascii.eqb c "/" && all_slashes s'
  end.

(** [s.rstrip('/')] *)
Fixpoint rstrip_slashes (s : string) : string :=
  match s with
  | EmptyString => EmptyString
  | String c s' =>
      match rstrip_slashes s' with
      | EmptyString => if Ascii.eqb c "/" then EmptyString
                       else String c EmptyString
      | r => String c r
      end
  end.

(** [os.path.dirname] of the POSIX flavour. *)
Definition dirname (p : string) : string :=
  let head := head_to_last_slash p in
  if negb (String.eqb head "") && negb (all_slashes head)
  then rstrip_slashes head
  else head.

(** [path.replace('.pkl', '.faiss')]: where [build_index] writes the
    FAISS index and where [load_index] looks for it. *)
Definition faiss_index_path (path : string) : string :=
  PyStr.replace path ".pkl" ".faiss".

(** *** The object, the files and the libraries *)

(** What a method raises: the two errors that the methods raise
    themselves, the [KeyError] of a snapshot without a key, the
    exceptions of the catalog parser, and whatever the operating system
    or a library raises. *)
Inductive error : Type :=
| FileNotFoundError (msg : string)
| KeyError (key : string)
| Python (e : exn)
| Foreign (description : string).

(** The dictionary that [build_index] pickles and that [load_index]
    reads back; a snapshot from elsewhere may lack keys. *)
Record IndexData : Type := mkIndexData {
  data_sop_chunks : option (list Catalog.Chunk);
  data_tokenized_corpus : option (list (list string));
  data_model_name : option string;
  data_vector_dimension : option Z
}.

(** [index_data[key]] *)
Definition item (A : Type) (key : string) (entry : option A) : error + A :=
  match entry with
  | Some v => inr v
  | None => inl (KeyError key)
  end.

(** [index_data.get(key, default)] *)
Definition get (A : Type) (entry : option A) (default : A) : A :=
  match entry with
  | Some v => v
  | None => default
  end.

Definition python (A : Type) (r : result A) : error + A :=
  match r with
  | Ok v => inr v
  | Raise e => inl (Python e)
  end.

(** The libraries and the operating system, as the two methods call
    them.  [Vectors] is a FAISS index, [Embeddings] the array that the
    encoder returns for a corpus, [Disk] the state of the files.  Every
    call that can raise returns an [error]; a call that writes returns
    the files as it leaves them, also when it raises. *)
Record Libraries (Vectors Embeddings Disk : Type) : Type := mkLibraries {
  (** [SentenceTransformer(model).encode(corpus, ...)] *)
  encode : string -> list string -> error + Embeddings;
  (** [faiss.IndexFlatIP(dimension)] *)
  IndexFlatIP : Z -> Vectors;
  (** [faiss.normalize_L2] *)
  normalize_L2 : Embeddings -> Embeddings;
  (** [index.add(embeddings)]: the index afterwards *)
  add : Vectors -> Embeddings -> error + Vectors;
  (** [search model index query k]: the answer of [index.search] to the
      normalised embedding, under [model], of [query] *)
  search : string -> Vectors -> string -> nat -> list (Z * Q);
  (** [BM25Okapi(tokenized_corpus).get_scores] *)
  BM25Okapi : list (list string) -> error + (list string -> list Q);
  (** [open(path, 'r', encoding='utf-8').read()] *)
  read_text : Disk -> string -> error + string;
  (** [os.makedirs(path, exist_ok=True)] *)
  makedirs : Disk -> string -> option error * Disk;
  (** [faiss.write_index(index, path)] *)
  write_index : Disk -> Vectors -> string -> option error * Disk;
  (** [pickle.dump(index_data, open(path, 'wb'))] *)
  dump : Disk -> IndexData -> string -> option error * Disk;
  (** [os.path.exists(path)] *)
  path_exists : Disk -> string -> bool;
  (** [pickle.load(open(path, 'rb'))] *)
  load : Disk -> string -> error + IndexData;
  (** [faiss.read_index(path)] *)
  read_index : Disk -> string -> error + Vectors
}.

Section Methods.

Variables Vectors Embeddings Disk : Type.
Variable lib : Libraries Vectors Embeddings Disk.

(** The attributes of a [LocalSOPIdentifier]; the encoder is the one of
    [model_name]. *)
Record State : Type := mkState {
  model_name : string;
  vector_dimension : Z;
  sop_chunks : list Catalog.Chunk;
  faiss_index : option Vectors;
  bm25 : option (list string -> list Q);
  tokenized_corpus : list (list string)
}.

(** The attributes that [__init__] sets. *)
Definition init (model : string) : State :=
  {| model_name := model;
     vector_dimension := 384;
     sop_chunks := [];
     faiss_index := None;
     bm25 := None;
     tokenized_corpus := [] |}.

Definition set_vector_dimension (v : Z) (st : State) : State :=
  {| model_name := model_name st;
     vector_dimension := v;
     sop_chunks := sop_chunks st;
     faiss_index := faiss_index st;
     bm25 := bm25 st;
     tokenized_corpus := tokenized_corpus st |}.

Definition set_sop_chunks (v : list Catalog.Chunk) (st : State) : State :=
  {| model_name := model_name st;
     vector_dimension := vector_dimension st;
     sop_chunks := v;
     faiss_index := faiss_index st;
     bm25 := bm25 st;
     tokenized_corpus := tokenized_corpus st |}.

Definition set_faiss_index (v : option Vectors) (st : State) : State :=
  {| model_name := model_name st;
     vector_dimension := vector_dimension st;
     sop_chunks := sop_chunks st;
     faiss_index := v;
     bm25 := bm25 st;
     tokenized_corpus := tokenized_corpus st |}.

Definition set_bm25 (v : option (list string -> list Q)) (st : State)
  : State :=
  {| model_name := model_name st;
     vector_dimension := vector_dimension st;
     sop_chunks := sop_chunks st;
     faiss_index := faiss_index st;
     bm25 := v;
     tokenized_corpus := tokenized_corpus st |}.

Definition set_tokenized_corpus (v : list (list string)) (st : State)
  : State :=
  {| model_name := model_name st;
     vector_dimension := vector_dimension st;
     sop_chunks := sop_chunks st;
     faiss_index := faiss_index st;
     bm25 := bm25 st;
     tokenized_corpus := v |}.

(** The object as the retrieval reads it: the encoder of the object
    embeds the query, [_tokenize] tokenises it. *)
Definition identifier (st : State) : Identifier :=
  mkIdentifier
    (sop_chunks st)
    (option_map (fun index => search lib (model_name st) index)
                (faiss_index st))
    (option_map (fun get_scores query => get_scores (Tokenizer._tokenize query))
                (bm25 st)).

(** A method body: from the object and the files to what it returns or
    raises, the object and the files afterwards. *)
Definition M (A : Type) : Type := State -> Disk -> (error + A) * State * Disk.

Definition ret (A : Type) (a : A) : M A :=
  fun st d => (inr a, st, d).

Definition raise (A : Type) (e : error) : M A :=
  fun st d => (inl e, st, d).

Definition seq (A B : Type) (m : M A) (k : A -> M B) : M B :=
  fun st d =>
    match m st d with
    | (inl e, st1, d1) => (inl e, st1, d1)
    | (inr a, st1, d1) => k a st1 d1
    end.

(** [self.<attribute>] *)
Definition attr (A : Type) (f : State -> A) : M A :=
  fun st d => (inr (f st), st, d).

(** [self.<attribute> = v] *)
Definition assign (f : State -> State) : M unit :=
  fun st d => (inr tt, f st, d).

(** A call that touches neither the object nor the files. *)
Definition call (A : Type) (r : error + A) : M A :=
  fun st d => (r, st, d).

(** A call that reads the files. *)
Definition reading (A : Type) (f : Disk -> error + A) : M A :=
  fun st d => (f d, st, d).

(** A call that writes the files. *)
Definition writing (f : Disk -> option error * Disk) : M unit :=
  fun st d =>
    match f d with
    | (Some e, d1) => (inl e, st, d1)
    | (None, d1) => (inr tt, st, d1)
    end.

Declare Scope method_scope.
Local Notation "x <- m ;; k" := (seq m (fun x => k))
  (at level 61, m at next level, right associativity) : method_scope.
Local Notation "m ;; k" := (seq m (fun _ => k))
  (at level 61, right associativity) : method_scope.
Local Open Scope method_scope.

(** [build_index] *)
Definition build_index (sop_file_path save_path : string) : M unit :=
  content <- reading (fun d => read_text lib d sop_file_path) ;;
  chunks <- call (python (Catalog.parse_sops content)) ;;
  assign (set_sop_chunks chunks) ;;
  match chunks with
  | [] => raise unit (Python (ValueError "No SOP chunks found in the file"))
  | _ :: _ =>
      let corpus := map Catalog.content chunks in
      model <- attr model_name ;;
      sop_embeddings <- call (encode lib model corpus) ;;
      dimension <- attr vector_dimension ;;
      assign (set_faiss_index (Some (IndexFlatIP lib dimension))) ;;
      index <- call (add lib (IndexFlatIP lib dimension)
                         (normalize_L2 lib sop_embeddings)) ;;
      assign (set_faiss_index (Some index)) ;;
      let tokenized := map Tokenizer._tokenize corpus in
      assign (set_tokenized_corpus tokenized) ;;
      get_scores <- call (BM25Okapi lib tokenized) ;;
      assign (set_bm25 (Some get_scores)) ;;
      let index_data := {| data_sop_chunks := Some chunks;
                           data_tokenized_corpus := Some tokenized;
                           data_model_name := Some model;
                           data_vector_dimension := Some dimension |} in
      writing (fun d => makedirs lib d (dirname save_path)) ;;
      writing (fun d => write_index lib d index (faiss_index_path save_path)) ;;
      writing (fun d => dump lib d index_data save_path)
  end.

(** [load_index] *)
Definition load_index (index_path : string) : M unit :=
  present <- reading (fun d => inr (path_exists lib d index_path)) ;;
  if negb present
  then raise unit (FileNotFoundError ("Index file not found: " ++ index_path))
  else
    index_data <- reading (fun d => load lib d index_path) ;;
    chunks <- call (item "sop_chunks" (data_sop_chunks index_data)) ;;
    assign (set_sop_chunks chunks) ;;
    tokenized <- call (item "tokenized_corpus"
                            (data_tokenized_corpus index_data)) ;;
    assign (set_tokenized_corpus tokenized) ;;
    assign (set_vector_dimension
              (get (data_vector_dimension index_data) 384%Z)) ;;
    present <- reading (fun d => inr (path_exists lib d
                                        (faiss_index_path index_path))) ;;
    if negb present
    then raise unit (FileNotFoundError
                       ("FAISS index file not found: "
                          ++ faiss_index_path index_path))
    else
      index <- reading (fun d => read_index lib d
                                   (faiss_index_path index_path)) ;;
      assign (set_faiss_index (Some index)) ;;
      get_scores <- call (BM25Okapi lib tokenized) ;;
      assign (set_bm25 (Some get_scores)).

(** The object that [build_index] leaves in memory once the index and
    the scorer are made. *)
Definition built_state (st : State)
           (chunks : list Catalog.Chunk) (index : Vectors)
           (get_scores : list string -> list Q) : State :=
  mkState
    (model_name st) (vector_dimension st) chunks
    (Some index) (Some get_scores)
    (map Tokenizer._tokenize (map Catalog.content chunks)).

(** The snapshot that [build_index] pickles. *)
Definition built_data (st : State)
           (chunks : list Catalog.Chunk) : IndexData :=
  mkIndexData
    (Some chunks)
    (Some (map Tokenizer._tokenize (map Catalog.content chunks)))
    (Some (model_name st))
    (Some (vector_dimension st)).

(** The calls that [build_index] makes before it saves all return:
    the catalog file is read and parsed into [chunks], which are not
    empty, the corpus is embedded and added to [index], and [get_scores]
    is the scorer of the tokenised corpus. *)
Definition indexed (st : State) (d : Disk)
           (sop_file_path : string) (chunks : list Catalog.Chunk)
           (index : Vectors) (get_scores : list string -> list Q) : Prop :=
  exists content sop_embeddings,
    read_text lib d sop_file_path = inr content
    /\ Catalog.parse_sops content = Ok chunks
    /\ chunks <> []
    /\ encode lib (model_name st)
                        (map Catalog.content chunks) = inr sop_embeddings
    /\ add lib
         (IndexFlatIP lib (vector_dimension st))
         (normalize_L2 lib sop_embeddings) = inr index
    /\ BM25Okapi lib
         (map Tokenizer._tokenize (map Catalog.content chunks))
       = inr get_scores.

End Methods.

End Lifecycle.

(** ** Sample libraries and files *)

Module LifecycleSamples.

Open Scope string_scope.
Open Scope Q_scope.

(** A file is a text, a pickled snapshot or a FAISS index; reading it as
    another kind fails. *)
Inductive file : Type :=
| Text (content : string)
| Pickle (data : Lifecycle.IndexData)
| Faiss (index : list (Z * Q)).

Definition disk : Type := string -> option file.

Definition write (d : disk) (path : string) (f : file) : disk :=
  fun p => if String.eqb p path then Some f else d p.

(** An index is the list of hits it answers every search with; the
    directories are not represented: one can be created unless its path
    is empty or is that of a file. *)
Definition lib : Lifecycle.Libraries (list (Z * Q)) (list (Z * Q)) disk :=
  {| Lifecycle.encode := fun model corpus =>
       inr (map (fun i => (Z.of_nat i, 1 / (2 + inject_Z (Z.of_nat i))))
                (seq 0 (List.length corpus)));
     Lifecycle.IndexFlatIP := fun dimension => [];
     Lifecycle.normalize_L2 := fun embeddings => embeddings;
     Lifecycle.add := fun index embeddings => inr (index ++ embeddings)%list;
     Lifecycle.search := fun model index query k => firstn k index;
     Lifecycle.BM25Okapi := fun tokenized_corpus =>
       match tokenized_corpus with
       | [] => inl (Lifecycle.Foreign "ZeroDivisionError: division by zero")
       | _ :: _ =>
           inr (fun tokenized_query =>
                  map (fun document =>
                         inject_Z (Z.of_nat
                           (List.length
                              (filter (fun t => existsb (String.eqb t)
                                                        tokenized_query)
                                      document))))
                      tokenized_corpus)
       end;
     Lifecycle.read_text := fun d path =>
       match d path with
       | Some (Text content) => inr content
       | Some _ => inl (Lifecycle.Foreign "UnicodeDecodeError")
       | None => inl (Lifecycle.FileNotFoundError path)
       end;
     Lifecycle.makedirs := fun d path =>
       if String.eqb path "" then
         (Some (Lifecycle.FileNotFoundError
                  "[Errno 2] No such file or directory: ''"), d)
       else match d path with
            | Some _ => (Some (Lifecycle.Foreign "FileExistsError"), d)
            | None => (None, d)
            end;
     Lifecycle.write_index := fun d index path =>
       (None, write d path (Faiss index));
     Lifecycle.dump := fun d index_data path =>
       (None, write d path (Pickle index_data));
     Lifecycle.path_exists := fun d path =>
       match d path with
       | Some _ => true
       | None => false
       end;
     Lifecycle.load := fun d path =>
       match d path with
       | Some (Pickle index_data) => inr index_data
       | Some _ => inl (Lifecycle.Foreign "UnpicklingError")
       | None => inl (Lifecycle.FileNotFoundError path)
       end;
     Lifecycle.read_index := fun d path =>
       match d path with
       | Some (Faiss index) => inr index
       | Some _ => inl (Lifecycle.Foreign "RuntimeError")
       | None => inl (Lifecycle.Foreign "RuntimeError")
       end |}.

(** The files: the catalog [two_sops] and a text without any record. *)
Definition files : disk :=
  fun path =>
    if String.eqb path "./data/structured_sops.txt"
    then Some (Text Samples.two_sops)
    else if String.eqb path "./data/notes.txt"
         then Some (Text "meeting notes")
         else None.

Definition fresh : Lifecycle.State (list (Z * Q)) :=
  Lifecycle.init (list (Z * Q)) "all-MiniLM-L6-v2".

(** [build_index('./data/structured_sops.txt', path)] on a fresh
    object. *)
Definition built (path : string)
  : (Lifecycle.error + unit) * Lifecycle.State (list (Z * Q)) * disk :=
  Lifecycle.build_index lib "./data/structured_sops.txt" path fresh files.

(** The object after [build_index] with the default save path, and
    what it holds. *)
Definition object : Lifecycle.State (list (Z * Q)) :=
  snd (fst (built "./data/sop_index.pkl")).

Definition index : list (Z * Q) :=
  match Lifecycle.faiss_index object with
  | Some index => index
  | None => []
  end.

Definition get_scores : list string -> list Q :=
  match Lifecycle.bm25 object with
  | Some get_scores => get_scores
  | None => fun _ => []
  end.

(** A snapshot of the first record alone, pickled without its FAISS
    file. *)
Definition first_record : Lifecycle.IndexData :=
  {| Lifecycle.data_sop_chunks := Some (firstn 1 (Lifecycle.sop_chunks object));
     Lifecycle.data_tokenized_corpus :=
       Some (firstn 1 (Lifecycle.tokenized_corpus object));
     Lifecycle.data_model_name := Some "all-MiniLM-L6-v2";
     Lifecycle.data_vector_dimension := None |}.

Definition files_with_snapshot : disk :=
  write files "./data/first.pkl" (Pickle first_record).

End LifecycleSamples.

(** The tokens that a labelled, non-empty field contributes to the
    query: those of its label, then its own. *)
Definition labelled_tokens (label : list string) (text : string) : list string :=
  if String.eqb text "" then [] else label ++ Tokenizer._tokenize text.

Example split_ex1 :
  PyStr.split " a--- ---b----c" "---" = [" a"; " "; "b"; "-c"]%string.
Proof. reflexivity. Qed.

Example split_ex2 : PyStr.split "------" "---" = [""; ""; ""]%string.
Proof. reflexivity. Qed.

Example int_ex1 : PyStr.int " 5_0 " = Ok 50%Z.
Proof. reflexivity. Qed.

Example int_ex2 : PyStr.int "-007" = Ok (-7)%Z.
Proof. reflexivity. Qed.

Example replace_ex1 : PyStr.replace "SSOP-OP-1" "SOP-" "" = "SOP-1"%string.
Proof. reflexivity. Qed.

Example parse_ex1 :
  Catalog.parse_sops "SOP-001: A
body
---
junk
---
SOP-2 : B" =
  Ok [ Catalog.mkChunk "sop_1" "SOP-1: A" "SOP-001: A
body" 1; Catalog.mkChunk "sop_2" "SOP-2: B" "SOP-2 : B" 2 ].
Proof. reflexivity. Qed.

(** * Properties *)

(** ** Arrays *)

Section ArrayFacts.

Open Scope Q_scope.

Lemma update_length (a : list Q) (i : nat) (v : Q) :
  List.length (Numpy.update a i v) = List.length a.
Proof.
  revert i; induction a as [|x a IH]; intros [|i]; simpl; auto.
Qed.

Lemma setitem_in_range (a : list Q) (idx : Z) (v : Q) :
  (0 <= idx < Z.of_nat (List.length a))%Z ->
  Numpy.setitem a idx v = Ok (Numpy.update a (Z.to_nat idx) v).
Proof.
  intros H. unfold Numpy.setitem.
  replace ((0 <=? idx)%Z && (idx <? Z.of_nat (List.length a))%Z) with true; auto.
  symmetry. apply andb_true_iff. split; [apply Z.leb_le | apply Z.ltb_lt]; lia.
Qed.

Lemma zeros_length (n : nat) : List.length (Numpy.zeros n) = n.
Proof. apply repeat_length. Qed.

Lemma fill_semantic_ok (hits : list (Z * Q)) :
  forall a : list Q,
    forallb (Retrieval.label_ok (List.length a)) hits = true ->
    exists a', Retrieval.fill_semantic a hits = Ok a'
               /\ List.length a' = List.length a.
Proof.
  induction hits as [|[idx d] hits IH]; intros a H; simpl in *.
  - eauto.
  - apply andb_true_iff in H. destruct H as [Hl Hr].
    unfold Retrieval.label_ok in Hl. simpl in Hl.
    destruct (idx =? -1)%Z eqn:E.
    + apply IH; assumption.
    + simpl in Hl. apply andb_true_iff in Hl. destruct Hl as [H0 H1].
      apply Z.leb_le in H0. apply Z.ltb_lt in H1.
      rewrite setitem_in_range by lia. simpl.
      destruct (IH (Numpy.update a (Z.to_nat idx) d)) as [a' [E1 E2]].
      * rewrite update_length. assumption.
      * exists a'. split; [assumption|]. rewrite E2. apply update_length.
Qed.

Lemma maximum_cases (x y : Q) :
  (Numpy.maximum x y = y /\ x <= y) \/ (Numpy.maximum x y = x /\ y <= x).
Proof.
  unfold Numpy.maximum. destruct (Qle_bool x y) eqn:E.
  - left. split; [reflexivity|]. apply Qle_bool_iff. assumption.
  - right. split; [reflexivity|].
    destruct (Qlt_le_dec y x) as [H|H].
    + apply Qlt_le_weak. assumption.
    + apply Qle_bool_iff in H. congruence.
Qed.

Lemma fold_maximum_spec (a : list Q) :
  forall x : Q,
    let m := fold_left Numpy.maximum a x in
    (m = x \/ In m a) /\ x <= m /\ Forall (fun y => y <= m) a.
Proof.
  induction a as [|y a IH]; intros x; simpl.
  - split; [left; reflexivity|]. split; [apply Qle_refl | constructor].
  - destruct (IH (Numpy.maximum x y)) as [Hin [Hle Hall]].
    destruct (maximum_cases x y) as [[E L]|[E L]]; rewrite E in *.
    + split; [destruct Hin; auto|].
      split; [eapply Qle_trans; eassumption|].
      constructor; assumption.
    + split; [destruct Hin; auto|].
      split; [assumption|].
      constructor; [eapply Qle_trans; eassumption | assumption].
Qed.

(** [a.max()] is an entry of [a] and bounds every entry. *)
Lemma max_spec (a : list Q) (m : Q) :
  Numpy.max a = Ok m -> In m a /\ Forall (fun y => y <= m) a.
Proof.
  destruct a as [|x a]; simpl; intros H; [discriminate|].
  injection H as <-.
  destruct (fold_maximum_spec a x) as [Hin [Hle Hall]].
  split.
  - destruct Hin as [->|Hin]; auto.
  - constructor; assumption.
Qed.

Lemma max_nonempty (a : list Q) :
  a <> [] -> exists m, Numpy.max a = Ok m.
Proof.
  destruct a as [|x a]; [congruence|]. intros _. simpl. eauto.
Qed.

Lemma Qltb_lt (x y : Q) : Numpy.Qltb x y = true <-> x < y.
Proof.
  unfold Numpy.Qltb. rewrite negb_true_iff. split; intros H.
  - destruct (Qlt_le_dec x y) as [L|L]; [assumption|].
    apply Qle_bool_iff in L. congruence.
  - destruct (Qle_bool y x) eqn:E; [|reflexivity].
    apply Qle_bool_iff in E. exfalso. apply (Qlt_irrefl x).
    eapply Qlt_le_trans; eassumption.
Qed.

Lemma Qle_bool_false (x y : Q) : Qle_bool x y = false <-> y < x.
Proof.
  rewrite <- Qltb_lt. unfold Numpy.Qltb. rewrite negb_true_iff. tauto.
Qed.

Lemma zip_add_length (a b : list Q) :
  List.length a = List.length b ->
  List.length (Numpy.zip_add a b) = List.length a.
Proof.
  revert b; induction a as [|x a IH]; intros [|y b]; simpl; intros H;
    try discriminate; auto.
Qed.

Lemma add_same_length (a b : list Q) :
  List.length a = List.length b -> Numpy.add a b = Ok (Numpy.zip_add a b).
Proof.
  intros H. unfold Numpy.add. rewrite H, Nat.eqb_refl. reflexivity.
Qed.

Lemma nth_error_zip_add (a b : list Q) :
  forall (i : nat) (x y : Q),
    nth_error a i = Some x -> nth_error b i = Some y ->
    nth_error (Numpy.zip_add a b) i = Some (x + y).
Proof.
  revert b; induction a as [|x0 a IH]; intros [|y0 b] [|i] x y;
    simpl; try discriminate.
  - intros [= ->] [= ->]. reflexivity.
  - apply IH.
Qed.

Lemma nth_error_scale (w : Q) (a : list Q) (i : nat) (x : Q) :
  nth_error a i = Some x -> nth_error (Numpy.scale w a) i = Some (w * x).
Proof.
  intros H. unfold Numpy.scale. rewrite nth_error_map, H. reflexivity.
Qed.

End ArrayFacts.

(** Turns the boolean comparisons among the hypotheses into
    inequalities. *)
Ltac qle_props :=
  repeat match goal with
         | H : Qle_bool _ _ = true |- _ => apply Qle_bool_iff in H
         | H : Qle_bool _ _ = false |- _ => apply Qle_bool_false in H
         end.

(** ** Sorting *)

Section ArgsortFacts.

Open Scope Q_scope.

Variable key : nat -> Q.

Local Abbreviation before := (Order.before key).

Lemma before_trans (i j k : nat) : before i j -> before j k -> before i k.
Proof.
  unfold Order.before. intros [H1|[H1 L1]] [H2|[H2 L2]].
  - left. eapply Qlt_trans; eassumption.
  - left. rewrite <- H2. assumption.
  - left. rewrite H1. assumption.
  - right. split; [rewrite H1; assumption | lia].
Qed.

Lemma before_le (i j : nat) : before i j -> key i <= key j.
Proof.
  intros [H|[H _]]; [apply Qlt_le_weak; assumption | rewrite H; apply Qle_refl].
Qed.

Lemma le_before (i j : nat) : key i <= key j -> (i < j)%nat -> before i j.
Proof.
  intros H L. unfold Order.before.
  destruct (Qlt_le_dec (key i) (key j)) as [H'|H']; [left; assumption|].
  right. split; [apply Qle_antisym; assumption | assumption].
Qed.

Lemma insert_Forall (P : nat -> Prop) (i : nat) (l : list nat) :
  P i -> Forall P l -> Forall P (Numpy.insert key i l).
Proof.
  intros Hi Hl. induction Hl as [|j l Hj Hl IH]; simpl.
  - constructor; auto.
  - destruct (Qle_bool (key i) (key j)); repeat constructor; auto.
Qed.

Lemma insert_length (i : nat) (l : list nat) :
  List.length (Numpy.insert key i l) = S (List.length l).
Proof.
  induction l as [|j l IH]; simpl; [reflexivity|].
  destruct (Qle_bool (key i) (key j)); simpl; auto.
Qed.

(** Inserting a row whose index is below every index of a sorted list
    keeps the list sorted. *)
Lemma insert_sorted (i : nat) (l : list nat) :
  StronglySorted before l ->
  Forall (fun j => (i < j)%nat) l ->
  StronglySorted before (Numpy.insert key i l).
Proof.
  intros Hs. induction Hs as [|j l Hs IH Hj]; intros Hi; simpl.
  - repeat constructor.
  - inversion Hi as [|? ? Hij Hil]; subst.
    destruct (Qle_bool (key i) (key j)) eqn:E.
    + apply Qle_bool_iff in E.
      assert (B : before i j) by (apply le_before; assumption).
      constructor; [constructor; assumption|].
      constructor; [assumption|].
      eapply Forall_impl; [|exact Hj].
      intros k Hk. eapply before_trans; eassumption.
    + apply Qle_bool_false in E.
      constructor; [apply IH; assumption|].
      apply insert_Forall; [left; assumption | assumption].
Qed.

Lemma sort_seq (len : nat) :
  forall start : nat,
    let l := fold_right (Numpy.insert key) [] (seq start len) in
    StronglySorted before l
    /\ Forall (fun j => (start <= j < start + len)%nat) l
    /\ List.length l = len.
Proof.
  induction len as [|len IH]; intros start; simpl.
  - repeat split; constructor.
  - destruct (IH (S start)) as [Hs [Hf Hl]].
    split; [|split].
    + apply insert_sorted; [assumption|].
      eapply Forall_impl; [|exact Hf]. simpl. intros; lia.
    + apply insert_Forall; [lia|].
      eapply Forall_impl; [|exact Hf]. simpl. intros; lia.
    + rewrite insert_length. congruence.
Qed.

End ArgsortFacts.

Section OrderFacts.

Variable A : Type.

Lemma StronglySorted_app (R : A -> A -> Prop) (l1 l2 : list A) :
  StronglySorted R l1 -> StronglySorted R l2 ->
  (forall x y, In x l1 -> In y l2 -> R x y) ->
  StronglySorted R (l1 ++ l2).
Proof.
  intros H1 H2 H. induction H1 as [|a l1 H1 IH Ha]; simpl; [assumption|].
  constructor.
  - apply IH. intros x y Hx Hy. apply H; [right; assumption | assumption].
  - apply Forall_app. split; [assumption|].
    apply Forall_forall. intros y Hy. apply H; [left; reflexivity | assumption].
Qed.

Lemma StronglySorted_rev (R : A -> A -> Prop) (l : list A) :
  StronglySorted R l -> StronglySorted (fun x y => R y x) (rev l).
Proof.
  intros H. induction H as [|a l H IH Ha]; simpl; [constructor|].
  apply StronglySorted_app.
  - assumption.
  - repeat constructor.
  - intros x y Hx [<-|[]]. apply in_rev in Hx.
    rewrite Forall_forall in Ha. apply Ha. assumption.
Qed.

Lemma StronglySorted_firstn (R : A -> A -> Prop) (n : nat) (l : list A) :
  StronglySorted R l -> StronglySorted R (firstn n l).
Proof.
  intros H. revert n. induction H as [|a l H IH Ha]; intros [|n]; simpl;
    try constructor.
  - apply IH.
  - rewrite Forall_forall in *. intros x Hx. apply Ha.
    rewrite <- (firstn_skipn n l). apply in_or_app. left. assumption.
Qed.

End OrderFacts.

(** ** The retrieval on a built index *)

Section RetrievalFacts.

Open Scope Q_scope.

Lemma mapM_Forall2 (A B : Type) (f : A -> result B) (l : list A) :
  Forall (fun x => exists y, f x = Ok y) l ->
  exists ys, mapM f l = Ok ys /\ Forall2 (fun y x => f x = Ok y) ys l.
Proof.
  induction 1 as [|x l [y Hy] Hl [ys [E F]]]; simpl.
  - exists []. split; [reflexivity | constructor].
  - rewrite Hy, E. exists (y :: ys). split; [reflexivity|].
    constructor; assumption.
Qed.

Lemma Forall_firstn (A : Type) (P : A -> Prop) (n : nat) (l : list A) :
  Forall P l -> Forall P (firstn n l).
Proof.
  intros H. revert n. induction H; intros [|n]; simpl; constructor; auto.
Qed.

Lemma slice_to_Forall (A : Type) (P : A -> Prop) (l : list A) (k : Z) :
  Forall P l -> Forall P (Numpy.slice_to l k).
Proof.
  intros H. unfold Numpy.slice_to.
  destruct (0 <=? k)%Z; apply Forall_firstn; assumption.
Qed.

Lemma normalize_ok (a : list Q) :
  a <> [] ->
  exists m, Numpy.max a = Ok m
            /\ Retrieval.normalize a
               = Ok (if Numpy.Qltb 0 m then Numpy.div_scalar a m else a).
Proof.
  intros H. destruct (max_nonempty H) as [m E].
  exists m. split; [assumption|].
  unfold Retrieval.normalize. rewrite E. reflexivity.
Qed.

Lemma normalize_length (a a' : list Q) :
  Retrieval.normalize a = Ok a' -> List.length a' = List.length a.
Proof.
  unfold Retrieval.normalize. destruct (Numpy.max a) as [m|e]; simpl;
    [|discriminate].
  intros [= <-]. destruct (Numpy.Qltb 0 m); [|reflexivity].
  apply length_map.
Qed.

(** Every row selected by [top_indices] is a row of the score array. *)
Lemma top_indices_in_range (hybrid : list Q) (top_k : Z) :
  Forall (fun idx => (idx < List.length hybrid)%nat)
         (Retrieval.top_indices hybrid top_k).
Proof.
  unfold Retrieval.top_indices. apply slice_to_Forall, Forall_rev.
  unfold Numpy.argsort.
  destruct (sort_seq (Numpy.key_of hybrid) (List.length hybrid) 0)
    as [_ [H _]].
  eapply Forall_impl; [|exact H]. simpl. intros; lia.
Qed.

Lemma getitem_ok (A : Type) (a : list A) (idx : nat) :
  (idx < List.length a)%nat -> exists x, nth_error a idx = Some x.
Proof.
  intros H. destruct (nth_error a idx) eqn:E; [eauto|].
  apply nth_error_None in E. lia.
Qed.

Variable self : Identifier.
Variable query : string.

Let n : nat := List.length (sop_chunks self).

(** What [score] computes when the index is ready for the query. *)
Lemma score_ready (semantic_weight bm25_weight : Q) :
  Retrieval.ready self query = true ->
  exists search get_scores semantic_scores sc,
    faiss_index self = Some search
    /\ bm25 self = Some get_scores
    /\ Retrieval.fill_semantic (Numpy.zeros n) (search query (Nat.min n 100))
       = Ok semantic_scores
    /\ Retrieval.normalize semantic_scores
       = Ok (Retrieval.semantic_scores_norm sc)
    /\ Retrieval.normalize (get_scores query)
       = Ok (Retrieval.bm25_scores_norm sc)
    /\ Retrieval.hybrid_scores sc
       = Numpy.zip_add
           (Numpy.scale semantic_weight (Retrieval.semantic_scores_norm sc))
           (Numpy.scale bm25_weight (Retrieval.bm25_scores_norm sc))
    /\ List.length (Retrieval.semantic_scores_norm sc) = n
    /\ List.length (Retrieval.bm25_scores_norm sc) = n
    /\ List.length (Retrieval.hybrid_scores sc) = n
    /\ (0 < n)%nat
    /\ Retrieval.score self query semantic_weight bm25_weight = Ok sc.
Proof.
  unfold Retrieval.ready, Retrieval.score. subst n.
  destruct (sop_chunks self) as [|c cs] eqn:Ec; [discriminate|].
  destruct (faiss_index self) as [search|]; [|discriminate].
  destruct (bm25 self) as [get_scores|]; [|discriminate].
  set (n := List.length (c :: cs)).
  intros H. apply andb_true_iff in H. destruct H as [Hl Hb].
  apply Nat.eqb_eq in Hb.
  destruct (@fill_semantic_ok (search query (Nat.min n 100)) (Numpy.zeros n))
    as [sem [Es Ls]].
  { rewrite zeros_length. assumption. }
  rewrite zeros_length in Ls.
  assert (Hn : (0 < n)%nat) by (subst n; simpl; lia).
  assert (Hsem : sem <> []) by (intros ->; simpl in Ls; lia).
  assert (Hlex : get_scores query <> [])
    by (intros E; rewrite E in Hb; simpl in Hb; lia).
  destruct (normalize_ok Hsem) as [ms [_ Ems]].
  destruct (normalize_ok Hlex) as [ml [_ Eml]].
  pose proof (normalize_length _ Ems) as Lsn.
  pose proof (normalize_length _ Eml) as Lln.
  set (sn := if Numpy.Qltb 0 ms then Numpy.div_scalar sem ms else sem) in *.
  set (ln := if Numpy.Qltb 0 ml then Numpy.div_scalar (get_scores query) ml
             else get_scores query) in *.
  assert (Lsc : List.length (Numpy.scale semantic_weight sn)
                = List.length (Numpy.scale bm25_weight ln)).
  { unfold Numpy.scale. rewrite !length_map. congruence. }
  exists search, get_scores, sem.
  exists (Retrieval.mkScores sn ln
            (Numpy.zip_add (Numpy.scale semantic_weight sn)
                           (Numpy.scale bm25_weight ln))).
  cbn [Retrieval.semantic_scores_norm Retrieval.bm25_scores_norm
       Retrieval.hybrid_scores].
  repeat split; try congruence; try assumption.
  - rewrite zip_add_length by assumption.
    unfold Numpy.scale. rewrite length_map. congruence.
  - fold n. rewrite Es. cbn [bind]. rewrite Ems. cbn [bind].
    rewrite Eml. cbn [bind].
    rewrite (add_same_length _ _ Lsc). reflexivity.
Qed.

(** The entry built for a row of the catalog. *)
Lemma candidate_ok (sc : Retrieval.Scores) (idx : nat) :
  List.length (Retrieval.semantic_scores_norm sc) = n ->
  List.length (Retrieval.bm25_scores_norm sc) = n ->
  List.length (Retrieval.hybrid_scores sc) = n ->
  (idx < n)%nat ->
  exists confidence chunk semantic lexical,
    nth_error (Retrieval.hybrid_scores sc) idx = Some confidence
    /\ nth_error (sop_chunks self) idx = Some chunk
    /\ nth_error (Retrieval.semantic_scores_norm sc) idx = Some semantic
    /\ nth_error (Retrieval.bm25_scores_norm sc) idx = Some lexical
    /\ Retrieval.candidate self sc idx
       = Ok (Candidate.mk (Catalog.id chunk) (Catalog.title chunk)
               (Catalog.sop_number chunk)
               (Numpy.round confidence 4)
               (Retrieval.level_of confidence)
               (Numpy.round semantic 4)
               (Numpy.round lexical 4)
               (PyStr.take 200 (Catalog.content chunk) ++ "...")).
Proof.
  intros Ls Lb Lh Hi.
  destruct (@getitem_ok _ (Retrieval.hybrid_scores sc) idx) as [h Eh]; [lia|].
  destruct (@getitem_ok _ (sop_chunks self) idx) as [c Ec]; [assumption|].
  destruct (@getitem_ok _ (Retrieval.semantic_scores_norm sc) idx) as [x Ex];
    [lia|].
  destruct (@getitem_ok _ (Retrieval.bm25_scores_norm sc) idx) as [y Ey];
    [lia|].
  exists h, c, x, y. repeat split; try assumption.
  unfold Retrieval.candidate, Numpy.getitem.
  rewrite Eh, Ec, Ex, Ey. reflexivity.
Qed.

(** On a ready index the retrieval returns, one entry per selected row. *)
Lemma retrieve_ready (top_k : Z) (semantic_weight bm25_weight : Q) :
  Retrieval.ready self query = true ->
  exists sc rs,
    Retrieval.score self query semantic_weight bm25_weight = Ok sc
    /\ Retrieval.retrieve_relevant_sops self query top_k
         semantic_weight bm25_weight = Ok rs
    /\ Forall2 (fun r idx => Retrieval.candidate self sc idx = Ok r) rs
         (Retrieval.top_indices (Retrieval.hybrid_scores sc) top_k).
Proof.
  intros H.
  destruct (score_ready semantic_weight bm25_weight H)
    as (search & g & sem & sc & _ & _ & _ & _ & _ & _ & Ls & Lb & Lh & _ & E).
  assert (F : Forall (fun idx => exists r, Retrieval.candidate self sc idx = Ok r)
                (Retrieval.top_indices (Retrieval.hybrid_scores sc) top_k)).
  { eapply Forall_impl; [|apply top_indices_in_range].
    simpl. intros idx Hi. rewrite Lh in Hi.
    destruct (candidate_ok sc Ls Lb Lh Hi) as (h & c & x & y & _ & _ & _ & _ & Ec).
    eauto. }
  destruct (mapM_Forall2 _ F) as [rs [Er Fr]].
  exists sc, rs. split; [assumption|]. split; [|assumption].
  unfold Retrieval.retrieve_relevant_sops. rewrite E. simpl. assumption.
Qed.

End RetrievalFacts.

(** ** Number and order of the returned candidates *)

Lemma slice_to_firstn (A : Type) (l : list A) (k : Z) :
  (0 <= k)%Z -> Numpy.slice_to l k = firstn (Z.to_nat k) l.
Proof.
  intros H. unfold Numpy.slice_to.
  destruct (0 <=? k)%Z eqn:E; [reflexivity|].
  apply Z.leb_gt in E. lia.
Qed.

Lemma argsort_length (a : list Q) :
  List.length (Numpy.argsort a) = List.length a.
Proof.
  unfold Numpy.argsort.
  destruct (sort_seq (Numpy.key_of a) (List.length a) 0) as [_ [_ H]]. exact H.
Qed.

Lemma argsort_sorted (a : list Q) :
  StronglySorted (Order.before (Numpy.key_of a)) (Numpy.argsort a).
Proof.
  unfold Numpy.argsort.
  destruct (sort_seq (Numpy.key_of a) (List.length a) 0) as [H _]. exact H.
Qed.

Lemma top_indices_descending (hybrid : list Q) (top_k : Z) :
  StronglySorted (Order.descending (Numpy.key_of hybrid))
                 (Retrieval.top_indices hybrid top_k).
Proof.
  unfold Retrieval.top_indices, Numpy.slice_to.
  destruct (0 <=? top_k)%Z; apply StronglySorted_firstn;
    apply (StronglySorted_rev (argsort_sorted hybrid)).
Qed.




(** ** Splitting a text at a separator *)

Section SplitFacts.

Open Scope string_scope.

Lemma prefix_nil (s : string) : String.prefix "" s = true.
Proof. destruct s; reflexivity. Qed.

Lemma prefix_cons (c d : ascii) (p s : string) :
  String.prefix (String c p) (String d s)
  = if ascii_dec c d then String.prefix p s else false.
Proof. reflexivity. Qed.

Lemma prefix_inv (p s : string) :
  String.prefix p s = true -> exists r, s = p ++ r.
Proof.
  revert s. induction p as [|c p IH]; intros s H.
  - exists s. reflexivity.
  - destruct s as [|d s]; [discriminate|].
    rewrite prefix_cons in H.
    destruct (ascii_dec c d) as [->|]; [|discriminate].
    destruct (IH s H) as [r ->]. exists r. reflexivity.
Qed.

Lemma prefix_app (p a r : string) :
  String.prefix p a = true -> String.prefix p (a ++ r) = true.
Proof.
  revert a. induction p as [|c p IH]; intros a H; [apply prefix_nil|].
  destruct a as [|d a]; [discriminate|].
  rewrite prefix_cons in H. cbn [append]. rewrite prefix_cons.
  destruct (ascii_dec c d); [apply IH; assumption | discriminate].
Qed.

Lemma prefix_refl_app (p r : string) : String.prefix p (p ++ r) = true.
Proof.
  induction p as [|c p IH]; [apply prefix_nil|].
  cbn [append]. rewrite prefix_cons.
  destruct (ascii_dec c c); [assumption | congruence].
Qed.

Lemma length_app (a b : string) :
  String.length (a ++ b) = (String.length a + String.length b)%nat.
Proof.
  induction a as [|c a IH]; simpl; [reflexivity | rewrite IH; reflexivity].
Qed.

(** The separator: any non-empty string. *)
Variable c0 : ascii.
Variable sep0 : string.

Let sep : string := String c0 sep0.

Lemma split_go_nonempty (k : nat) (s : string) : PyStr.split_go sep k s <> [].
Proof.
  revert k. induction s as [|c s IH]; intros k; cbn [PyStr.split_go];
    [discriminate|].
  destruct k as [|k]; [|apply IH].
  destruct (String.prefix sep (String c s)); [discriminate|].
  destruct (PyStr.split_go sep 0 s); discriminate.
Qed.

(** Once a separator has matched, the scan resumes right after it. *)
Lemma split_go_skip (p r : string) :
  PyStr.split_go sep (String.length p) (p ++ r) = PyStr.split_go sep 0 r.
Proof.
  induction p as [|c p IH]; simpl; [reflexivity | exact IH].
Qed.

Lemma split_go_match (r : string) :
  PyStr.split_go sep 0 (sep ++ r) = "" :: PyStr.split_go sep 0 r.
Proof.
  pose proof (prefix_refl_app sep r) as H.
  change (sep ++ r) with (String c0 (sep0 ++ r)) in *.
  cbn [PyStr.split_go]. rewrite H. f_equal.
  replace (String.length sep - 1)%nat with (String.length sep0)
    by (unfold sep; simpl; lia).
  apply split_go_skip.
Qed.

Lemma concat_cons (h : string) (l : list string) :
  l <> [] -> String.concat sep (h :: l) = h ++ sep ++ String.concat sep l.
Proof.
  destruct l; [congruence | reflexivity].
Qed.

(** Joining the pieces with the separator gives the text back: a split
    removes occurrences of the separator and nothing else. *)
Lemma split_join_bounded (n : nat) :
  forall s : string,
    (String.length s <= n)%nat ->
    String.concat sep (PyStr.split_go sep 0 s) = s.
Proof.
  induction n as [|n IH]; intros s Hn.
  - destruct s; [reflexivity | simpl in Hn; lia].
  - destruct s as [|c s]; [reflexivity|].
    destruct (String.prefix sep (String c s)) eqn:E.
    + destruct (prefix_inv _ _ E) as [r Er]. rewrite Er.
      rewrite split_go_match.
      rewrite concat_cons by apply split_go_nonempty.
      rewrite IH; [reflexivity|].
      assert (L : String.length (String c s) = String.length (sep ++ r))
        by (rewrite Er; reflexivity).
      rewrite length_app in L. unfold sep in L. simpl in L, Hn. lia.
    + cbn [PyStr.split_go]. rewrite E.
      pose proof (IH s ltac:(simpl in Hn; lia)) as Hs.
      pose proof (@split_go_nonempty 0 s) as Hne.
      destruct (PyStr.split_go sep 0 s) as [|h t]; [congruence|].
      rewrite <- Hs. destruct t; reflexivity.
Qed.

Lemma split_head_prefix (s : string) :
  exists r, s = hd "" (PyStr.split_go sep 0 s) ++ r.
Proof.
  induction s as [|c s [r IH]]; [exists ""; reflexivity|].
  cbn [PyStr.split_go].
  destruct (String.prefix sep (String c s)); [exists (String c s); reflexivity|].
  pose proof (@split_go_nonempty 0 s) as Hne.
  destruct (PyStr.split_go sep 0 s) as [|h t]; [congruence|].
  simpl in *. exists r. congruence.
Qed.

(** No piece contains the separator. *)
Lemma split_pieces_clean (s : string) :
  forall k : nat,
    Forall (fun piece => PyStr.occurs sep piece = false) (PyStr.split_go sep k s).
Proof.
  induction s as [|c s IH]; intros k.
  - repeat constructor.
  - cbn [PyStr.split_go]. destruct k as [|k]; [|apply IH].
    destruct (String.prefix sep (String c s)) eqn:E.
    + constructor; [reflexivity | apply IH].
    + pose proof (IH 0%nat) as H0.
      pose proof (@split_go_nonempty 0 s) as Hne.
      destruct (split_head_prefix s) as [r Hr].
      destruct (PyStr.split_go sep 0 s) as [|h t]; [congruence|].
      cbn [hd] in Hr. rewrite Hr in E.
      apply Forall_cons_iff in H0. destruct H0 as [Hh Ht].
      constructor; [|assumption].
      cbn [PyStr.occurs]. rewrite Hh, orb_false_r.
      destruct (String.prefix sep (String c h)) eqn:P; [|reflexivity].
      change (String c (h ++ r)) with (String c h ++ r) in E.
      rewrite (prefix_app _ _ r P) in E. discriminate.
Qed.

End SplitFacts.

(** ** Records kept by the parser *)

Section ParseFacts.

Open Scope string_scope.

Lemma split1_contains (c : ascii) (s : string) :
  PyStr.contains c s = true ->
  exists a b, PyStr.split1 s c = [a; b]
              /\ s = a ++ String c b
              /\ PyStr.contains c a = false.
Proof.
  induction s as [|d s IH]; simpl; [discriminate|].
  destruct (Ascii.eqb c d) eqn:E.
  - intros _. apply Ascii.eqb_eq in E. subst d.
    exists "", s. repeat split.
  - intros H. destruct (IH H) as (a & b & E1 & E2 & E3).
    rewrite E1. exists (String d a), b. simpl. rewrite E, E3.
    repeat split. congruence.
Qed.

Lemma parse_section_cases (section : string) (r : option Catalog.Chunk) :
  Catalog.parse_section section = Ok r ->
  (CatalogSpec.kept (PyStr.strip section) = false /\ r = None)
  \/ (CatalogSpec.kept (PyStr.strip section) = true
      /\ exists chunk, r = Some chunk
                       /\ Catalog.content chunk = PyStr.strip section
                       /\ CatalogSpec.header_of chunk).
Proof.
  unfold Catalog.parse_section, CatalogSpec.kept.
  set (s := PyStr.strip section).
  destruct (negb (String.eqb s "") && PyStr.startswith s "SOP-") eqn:E1;
    cbn [andb]; [|intros [= <-]; left; split; reflexivity].
  fold (CatalogSpec.first_line s).
  destruct (PyStr.contains ":" (CatalogSpec.first_line s)) eqn:E2;
    [|intros [= <-]; left; split; reflexivity].
  destruct (split1_contains _ _ E2) as (a & b & S1 & S2 & S3).
  rewrite S1.
  destruct (PyStr.int (PyStr.replace a "SOP-" "")) as [n|e] eqn:E3;
    cbn [bind]; [|discriminate].
  intros [= <-]. right. split; [reflexivity|].
  eexists. split; [reflexivity|]. split; [reflexivity|].
  exists a, b. cbn [Catalog.content Catalog.sop_number Catalog.id Catalog.title].
  repeat split; assumption.
Qed.

Lemma parse_sections_kept (sections : list string) :
  forall chunks : list Catalog.Chunk,
    Catalog.parse_sections sections = Ok chunks ->
    map Catalog.content chunks
    = filter CatalogSpec.kept (map PyStr.strip sections)
    /\ Forall CatalogSpec.header_of chunks.
Proof.
  induction sections as [|section rest IH]; intros chunks; cbn [Catalog.parse_sections].
  - intros [= <-]. split; [reflexivity | constructor].
  - destruct (Catalog.parse_section section) as [r|e] eqn:E; cbn [bind];
      [|discriminate].
    destruct (Catalog.parse_sections rest) as [cs|e] eqn:Er; cbn [bind];
      [|discriminate].
    destruct (IH cs eq_refl) as [Hc Hh].
    intros [= <-]. cbn [map filter].
    destruct (parse_section_cases _ E) as [[K ->]|[K (c & -> & C & H)]];
      rewrite K.
    + split; assumption.
    + cbn [map]. split; [congruence | constructor; assumption].
Qed.

(** A section that is empty, does not start with [SOP-] or has no colon
    in its first line adds nothing and raises nothing. *)
Lemma parse_section_skips (section : string) :
  CatalogSpec.kept (PyStr.strip section) = false ->
  Catalog.parse_section section = Ok None.
Proof.
  unfold Catalog.parse_section, CatalogSpec.kept.
  set (s := PyStr.strip section).
  fold (CatalogSpec.first_line s).
  destruct (negb (String.eqb s "") && PyStr.startswith s "SOP-");
    cbn [andb]; [|reflexivity].
  intros ->. reflexivity.
Qed.

End ParseFacts.

(** C3, as amended: the text is cut at every occurrence of the three
    characters [---], wherever they stand (joining the pieces with [---]
    gives the text back, and no piece contains [---]); when parsing
    returns, the records kept are, in order, the pieces that after trimming
    are not empty, start with [SOP-] and have a colon in their trimmed
    first line; the whole trimmed piece, header line included, is the
    [content] of the record, and the text before the first colon of the
    header, with [SOP-] removed, reads as the integer that numbers it. *)
Theorem parse_sops_grammar (text : string) (chunks : list Catalog.Chunk) :
  Catalog.parse_sops text = Ok chunks ->
  let pieces := PyStr.split text "---" in
  String.concat "---" pieces = text
  /\ Forall (fun piece => PyStr.occurs "---" piece = false) pieces
  /\ map Catalog.content chunks
     = filter CatalogSpec.kept (map PyStr.strip pieces)
  /\ Forall CatalogSpec.header_of chunks.
Proof.
  intros H pieces. subst pieces. unfold PyStr.split.
  split; [apply (split_join_bounded "-" "--" (n := String.length text)); lia|].
  split; [apply (split_pieces_clean "-" "--")|].
  apply parse_sections_kept. exact H.
Qed.

Lemma parse_sops_grammar_witness :
  let pieces := PyStr.split Samples.two_sops "---" in
  String.concat "---" pieces = Samples.two_sops
  /\ Forall (fun piece => PyStr.occurs "---" piece = false) pieces
  /\ map Catalog.content (Samples.chunks_of Samples.two_sops)
     = filter CatalogSpec.kept (map PyStr.strip pieces)
  /\ Forall CatalogSpec.header_of (Samples.chunks_of Samples.two_sops).
Proof.
  apply (@parse_sops_grammar Samples.two_sops). reflexivity.
Defined.

(** C3, as stated, fails: a record body that uses three dashes inside a
    line is cut there, although no line of the text before it is the
    delimiter; the content stored for the first record stops at the
    dashes. *)
Lemma parse_sops_cuts_inside_line :
  Catalog.parse_sops Samples.dashes_in_body
  <> Catalog.parse_sections (CatalogSpec.records_by_line Samples.dashes_in_body)
  /\ map Catalog.content (Samples.chunks_of Samples.dashes_in_body)
     = ["SOP-001: Database Outage
Step 1"; "SOP-002: API Slowness
api response time high"]%string
  /\ CatalogSpec.records_by_line Samples.dashes_in_body
     = ["SOP-001: Database Outage
Step 1 --- restart the service"; "SOP-002: API Slowness
api response time high"]%string.
Proof.
  split; [|split]; [|reflexivity|reflexivity].
  vm_compute. intros H. discriminate H.
Qed.

(** C2, at the failing input: the second record has the header
    [SOP-X: API Slowness]; [int('X')] raises, and the exception leaves
    [parse_sops] without any record, the well-formed first and third
    included. *)
Lemma parse_sops_aborts_on_non_integer_header :
  Catalog.parse_sops Samples.broken_header
  = Raise (ValueError "invalid literal for int() with base 10: 'X'").
Proof. reflexivity. Qed.

(** ** Normalisation *)

Section NormalizeFacts.

Open Scope Q_scope.



End NormalizeFacts.




(** ** Entries of the result list *)

Section EntryFacts.

Open Scope Q_scope.

Lemma Forall2_refine (A B : Type) (P R : A -> B -> Prop) (Q : B -> Prop)
      (l1 : list A) (l2 : list B) :
  Forall2 P l1 l2 -> Forall Q l2 ->
  (forall x y, P x y -> Q y -> R x y) ->
  Forall2 R l1 l2.
Proof.
  intros F HQ H. induction F as [|x y l1 l2 Hxy F IH]; constructor.
  - apply H; [assumption | apply (Forall_inv HQ)].
  - apply IH. apply (Forall_inv_tail HQ).
Qed.

Variable self : Identifier.
Variable query : string.
Variable top_k : Z.
Variables semantic_weight bm25_weight : Q.

(** Every returned entry is built from the row it stands for: the chunk of
    that row, the normalised scores of that row and their weighted sum. *)
Lemma retrieve_entries :
  Retrieval.ready self query = true ->
  exists sc rs,
    Retrieval.score self query semantic_weight bm25_weight = Ok sc
    /\ Retrieval.retrieve_relevant_sops self query top_k
         semantic_weight bm25_weight = Ok rs
    /\ Forall2
         (fun r idx =>
            exists chunk semantic lexical,
              nth_error (sop_chunks self) idx = Some chunk
              /\ nth_error (Retrieval.semantic_scores_norm sc) idx = Some semantic
              /\ nth_error (Retrieval.bm25_scores_norm sc) idx = Some lexical
              /\ nth_error (Retrieval.hybrid_scores sc) idx
                 = Some (semantic_weight * semantic + bm25_weight * lexical)
              /\ r = Candidate.mk
                       (Catalog.id chunk) (Catalog.title chunk)
                       (Catalog.sop_number chunk)
                       (Numpy.round
                          (semantic_weight * semantic + bm25_weight * lexical) 4)
                       (Retrieval.level_of
                          (semantic_weight * semantic + bm25_weight * lexical))
                       (Numpy.round semantic 4)
                       (Numpy.round lexical 4)
                       (PyStr.take 200 (Catalog.content chunk) ++ "..."))
         rs (Retrieval.top_indices (Retrieval.hybrid_scores sc) top_k).
Proof.
  intros Hready.
  destruct (score_ready self query semantic_weight bm25_weight Hready)
    as (search & g & sem & sc0 & _ & _ & _ & _ & _ & Eh & Ls & Lb & Lh & _ & E0).
  destruct (retrieve_ready self query top_k semantic_weight bm25_weight Hready)
    as (sc & rs & E & Er & F).
  assert (sc0 = sc) by congruence. subst sc0.
  exists sc, rs. split; [assumption|]. split; [assumption|].
  eapply Forall2_refine;
    [exact F | apply (top_indices_in_range (Retrieval.hybrid_scores sc) top_k)|].
  intros r idx Hc R. cbn beta in R. rewrite Lh in R.
  destruct (candidate_ok self sc Ls Lb Lh R)
    as (h & c & x & y & Hh & Hch & Hx & Hy & Ec).
  assert (Hh' : nth_error (Retrieval.hybrid_scores sc) idx
                = Some (semantic_weight * x + bm25_weight * y)).
  { rewrite Eh. apply nth_error_zip_add; apply nth_error_scale; assumption. }
  assert (h = semantic_weight * x + bm25_weight * y) by congruence. subst h.
  exists c, x, y. repeat split; try assumption. congruence.
Qed.

End EntryFacts.

Section DecisionFacts.

Open Scope Q_scope.

Lemma level_of_breakpoints (s : Q) :
  (0.7 <= s -> Retrieval.level_of s = HIGH)
  /\ (0.4 <= s -> s < 0.7 -> Retrieval.level_of s = MEDIUM)
  /\ (s < 0.4 -> Retrieval.level_of s = LOW).
Proof.
  unfold Retrieval.level_of.
  destruct (Qle_bool 0.7 s) eqn:E7; destruct (Qle_bool 0.4 s) eqn:E4;
    qle_props; repeat split; intros; try reflexivity; exfalso; lra.
Qed.

Lemma recommend_breakpoints (s t : Q) (title : string) :
  (0.7 <= s -> fst (Retrieval.recommend s t title) = ACCEPT)
  /\ (t <= s -> s < 0.7 -> fst (Retrieval.recommend s t title) = REVIEW)
  /\ (s < t -> s < 0.7 -> fst (Retrieval.recommend s t title) = REJECT).
Proof.
  unfold Retrieval.recommend.
  destruct (Qle_bool 0.7 s) eqn:E7; destruct (Qle_bool t s) eqn:Et;
    qle_props; repeat split; intros; try reflexivity; exfalso; lra.
Qed.

(** The two shapes of the dictionary returned by [select_best_sop]. *)
Lemma select_best_sop_cases
      (self : Identifier) (query : string) (top_k : Z) (threshold : Q)
      (rs : list Candidate.t) :
  Retrieval.retrieve_relevant_sops self query top_k 0.6 0.4 = Ok rs ->
  exists d,
    Retrieval.select_best_sop self query top_k threshold = Ok d
    /\ Decision.retrieved_sops d = rs
    /\ match rs with
       | [] =>
           Decision.selected_sop_id d = None
           /\ Decision.selected_sop_title d = None
           /\ Decision.confidence_score d = 0.0
           /\ Decision.confidence_level d = NONE
           /\ Decision.recommendation d = NO_MATCH
           /\ Decision.alternative_sops d = None
       | best :: rest =>
           Decision.selected_sop_id d = Some (Candidate.id best)
           /\ Decision.selected_sop_title d = Some (Candidate.title best)
           /\ Decision.confidence_score d = Candidate.confidence_score best
           /\ Decision.confidence_level d = Candidate.confidence_level best
           /\ Decision.recommendation d
              = fst (Retrieval.recommend (Candidate.confidence_score best)
                       threshold (Candidate.title best))
           /\ Decision.alternative_sops d = Some rest
       end.
Proof.
  intros E. unfold Retrieval.select_best_sop. rewrite E. cbn [bind].
  destruct rs as [|best rest].
  - eexists. split; [reflexivity|]. cbn. repeat split.
  - destruct (Retrieval.recommend (Candidate.confidence_score best) threshold
                (Candidate.title best)) as [rec reason] eqn:R.
    eexists. split; [reflexivity|]. cbn. repeat split.
Qed.

End DecisionFacts.

(** ** Fusion and rounding *)




(** ** Confidence tier *)



(** ** Recommendation *)




(** A threshold above 0.70 does not turn an accepted match into a
    rejected one: the top fused score of [thirds] is 0.8, below the
    threshold 0.9, and the recommendation is [ACCEPT]. *)
Lemma accept_below_high_threshold :
  exists d,
    Retrieval.select_best_sop Samples.thirds "api" 3 0.9 = Ok d
    /\ Decision.confidence_score d == 0.8
    /\ Decision.recommendation d = ACCEPT.
Proof.
  eexists. split; [vm_compute; reflexivity|]. split; reflexivity.
Qed.



(** ** Range of the scores *)

Section RangeFacts.

Open Scope Q_scope.

Lemma round_half_even_bounds (y : Q) (lo hi : Z) :
  inject_Z lo <= y -> y <= inject_Z hi ->
  (lo <= Numpy.round_half_even y <= hi)%Z.
Proof.
  intros Hlo Hhi.
  assert (Flo : (lo <= Qfloor y)%Z)
    by (rewrite <- (Qfloor_Z lo); apply Qfloor_resp_le; assumption).
  assert (Fhi : (Qfloor y <= hi)%Z)
    by (rewrite <- (Qfloor_Z hi); apply Qfloor_resp_le; assumption).
  unfold Numpy.round_half_even.
  destruct (Z.eq_dec (Qfloor y) hi) as [E|N].
  - assert (L : Qcompare (y - inject_Z (Qfloor y)) (1 # 2) = Lt).
    { rewrite <- Qlt_alt. rewrite E. lra. }
    rewrite L. lia.
  - destruct (Qcompare (y - inject_Z (Qfloor y)) (1 # 2));
      [destruct (Z.even (Qfloor y))| |]; lia.
Qed.

Lemma round_unit_interval (x : Q) :
  0 <= x -> x <= 1 -> 0 <= Numpy.round x 4 /\ Numpy.round x 4 <= 1.
Proof.
  intros H0 H1. unfold Numpy.round.
  change (inject_Z (10 ^ Z.of_nat 4)) with (inject_Z 10000).
  destruct (@round_half_even_bounds (x * inject_Z 10000) 0 10000) as [L U].
  - change (inject_Z 0) with 0. change (inject_Z 10000) with (10000 # 1). lra.
  - change (inject_Z 10000) with (10000 # 1). lra.
  - set (z := Numpy.round_half_even (x * inject_Z 10000)) in *.
    assert (QL : inject_Z 0 <= inject_Z z) by (rewrite <- Zle_Qle; assumption).
    assert (QU : inject_Z z <= inject_Z 10000)
      by (rewrite <- Zle_Qle; assumption).
    change (inject_Z 0) with 0 in QL.
    change (inject_Z 10000) with (10000 # 1) in *.
    split.
    + apply Qle_shift_div_l; lra.
    + apply Qle_shift_div_r; lra.
Qed.

Lemma update_Forall (P : Q -> Prop) (a : list Q) (i : nat) (v : Q) :
  Forall P a -> P v -> Forall P (Numpy.update a i v).
Proof.
  intros Ha Hv. revert i. induction Ha as [|x a Hx Ha IH]; intros [|i]; simpl;
    constructor; auto.
Qed.

Lemma fill_semantic_nonneg (hits : list (Z * Q)) :
  forall a a' : list Q,
    Forall (fun x => 0 <= x) a ->
    Forall (fun hit => 0 <= snd hit) hits ->
    Retrieval.fill_semantic a hits = Ok a' ->
    Forall (fun x => 0 <= x) a'.
Proof.
  induction hits as [|[idx d] hits IH]; intros a a' Ha Hh; simpl.
  - intros [= <-]. assumption.
  - apply Forall_cons_iff in Hh. destruct Hh as [Hd Hh]. simpl in Hd.
    destruct (idx =? -1)%Z; [apply IH; assumption|].
    unfold Numpy.setitem.
    destruct ((0 <=? idx)%Z && (idx <? Z.of_nat (List.length a))%Z);
      [|destruct ((- Z.of_nat (List.length a) <=? idx)%Z && (idx <? 0)%Z)];
      cbn [bind]; try discriminate;
      apply IH; try assumption; apply update_Forall; assumption.
Qed.

Lemma normalize_unit_interval (raw normed : list Q) :
  Forall (fun x => 0 <= x) raw ->
  Retrieval.normalize raw = Ok normed ->
  Forall (fun x => 0 <= x /\ x <= 1) normed.
Proof.
  intros Hnn. unfold Retrieval.normalize.
  destruct (Numpy.max raw) as [m|e] eqn:Hmax; cbn [bind]; [|discriminate].
  intros [= <-]. destruct (max_spec _ Hmax) as [Hin Hall].
  rewrite Forall_forall in *.
  destruct (Numpy.Qltb 0 m) eqn:E.
  - apply Qltb_lt in E. intros y Hy. unfold Numpy.div_scalar in Hy.
    apply in_map_iff in Hy. destruct Hy as (x & <- & Hx).
    pose proof (Hnn x Hx). pose proof (Hall x Hx). split.
    + apply Qle_shift_div_l; lra.
    + apply Qle_shift_div_r; lra.
  - assert (N : ~ 0 < m) by (intros L; apply Qltb_lt in L; congruence).
    pose proof (Hnn m Hin).
    intros x Hx. pose proof (Hnn x Hx). pose proof (Hall x Hx). lra.
Qed.

(** X7: where the interval [0, 1] does hold: when no inner product
    returned by the search and no lexical score is negative, every
    candidate returned under the weights 0.6 and 0.4 carries three scores
    of [0, 1]. *)
Lemma scores_in_unit_interval_when_nonnegative
      (self : Identifier) (query : string) (top_k : Z)
      (search : string -> nat -> list (Z * Q)) (get_scores : string -> list Q) :
  Retrieval.ready self query = true ->
  faiss_index self = Some search ->
  bm25 self = Some get_scores ->
  Forall (fun hit => 0 <= snd hit)
         (search query (Nat.min (List.length (sop_chunks self)) 100)) ->
  Forall (fun x => 0 <= x) (get_scores query) ->
  exists rs,
    Retrieval.retrieve_relevant_sops self query top_k 0.6 0.4 = Ok rs
    /\ Forall (fun r =>
                 (0 <= Candidate.confidence_score r
                  /\ Candidate.confidence_score r <= 1)
                 /\ (0 <= Candidate.semantic_score r
                     /\ Candidate.semantic_score r <= 1)
                 /\ (0 <= Candidate.bm25_score r
                     /\ Candidate.bm25_score r <= 1)) rs.
Proof.
  intros H Ef Eb Hs Hl.
  destruct (score_ready self query 0.6 0.4 H)
    as (search' & g' & sem & sc0 & Ef' & Eb' & Es & Ns & Nl & _ & _ & _ & _ & _ & E0).
  rewrite Ef in Ef'. injection Ef' as <-. rewrite Eb in Eb'. injection Eb' as <-.
  assert (Hsem : Forall (fun x => 0 <= x) sem).
  { eapply fill_semantic_nonneg; [|exact Hs|exact Es].
    unfold Numpy.zeros. apply Forall_forall. intros x Hx.
    apply repeat_spec in Hx. subst x. apply Qle_refl. }
  pose proof (normalize_unit_interval Hsem Ns) as Us.
  pose proof (normalize_unit_interval Hl Nl) as Ul.
  destruct (retrieve_entries self query top_k 0.6 0.4 H)
    as (sc & rs & E & Er & F).
  assert (sc0 = sc) by congruence. subst sc0.
  exists rs. split; [assumption|].
  rewrite Forall_forall in Us, Ul.
  clear Er. induction F as [|r idx rs rows (c & x & y & _ & Hx & Hy & _ & ->) F IH];
    constructor; [|assumption].
  apply nth_error_In in Hx, Hy.
  destruct (Us x Hx) as [X0 X1]. destruct (Ul y Hy) as [Y0 Y1].
  cbn [Candidate.confidence_score Candidate.semantic_score Candidate.bm25_score].
  split; [|split]; apply round_unit_interval; lra.
Qed.

End RangeFacts.

(** C9, at the failing input: row 0 of [negative_cosine] has cosine
    similarity -0.5 with the query and row 1 has 0.5; dividing by the
    maximum 0.5 gives row 0 the normalised semantic score -1 and the fused
    score -0.6, and both are returned, below the interval [0, 1]. *)
Lemma negative_cosine_leaves_unit_interval :
  exists sc r0 r1,
    Retrieval.score Samples.negative_cosine "weather" 0.6 0.4 = Ok sc
    /\ Retrieval.semantic_scores_norm sc = [-0.5 / 0.5; 0.5 / 0.5]
    /\ Retrieval.retrieve_relevant_sops Samples.negative_cosine "weather" 2
         0.6 0.4 = Ok [r0; r1]
    /\ Candidate.sop_number r1 = 1%Z
    /\ Candidate.semantic_score r1 == -1
    /\ Candidate.confidence_score r1 == -0.6
    /\ ~ 0 <= Candidate.semantic_score r1
    /\ ~ 0 <= Candidate.confidence_score r1.
Proof.
  eexists. eexists. eexists.
  split; [vm_compute; reflexivity|].
  split; [reflexivity|].
  split; [vm_compute; reflexivity|].
  cbn [Candidate.sop_number Candidate.semantic_score Candidate.confidence_score].
  repeat split; try reflexivity; intros H; vm_compute in H; apply H; reflexivity.
Qed.

(** ** Rounding and the recommendation *)



(** ** The sample scores in binary64

    The scores of the samples, computed with the float operations of the
    source instead of exact rationals, stay on the same side of every
    bound used above. *)

Module Binary64.

Import PrimFloat.
Open Scope float_scope.
Local Set Warnings "-inexact-float".

(** [near_breakpoint], row 0: the fused score is below 0.7 and within
    0.00005 of it, so its tier is [MEDIUM] and it rounds to 0.7. *)
Example near_breakpoint_fused :
  let s := 0.6 * (1 / 1) + 0.4 * (0.2499 / 1) in
  ((0.4 <=? s) && (s <? 0.7) && (0.69995 <? s))%bool = true.
Proof. reflexivity. Qed.

(** [thirds], row 1: the fused score rounds to 0.6, the normalised
    semantic score to 0.3333, and the recomputation from the rounded
    fields falls short of 0.6. *)
Example thirds_fused :
  let x := 0.3 / 0.9 in
  let s := 0.6 * x + 0.4 * (1 / 1) in
  ((0.59995 <? s) && (s <? 0.60005)
   && (0.33325 <? x) && (x <? 0.33335)
   && (0.6 * 0.3333 + 0.4 * 1 <? 0.59999))%bool = true.
Proof. reflexivity. Qed.

(** [negative_cosine], row 0: the normalised semantic score is -1 and the
    fused score is negative. *)
Example negative_cosine_fused :
  let x := (-0.5) / 0.5 in
  ((x =? -1) && (0.6 * x + 0.4 * 0 <? 0))%bool = true.
Proof. reflexivity. Qed.

End Binary64.

(** * Further properties of the retrieval *)

(** ** Which rows are returned *)

Section RowFacts.

Open Scope Q_scope.

Lemma insert_perm (key : nat -> Q) (i : nat) (l : list nat) :
  Permutation (Numpy.insert key i l) (i :: l).
Proof.
  induction l as [|j l IH]; simpl; [reflexivity|].
  destruct (Qle_bool (key i) (key j)); [reflexivity|].
  rewrite IH. apply perm_swap.
Qed.

Lemma sort_perm (key : nat -> Q) (l : list nat) :
  Permutation (fold_right (Numpy.insert key) [] l) l.
Proof.
  induction l as [|i l IH]; simpl; [reflexivity|].
  rewrite insert_perm. constructor. assumption.
Qed.

(** [argsort] lists every index of the array once. *)
Lemma argsort_perm (a : list Q) :
  Permutation (Numpy.argsort a) (seq 0 (List.length a)).
Proof. apply sort_perm. Qed.

Lemma firstn_NoDup (A : Type) (n : nat) (l : list A) :
  NoDup l -> NoDup (firstn n l).
Proof.
  intros H. revert n. induction H as [|x l Hx H IH]; intros [|n]; simpl;
    try constructor; [|apply IH].
  intros Hin. apply Hx. rewrite <- (firstn_skipn n l).
  apply in_or_app. left. assumption.
Qed.

Lemma top_indices_NoDup (hybrid : list Q) (top_k : Z) :
  NoDup (Retrieval.top_indices hybrid top_k).
Proof.
  unfold Retrieval.top_indices, Numpy.slice_to.
  assert (H : NoDup (rev (Numpy.argsort hybrid))).
  { apply NoDup_rev. eapply Permutation_NoDup;
      [symmetry; apply argsort_perm | apply seq_NoDup]. }
  destruct (0 <=? top_k)%Z; apply firstn_NoDup; assumption.
Qed.

Lemma top_indices_all (hybrid : list Q) (top_k : Z) :
  (Z.of_nat (List.length hybrid) <= top_k)%Z ->
  Permutation (Retrieval.top_indices hybrid top_k)
              (seq 0 (List.length hybrid)).
Proof.
  intros H. unfold Retrieval.top_indices. rewrite slice_to_firstn by lia.
  rewrite firstn_all2 by (rewrite length_rev, argsort_length; lia).
  rewrite <- Permutation_rev. apply argsort_perm.
Qed.

Lemma slice_to_length (A : Type) (l : list A) (k : Z) :
  List.length (Numpy.slice_to l k)
  = if (0 <=? k)%Z then Nat.min (Z.to_nat k) (List.length l)
    else (List.length l - Z.to_nat (- k))%nat.
Proof.
  unfold Numpy.slice_to. destruct (0 <=? k)%Z; rewrite length_firstn; lia.
Qed.

(** The head of the selection bounds the key of every index. *)
Lemma top_indices_head_max (hybrid : list Q) (top_k : Z) (idx : nat)
      (rows : list nat) :
  Retrieval.top_indices hybrid top_k = idx :: rows ->
  forall i : nat, (i < List.length hybrid)%nat ->
             Numpy.key_of hybrid i <= Numpy.key_of hybrid idx.
Proof.
  unfold Retrieval.top_indices, Numpy.slice_to. intros E i Hi.
  assert (Hin : In i (rev (Numpy.argsort hybrid))).
  { apply in_rev. rewrite rev_involutive.
    eapply Permutation_in; [symmetry; apply argsort_perm|].
    apply in_seq. lia. }
  pose proof (StronglySorted_rev (argsort_sorted hybrid)) as Hs.
  destruct (rev (Numpy.argsort hybrid)) as [|t l] eqn:El; [destruct Hin|].
  assert (t = idx).
  { destruct (0 <=? top_k)%Z.
    - destruct (Z.to_nat top_k); simpl in E; congruence.
    - destruct (List.length (t :: l) - Z.to_nat (- top_k))%nat;
        simpl in E; congruence. }
  subst t. apply StronglySorted_inv in Hs. destruct Hs as [_ Hs].
  destruct Hin as [<-|Hin]; [apply Qle_refl|].
  rewrite Forall_forall in Hs. apply before_le. apply Hs. assumption.
Qed.

End RowFacts.

(** X1: whatever [top_k] is, no row of the catalog is returned twice; when
    [top_k] is at least the size of the catalog every row is returned
    exactly once. *)
Theorem retrieve_rows_distinct
        (self : Identifier) (query : string) (top_k : Z)
        (semantic_weight bm25_weight : Q) :
  Retrieval.ready self query = true ->
  exists sc rs,
    Retrieval.score self query semantic_weight bm25_weight = Ok sc
    /\ Retrieval.retrieve_relevant_sops self query top_k
         semantic_weight bm25_weight = Ok rs
    /\ Forall2 (fun r idx => Retrieval.candidate self sc idx = Ok r) rs
         (Retrieval.top_indices (Retrieval.hybrid_scores sc) top_k)
    /\ NoDup (Retrieval.top_indices (Retrieval.hybrid_scores sc) top_k)
    /\ ((Z.of_nat (List.length (sop_chunks self)) <= top_k)%Z ->
        Permutation (Retrieval.top_indices (Retrieval.hybrid_scores sc) top_k)
                    (seq 0 (List.length (sop_chunks self)))).
Proof.
  intros H.
  destruct (score_ready self query semantic_weight bm25_weight H)
    as (search & g & sem & sc0 & _ & _ & _ & _ & _ & _ & _ & _ & Lh & _ & E0).
  destruct (retrieve_ready self query top_k semantic_weight bm25_weight H)
    as (sc & rs & E & Er & F).
  assert (sc0 = sc) by congruence. subst sc0.
  exists sc, rs. repeat split; try assumption.
  - apply top_indices_NoDup.
  - intros Hk. rewrite <- Lh. apply top_indices_all. rewrite Lh. assumption.
Qed.

Lemma retrieve_rows_distinct_witness :
  exists sc rs,
    Retrieval.score Samples.thirds "api" 0.6 0.4 = Ok sc
    /\ Retrieval.retrieve_relevant_sops Samples.thirds "api" 5 0.6 0.4 = Ok rs
    /\ Forall2 (fun r idx => Retrieval.candidate Samples.thirds sc idx = Ok r)
         rs (Retrieval.top_indices (Retrieval.hybrid_scores sc) 5)
    /\ NoDup (Retrieval.top_indices (Retrieval.hybrid_scores sc) 5)
    /\ ((Z.of_nat (List.length (sop_chunks Samples.thirds)) <= 5)%Z ->
        Permutation (Retrieval.top_indices (Retrieval.hybrid_scores sc) 5)
                    (seq 0 (List.length (sop_chunks Samples.thirds)))).
Proof.
  apply (@retrieve_rows_distinct Samples.thirds "api" 5 0.6 0.4). reflexivity.
Defined.

(** X2: for any [top_k], also zero or negative, the number of candidates
    is that of the slice [[:top_k]]: [min(top_k, n)] for [top_k >= 0], and
    [n - |top_k|] (never below zero) for a negative [top_k], which drops
    the [|top_k|] lowest-scored rows instead of raising. *)
Theorem retrieve_count_any_top_k
        (self : Identifier) (query : string) (top_k : Z)
        (semantic_weight bm25_weight : Q) :
  Retrieval.ready self query = true ->
  exists rs,
    Retrieval.retrieve_relevant_sops self query top_k
      semantic_weight bm25_weight = Ok rs
    /\ List.length rs
       = if (0 <=? top_k)%Z
         then Nat.min (Z.to_nat top_k) (List.length (sop_chunks self))
         else (List.length (sop_chunks self) - Z.to_nat (- top_k))%nat.
Proof.
  intros H.
  destruct (score_ready self query semantic_weight bm25_weight H)
    as (search & g & sem & sc0 & _ & _ & _ & _ & _ & _ & _ & _ & Lh & _ & E0).
  destruct (retrieve_ready self query top_k semantic_weight bm25_weight H)
    as (sc & rs & E & Er & F).
  assert (sc0 = sc) by congruence. subst sc0.
  exists rs. split; [assumption|].
  rewrite (Forall2_length F). unfold Retrieval.top_indices.
  rewrite slice_to_length, length_rev, argsort_length, Lh. reflexivity.
Qed.

Lemma retrieve_count_any_top_k_witness :
  exists rs,
    Retrieval.retrieve_relevant_sops Samples.thirds "api" (-1) 0.6 0.4 = Ok rs
    /\ List.length rs
       = if (0 <=? -1)%Z
         then Nat.min (Z.to_nat (-1)) (List.length (sop_chunks Samples.thirds))
         else (List.length (sop_chunks Samples.thirds) - Z.to_nat (- -1))%nat.
Proof.
  apply (@retrieve_count_any_top_k Samples.thirds "api" (-1) 0.6 0.4).
  reflexivity.
Defined.

(** X3: with [top_k >= 1] the first candidate stands for a row whose fused
    score is the largest of the whole catalog. *)
Theorem first_candidate_has_maximal_fused_score
        (self : Identifier) (query : string) (top_k : Z)
        (semantic_weight bm25_weight : Q) :
  Retrieval.ready self query = true ->
  (1 <= top_k)%Z ->
  exists sc best rest idx rows fused,
    Retrieval.score self query semantic_weight bm25_weight = Ok sc
    /\ Retrieval.retrieve_relevant_sops self query top_k
         semantic_weight bm25_weight = Ok (best :: rest)
    /\ Retrieval.top_indices (Retrieval.hybrid_scores sc) top_k = idx :: rows
    /\ Retrieval.candidate self sc idx = Ok best
    /\ nth_error (Retrieval.hybrid_scores sc) idx = Some fused
    /\ forall i s, nth_error (Retrieval.hybrid_scores sc) i = Some s ->
                   s <= fused.
Proof.
  intros H Hk.
  destruct (score_ready self query semantic_weight bm25_weight H)
    as (search & g & sem & sc0 & _ & _ & _ & _ & _ & _ & _ & _ & Lh & Hn & E0).
  destruct (retrieve_ready self query top_k semantic_weight bm25_weight H)
    as (sc & rs & E & Er & F).
  assert (sc0 = sc) by congruence. subst sc0.
  assert (Hlen : List.length rs
                 = Nat.min (Z.to_nat top_k) (List.length (sop_chunks self))).
  { rewrite (Forall2_length F). unfold Retrieval.top_indices.
    rewrite slice_to_length, length_rev, argsort_length, Lh.
    destruct (0 <=? top_k)%Z eqn:K; [reflexivity | apply Z.leb_gt in K; lia]. }
  remember (Retrieval.top_indices (Retrieval.hybrid_scores sc) top_k) as rows0
    eqn:Erows.
  destruct F as [|best idx rest rows Hc F]; [simpl in Hlen; lia|].
  destruct (nth_error (Retrieval.hybrid_scores sc) idx) as [fused|] eqn:Ef.
  - exists sc, best, rest, idx, rows, fused.
    split; [assumption|]. split; [assumption|]. split; [congruence|].
    split; [assumption|]. split; [exact Ef|].
    intros i x Hi.
    assert (Li : (i < List.length (Retrieval.hybrid_scores sc))%nat)
      by (apply nth_error_Some; congruence).
    symmetry in Erows.
    pose proof (@top_indices_head_max _ _ _ _ Erows i Li) as M.
    unfold Numpy.key_of in M.
    rewrite (nth_error_nth _ _ 0 Hi), (nth_error_nth _ _ 0 Ef) in M.
    assumption.
  - unfold Retrieval.candidate, Numpy.getitem in Hc. rewrite Ef in Hc.
    discriminate.
Qed.

Lemma first_candidate_has_maximal_fused_score_witness :
  exists sc best rest idx rows fused,
    Retrieval.score Samples.thirds "api" 0.6 0.4 = Ok sc
    /\ Retrieval.retrieve_relevant_sops Samples.thirds "api" 1 0.6 0.4
       = Ok (best :: rest)
    /\ Retrieval.top_indices (Retrieval.hybrid_scores sc) 1 = idx :: rows
    /\ Retrieval.candidate Samples.thirds sc idx = Ok best
    /\ nth_error (Retrieval.hybrid_scores sc) idx = Some fused
    /\ forall i s, nth_error (Retrieval.hybrid_scores sc) i = Some s ->
                   s <= fused.
Proof.
  apply (@first_candidate_has_maximal_fused_score Samples.thirds "api" 1 0.6 0.4).
  - reflexivity.
  - lia.
Defined.

(** ** Rounding keeps the order *)

Section RoundFacts.

Open Scope Q_scope.

Lemma round_half_even_near (x : Q) :
  (Qfloor x <= Numpy.round_half_even x <= Qfloor x + 1)%Z.
Proof.
  unfold Numpy.round_half_even.
  destruct (Qcompare (x - inject_Z (Qfloor x)) (1 # 2));
    [destruct (Z.even (Qfloor x))| |]; lia.
Qed.

Lemma round_half_even_mono (x y : Q) :
  x <= y -> (Numpy.round_half_even x <= Numpy.round_half_even y)%Z.
Proof.
  intros H. pose proof (Qfloor_resp_le _ _ H) as F.
  destruct (Z.eq_dec (Qfloor x) (Qfloor y)) as [E|N].
  - unfold Numpy.round_half_even. rewrite E.
    destruct (Qcompare (x - inject_Z (Qfloor y)) (1 # 2)) eqn:Cx;
      destruct (Qcompare (y - inject_Z (Qfloor y)) (1 # 2)) eqn:Cy;
      rewrite <- ?Qeq_alt, <- ?Qlt_alt, <- ?Qgt_alt in *;
      try (exfalso; lra); destruct (Z.even (Qfloor y)); lia.
  - pose proof (round_half_even_near x). pose proof (round_half_even_near y).
    lia.
Qed.

Lemma round_mono (x y : Q) (ndigits : nat) :
  x <= y -> Numpy.round x ndigits <= Numpy.round y ndigits.
Proof.
  intros H. unfold Numpy.round.
  set (p := inject_Z (10 ^ Z.of_nat ndigits)).
  assert (Hp : 0 < p).
  { unfold p. change 0 with (inject_Z 0). rewrite <- Zlt_Qlt.
    apply Z.pow_pos_nonneg; lia. }
  unfold Qdiv. apply Qmult_le_compat_r.
  - rewrite <- Zle_Qle. apply round_half_even_mono.
    apply Qmult_le_compat_r; [assumption | apply Qlt_le_weak; assumption].
  - apply Qlt_le_weak. apply Qinv_lt_0_compat. assumption.
Qed.

Lemma Forall2_sorted (A B : Type) (P : A -> B -> Prop)
      (R : B -> B -> Prop) (R' : A -> A -> Prop) (l : list A) (l' : list B) :
  Forall2 P l l' ->
  StronglySorted R l' ->
  (forall a1 b1 a2 b2, P a1 b1 -> P a2 b2 -> R b1 b2 -> R' a1 a2) ->
  StronglySorted R' l.
Proof.
  intros F S H. induction F as [|a b l l' Hab F IH]; [constructor|].
  apply StronglySorted_inv in S. destruct S as [S Hb].
  constructor; [apply IH; assumption|].
  clear IH S. induction F as [|a2 b2 l l' Hab2 F IH]; constructor.
  - apply (H a b a2 b2); [assumption | assumption | apply (Forall_inv Hb)].
  - apply IH. apply (Forall_inv_tail Hb).
Qed.

End RoundFacts.

(** X4: the confidence scores that the candidates carry, rounded as they
    are, never increase along the returned list. *)
Theorem returned_confidence_never_increases
        (self : Identifier) (query : string) (top_k : Z)
        (semantic_weight bm25_weight : Q) :
  Retrieval.ready self query = true ->
  exists rs,
    Retrieval.retrieve_relevant_sops self query top_k
      semantic_weight bm25_weight = Ok rs
    /\ StronglySorted
         (fun a b => Candidate.confidence_score b <= Candidate.confidence_score a)
         rs.
Proof.
  intros H.
  destruct (retrieve_entries self query top_k semantic_weight bm25_weight H)
    as (sc & rs & E & Er & F).
  exists rs. split; [assumption|].
  eapply Forall2_sorted;
    [exact F | apply (top_indices_descending (Retrieval.hybrid_scores sc) top_k)|].
  intros r1 i1 r2 i2 (c1 & x1 & y1 & _ & _ & _ & H1 & ->)
         (c2 & x2 & y2 & _ & _ & _ & H2 & ->) D.
  cbn [Candidate.confidence_score]. apply round_mono.
  apply before_le in D. unfold Numpy.key_of in D.
  rewrite (nth_error_nth _ _ 0 H1), (nth_error_nth _ _ 0 H2) in D.
  assumption.
Qed.

Lemma returned_confidence_never_increases_witness :
  exists rs,
    Retrieval.retrieve_relevant_sops Samples.near_breakpoint "database" 5
      0.6 0.4 = Ok rs
    /\ StronglySorted
         (fun a b => Candidate.confidence_score b <= Candidate.confidence_score a)
         rs.
Proof.
  apply (@returned_confidence_never_increases
           Samples.near_breakpoint "database" 5 0.6 0.4).
  reflexivity.
Defined.

(** ** When nothing is selected *)

Lemma recommend_is_a_verdict (c t : Q) (title : string) :
  fst (Retrieval.recommend c t title) <> NO_MATCH.
Proof.
  unfold Retrieval.recommend.
  destruct (Qle_bool 0.7 c); [discriminate|].
  destruct (Qle_bool t c); discriminate.
Qed.

(** X5: on an index ready for the query, [select_best_sop] answers
    [NO_MATCH] exactly when [top_k] is 0 or at most minus the size of the
    catalog, and exactly then it selects no record; with [top_k >= 1] a
    record is always selected, however low its score. *)
Theorem no_match_only_without_candidates
        (self : Identifier) (query : string) (top_k : Z) (threshold : Q) :
  Retrieval.ready self query = true ->
  exists d,
    Retrieval.select_best_sop self query top_k threshold = Ok d
    /\ (Decision.recommendation d = NO_MATCH
        <-> (top_k = 0 \/ top_k <= - Z.of_nat (List.length (sop_chunks self)))%Z)
    /\ (Decision.recommendation d = NO_MATCH
        <-> Decision.selected_sop_id d = None).
Proof.
  intros H.
  destruct (score_ready self query 0.6 0.4 H)
    as (search & g & sem & sc0 & _ & _ & _ & _ & _ & _ & _ & _ & Lh & Hn & E0).
  destruct (retrieve_ready self query top_k 0.6 0.4 H)
    as (sc & rs & E & Er & F).
  assert (sc0 = sc) by congruence. subst sc0.
  assert (Hlen : List.length rs
                 = if (0 <=? top_k)%Z
                   then Nat.min (Z.to_nat top_k) (List.length (sop_chunks self))
                   else (List.length (sop_chunks self) - Z.to_nat (- top_k))%nat).
  { rewrite (Forall2_length F). unfold Retrieval.top_indices.
    rewrite slice_to_length, length_rev, argsort_length, Lh. reflexivity. }
  destruct (select_best_sop_cases self query top_k threshold Er)
    as (d & Ed & _ & Hd).
  exists d. split; [assumption|].
  destruct rs as [|best rest].
  - destruct Hd as (Hid & _ & _ & _ & Hrec & _). rewrite Hrec, Hid.
    split; [|tauto]. split; [intros _|reflexivity].
    simpl in Hlen. destruct (0 <=? top_k)%Z eqn:K.
    + apply Z.leb_le in K. lia.
    + apply Z.leb_gt in K. lia.
  - destruct Hd as (Hid & _ & _ & _ & Hrec & _). rewrite Hrec, Hid.
    split; [|split; [intros C; exfalso; revert C; apply recommend_is_a_verdict
                    | discriminate]].
    split; [intros C; exfalso; revert C; apply recommend_is_a_verdict|].
    intros K. exfalso. simpl in Hlen.
    destruct (0 <=? top_k)%Z eqn:K'.
    + apply Z.leb_le in K'. lia.
    + apply Z.leb_gt in K'. lia.
Qed.

Lemma no_match_only_without_candidates_witness :
  exists d,
    Retrieval.select_best_sop Samples.thirds "api" 0 0.4 = Ok d
    /\ (Decision.recommendation d = NO_MATCH
        <-> (0 = 0
             \/ 0 <= - Z.of_nat (List.length (sop_chunks Samples.thirds)))%Z)
    /\ (Decision.recommendation d = NO_MATCH
        <-> Decision.selected_sop_id d = None).
Proof.
  apply (@no_match_only_without_candidates Samples.thirds "api" 0 0.4).
  reflexivity.
Defined.

(** X6: an identifier whose catalog is empty or whose FAISS index is
    missing, as right after construction, answers every retrieval with the
    [ValueError] that asks for [build_index] or [load_index], and
    [select_best_sop] passes that exception on instead of answering
    [NO_MATCH]. *)
Theorem unbuilt_index_raises
        (self : Identifier) (query : string) (top_k : Z)
        (semantic_weight bm25_weight threshold : Q) :
  sop_chunks self = [] \/ faiss_index self = None ->
  Retrieval.retrieve_relevant_sops self query top_k semantic_weight bm25_weight
  = Raise (ValueError
      "Index not built or loaded. Call build_index() or load_index() first.")
  /\ Retrieval.select_best_sop self query top_k threshold
     = Raise (ValueError
         "Index not built or loaded. Call build_index() or load_index() first.").
Proof.
  intros H.
  assert (E : forall sw bw,
             Retrieval.score self query sw bw
             = Raise (ValueError
                 "Index not built or loaded. Call build_index() or load_index() first.")).
  { intros sw bw. unfold Retrieval.score.
    destruct H as [-> | ->]; [reflexivity|].
    destruct (sop_chunks self); reflexivity. }
  unfold Retrieval.select_best_sop, Retrieval.retrieve_relevant_sops.
  rewrite !E. split; reflexivity.
Qed.

Lemma unbuilt_index_raises_witness :
  Retrieval.retrieve_relevant_sops
    {| sop_chunks := []; faiss_index := None; bm25 := None |}
    "database" 5 0.6 0.4
  = Raise (ValueError
      "Index not built or loaded. Call build_index() or load_index() first.")
  /\ Retrieval.select_best_sop
       {| sop_chunks := []; faiss_index := None; bm25 := None |}
       "database" 5 0.4
     = Raise (ValueError
         "Index not built or loaded. Call build_index() or load_index() first.").
Proof.
  apply (@unbuilt_index_raises
           {| sop_chunks := []; faiss_index := None; bm25 := None |}
           "database" 5 0.6 0.4 0.4).
  left. reflexivity.
Defined.

Lemma scores_in_unit_interval_when_nonnegative_witness :
  exists rs,
    Retrieval.retrieve_relevant_sops Samples.thirds "api" 2 0.6 0.4 = Ok rs
    /\ Forall (fun r =>
                 (0 <= Candidate.confidence_score r
                  /\ Candidate.confidence_score r <= 1)
                 /\ (0 <= Candidate.semantic_score r
                     /\ Candidate.semantic_score r <= 1)
                 /\ (0 <= Candidate.bm25_score r
                     /\ Candidate.bm25_score r <= 1)) rs.
Proof.
  apply (@scores_in_unit_interval_when_nonnegative
           Samples.thirds "api" 2
           (fun _ _ => [(0%Z, 0.9); (1%Z, 0.3)]) (fun _ => [0.5; 1])).
  - reflexivity.
  - reflexivity.
  - reflexivity.
  - repeat constructor; vm_compute; discriminate.
  - repeat constructor; vm_compute; discriminate.
Defined.

(** ** The best row of each modality *)

Section BestRowFacts.

Open Scope Q_scope.

Lemma update_nth_same (a : list Q) (i : nat) (v : Q) :
  (i < List.length a)%nat -> nth_error (Numpy.update a i v) i = Some v.
Proof.
  revert i. induction a as [|x a IH]; intros [|i] H; simpl in *;
    try lia; [reflexivity | apply IH; lia].
Qed.

Lemma update_nth_other (a : list Q) (i j : nat) (v : Q) :
  i <> j -> nth_error (Numpy.update a i v) j = nth_error a j.
Proof.
  revert i j. induction a as [|x a IH]; intros [|i] [|j] H; simpl;
    try reflexivity; try congruence.
  apply IH. congruence.
Qed.

(** A row that no later hit names keeps its score to the end of the
    loop. *)
Lemma fill_semantic_other (hits : list (Z * Q)) :
  forall (a a' : list Q) (j : nat),
    forallb (Retrieval.label_ok (List.length a)) hits = true ->
    Retrieval.fill_semantic a hits = Ok a' ->
    (forall hit, In hit hits -> fst hit <> Z.of_nat j) ->
    nth_error a' j = nth_error a j.
Proof.
  induction hits as [|[i v] hits IH]; intros a a' j Hl E Hj; simpl in *.
  - congruence.
  - apply andb_true_iff in Hl. destruct Hl as [Hi Hl].
    unfold Retrieval.label_ok in Hi. simpl in Hi.
    destruct (i =? -1)%Z eqn:Ei.
    + apply (IH a a' j); auto.
    + simpl in Hi. apply andb_true_iff in Hi. destruct Hi as [H0 H1].
      apply Z.leb_le in H0. apply Z.ltb_lt in H1.
      rewrite setitem_in_range in E by lia. cbn [bind] in E.
      rewrite (IH (Numpy.update a (Z.to_nat i) v) a' j); auto.
      * apply update_nth_other. intros C.
        apply (Hj (i, v)); [left; reflexivity|]. simpl. lia.
      * rewrite update_length. assumption.
Qed.

(** With pairwise distinct labels, the score stored for a hit is its
    inner product. *)
Lemma fill_semantic_hit (hits : list (Z * Q)) :
  forall (a a' : list Q) (idx : Z) (d : Q),
    forallb (Retrieval.label_ok (List.length a)) hits = true ->
    Retrieval.fill_semantic a hits = Ok a' ->
    NoDup (map fst hits) ->
    In (idx, d) hits -> idx <> (-1)%Z ->
    nth_error a' (Z.to_nat idx) = Some d.
Proof.
  induction hits as [|[i v] hits IH]; intros a a' idx d Hl E Hn Hin Hidx;
    [destruct Hin|].
  cbn [map fst] in Hn. apply NoDup_cons_iff in Hn. destruct Hn as [Hi Hn].
  pose proof Hl as Hl0.
  cbn [forallb] in Hl. apply andb_true_iff in Hl. destruct Hl as [Hv Hl].
  cbn [Retrieval.fill_semantic] in E.
  destruct Hin as [Heq|Hin].
  - injection Heq as -> ->.
    unfold Retrieval.label_ok in Hv. cbn [fst] in Hv.
    destruct (idx =? -1)%Z eqn:Ei; [apply Z.eqb_eq in Ei; contradiction|].
    simpl in Hv. apply andb_true_iff in Hv. destruct Hv as [H0 H1].
    apply Z.leb_le in H0. apply Z.ltb_lt in H1.
    rewrite setitem_in_range in E by lia. cbn [bind] in E.
    assert (Hl' : forallb (Retrieval.label_ok
                             (List.length (Numpy.update a (Z.to_nat idx) d)))
                          hits = true)
      by (rewrite update_length; assumption).
    rewrite (@fill_semantic_other hits _ a' (Z.to_nat idx) Hl' E).
    + apply update_nth_same. lia.
    + intros hit Hh C. apply Hi. apply in_map_iff. exists hit.
      split; [lia | assumption].
  - destruct (i =? -1)%Z eqn:Ei.
    + apply (IH a a' idx d); assumption.
    + unfold Retrieval.label_ok in Hv. cbn [fst] in Hv. rewrite Ei in Hv.
      simpl in Hv. apply andb_true_iff in Hv. destruct Hv as [H0 H1].
      apply Z.leb_le in H0. apply Z.ltb_lt in H1.
      rewrite setitem_in_range in E by lia. cbn [bind] in E.
      apply (IH (Numpy.update a (Z.to_nat i) v) a' idx d); try assumption.
      rewrite update_length. assumption.
Qed.

(** The first candidate, its row and the bound that row gives. *)
Lemma top_entry (self : Identifier) (query : string) (top_k : Z)
      (semantic_weight bm25_weight : Q) :
  Retrieval.ready self query = true ->
  (1 <= top_k)%Z ->
  exists sc best rest semantic lexical,
    Retrieval.score self query semantic_weight bm25_weight = Ok sc
    /\ Retrieval.retrieve_relevant_sops self query top_k
         semantic_weight bm25_weight = Ok (best :: rest)
    /\ Candidate.confidence_score best
       = Numpy.round (semantic_weight * semantic + bm25_weight * lexical) 4
    /\ Candidate.confidence_level best
       = Retrieval.level_of (semantic_weight * semantic + bm25_weight * lexical)
    /\ In semantic (Retrieval.semantic_scores_norm sc)
    /\ In lexical (Retrieval.bm25_scores_norm sc)
    /\ forall i s, nth_error (Retrieval.hybrid_scores sc) i = Some s ->
                   s <= semantic_weight * semantic + bm25_weight * lexical.
Proof.
  intros H Hk.
  destruct (score_ready self query semantic_weight bm25_weight H)
    as (search & g & sem & sc0 & _ & _ & _ & _ & _ & _ & _ & _ & Lh & Hn & E0).
  destruct (retrieve_entries self query top_k semantic_weight bm25_weight H)
    as (sc & rs & E & Er & F).
  assert (sc0 = sc) by congruence. subst sc0.
  assert (Hlen : List.length rs
                 = Nat.min (Z.to_nat top_k) (List.length (sop_chunks self))).
  { rewrite (Forall2_length F). unfold Retrieval.top_indices.
    rewrite slice_to_length, length_rev, argsort_length, Lh.
    destruct (0 <=? top_k)%Z eqn:K; [reflexivity | apply Z.leb_gt in K; lia]. }
  remember (Retrieval.top_indices (Retrieval.hybrid_scores sc) top_k) as rows0
    eqn:Erows.
  destruct F as [|best idx rest rows (c & x & y & _ & Hx & Hy & Hh & ->) F];
    [simpl in Hlen; lia|].
  exists sc, (Candidate.mk (Catalog.id c) (Catalog.title c)
                (Catalog.sop_number c)
                (Numpy.round (semantic_weight * x + bm25_weight * y) 4)
                (Retrieval.level_of (semantic_weight * x + bm25_weight * y))
                (Numpy.round x 4) (Numpy.round y 4)
                (PyStr.take 200 (Catalog.content c) ++ "...")), rest, x, y.
  split; [assumption|]. split; [assumption|].
  split; [reflexivity|]. split; [reflexivity|].
  split; [eapply nth_error_In; exact Hx|].
  split; [eapply nth_error_In; exact Hy|].
  intros i v Hi.
  assert (Li : (i < List.length (Retrieval.hybrid_scores sc))%nat)
    by (apply nth_error_Some; congruence).
  symmetry in Erows.
  pose proof (@top_indices_head_max _ _ _ _ Erows i Li) as M.
  unfold Numpy.key_of in M.
  rewrite (nth_error_nth _ _ 0 Hi), (nth_error_nth _ _ 0 Hh) in M.
  assumption.
Qed.

(** The row that holds a positive maximum is normalised to 1, and no
    normalised entry exceeds 1. *)
Lemma normalize_best_row (raw normed : list Q) (m : Q) (r : nat) :
  Retrieval.normalize raw = Ok normed ->
  Numpy.max raw = Ok m -> 0 < m ->
  nth_error raw r = Some m ->
  (exists one, nth_error normed r = Some one /\ one == 1)
  /\ Forall (fun x => x <= 1) normed.
Proof.
  unfold Retrieval.normalize. intros E Hmax Hpos Hr.
  rewrite Hmax in E. cbn [bind] in E.
  assert (L : Numpy.Qltb 0 m = true) by (apply Qltb_lt; assumption).
  rewrite L in E. injection E as <-.
  destruct (max_spec _ Hmax) as [_ Hall]. split.
  - exists (m / m). split.
    + unfold Numpy.div_scalar. rewrite nth_error_map, Hr. reflexivity.
    + unfold Qdiv. apply Qmult_inv_r. intros Z. rewrite Z in Hpos.
      apply (Qlt_irrefl 0). assumption.
  - rewrite Forall_forall in *. intros y Hy. unfold Numpy.div_scalar in Hy.
    apply in_map_iff in Hy. destruct Hy as (x & <- & Hx).
    pose proof (Hall x Hx). apply Qle_shift_div_r; [assumption | lra].
Qed.

End BestRowFacts.

Lemma ready_labels (self : Identifier) (query : string)
      (search : string -> nat -> list (Z * Q)) :
  Retrieval.ready self query = true ->
  faiss_index self = Some search ->
  forallb (Retrieval.label_ok (List.length (sop_chunks self)))
          (search query (Nat.min (List.length (sop_chunks self)) 100)) = true.
Proof.
  unfold Retrieval.ready. intros H E. rewrite E in H.
  destruct (sop_chunks self) as [|c cs]; [discriminate|].
  destruct (bm25 self); [|discriminate].
  apply andb_true_iff in H. tauto.
Qed.

(** X8: when the search returns each row at most once, some returned
    inner product is positive and no lexical score is negative, the row
    with the largest inner product is normalised to 1 and lifts the top
    fused score to at least 0.6.  With [top_k >= 1] and a threshold of at
    most 0.6 (the default is 0.4), [select_best_sop] then never answers
    [REJECT] and never reports the tier [LOW], however small that largest
    inner product is. *)
Theorem positive_similarity_is_never_rejected
        (self : Identifier) (query : string) (top_k : Z) (threshold : Q)
        (search : string -> nat -> list (Z * Q)) (get_scores : string -> list Q)
        (idx : Z) (d : Q) :
  Retrieval.ready self query = true ->
  faiss_index self = Some search ->
  bm25 self = Some get_scores ->
  NoDup (map fst (search query (Nat.min (List.length (sop_chunks self)) 100))) ->
  In (idx, d) (search query (Nat.min (List.length (sop_chunks self)) 100)) ->
  idx <> (-1)%Z ->
  0 < d ->
  Forall (fun x => 0 <= x) (get_scores query) ->
  (1 <= top_k)%Z ->
  threshold <= 0.6 ->
  exists dec,
    Retrieval.select_best_sop self query top_k threshold = Ok dec
    /\ 0.6 <= Decision.confidence_score dec
    /\ (Decision.recommendation dec = ACCEPT
        \/ Decision.recommendation dec = REVIEW)
    /\ (Decision.confidence_level dec = HIGH
        \/ Decision.confidence_level dec = MEDIUM).
Proof.
  intros H Ef Eb Hnd Hin Hidx Hd Hlex Hk Ht.
  pose proof (ready_labels self query H Ef) as Hlab.
  destruct (score_ready self query 0.6 0.4 H)
    as (search' & g' & sem & sc0 & Ef' & Eb' & Es & Ns & Nl & Eh
        & Ls & Lb & Lh & Hn & E0).
  rewrite Ef in Ef'. injection Ef' as <-. rewrite Eb in Eb'. injection Eb' as <-.
  assert (Hsem : nth_error sem (Z.to_nat idx) = Some d).
  { eapply fill_semantic_hit; try eassumption.
    rewrite zeros_length. assumption. }
  assert (Hne : sem <> []) by (intros ->; destruct (Z.to_nat idx); discriminate).
  destruct (max_nonempty Hne) as [m Hmax].
  destruct (max_spec _ Hmax) as [Hm Hall].
  assert (Hpos : 0 < m).
  { rewrite Forall_forall in Hall.
    eapply Qlt_le_trans; [exact Hd|]. apply Hall.
    eapply nth_error_In. exact Hsem. }
  apply In_nth_error in Hm. destruct Hm as [r Hr].
  destruct (@normalize_best_row _ _ _ _ Ns Hmax Hpos Hr)
    as [(one & Hone & E1) _].
  pose proof (@normalize_unit_interval _ _ Hlex Nl) as Ul.
  assert (Lr : (r < List.length (Retrieval.bm25_scores_norm sc0))%nat).
  { rewrite Lb, <- Ls. apply nth_error_Some. congruence. }
  destruct (@getitem_ok _ _ _ Lr) as [y Hy].
  assert (Y : 0 <= y /\ y <= 1).
  { rewrite Forall_forall in Ul. apply Ul. eapply nth_error_In. exact Hy. }
  assert (Hh : nth_error (Retrieval.hybrid_scores sc0) r
               = Some (0.6 * one + 0.4 * y)).
  { rewrite Eh. apply nth_error_zip_add; apply nth_error_scale; assumption. }
  destruct (@top_entry self query top_k 0.6 0.4 H Hk)
    as (sc & best & rest & x & y' & E & Er & Hc & Hlev & _ & _ & Hmaxf).
  assert (sc0 = sc) by congruence. subst sc0.
  pose proof (Hmaxf r _ Hh) as B.
  set (f := 0.6 * x + 0.4 * y') in *.
  assert (F6 : 0.6 <= f) by (destruct Y; lra).
  destruct (@select_best_sop_cases self query top_k threshold _ Er)
    as (dec & Ed & _ & (_ & _ & Dc & Dl & Dr & _)).
  exists dec. split; [assumption|].
  assert (C6 : 0.6 <= Candidate.confidence_score best).
  { rewrite Hc. eapply Qle_trans; [|apply round_mono; exact F6].
    vm_compute. discriminate. }
  rewrite Dc, Dl, Dr, Hlev. split; [assumption|]. split.
  - destruct (recommend_breakpoints (Candidate.confidence_score best)
                threshold (Candidate.title best)) as (A & R & _).
    destruct (Qlt_le_dec (Candidate.confidence_score best) 0.7) as [L|L].
    + right. apply R; [lra | assumption].
    + left. apply A. assumption.
  - destruct (level_of_breakpoints f) as (A & M & _).
    destruct (Qlt_le_dec f 0.7) as [L|L].
    + right. apply M; [lra | assumption].
    + left. apply A. assumption.
Qed.

Lemma positive_similarity_is_never_rejected_witness :
  exists dec,
    Retrieval.select_best_sop Samples.thirds "api" 3 0.4 = Ok dec
    /\ 0.6 <= Decision.confidence_score dec
    /\ (Decision.recommendation dec = ACCEPT
        \/ Decision.recommendation dec = REVIEW)
    /\ (Decision.confidence_level dec = HIGH
        \/ Decision.confidence_level dec = MEDIUM).
Proof.
  apply (@positive_similarity_is_never_rejected
           Samples.thirds "api" 3 0.4
           (fun _ _ => [(0%Z, 0.9); (1%Z, 0.3)]) (fun _ => [0.5; 1])
           1%Z 0.3).
  - reflexivity.
  - reflexivity.
  - reflexivity.
  - repeat constructor; simpl; intuition discriminate.
  - right. left. reflexivity.
  - discriminate.
  - vm_compute. reflexivity.
  - repeat constructor; vm_compute; discriminate.
  - lia.
  - vm_compute. discriminate.
Defined.

(** X9: a row that holds the largest inner product and the largest lexical
    score, both positive, is normalised to 1 in both modalities; the top
    fused score is then exactly 1 and, with [top_k >= 1],
    [select_best_sop] answers [ACCEPT] with confidence 1.0 and tier [HIGH]
    under every threshold, however small the two raw maxima are. *)
Theorem best_in_both_modalities_is_accepted
        (self : Identifier) (query : string) (top_k : Z) (threshold : Q)
        (search : string -> nat -> list (Z * Q)) (get_scores : string -> list Q)
        (semantic_scores : list Q) (best_semantic best_lexical : Q) (r : nat) :
  Retrieval.ready self query = true ->
  faiss_index self = Some search ->
  bm25 self = Some get_scores ->
  Retrieval.fill_semantic
    (Numpy.zeros (List.length (sop_chunks self)))
    (search query (Nat.min (List.length (sop_chunks self)) 100))
  = Ok semantic_scores ->
  Numpy.max semantic_scores = Ok best_semantic ->
  0 < best_semantic ->
  nth_error semantic_scores r = Some best_semantic ->
  Numpy.max (get_scores query) = Ok best_lexical ->
  0 < best_lexical ->
  nth_error (get_scores query) r = Some best_lexical ->
  (1 <= top_k)%Z ->
  exists dec,
    Retrieval.select_best_sop self query top_k threshold = Ok dec
    /\ Decision.confidence_score dec == 1
    /\ Decision.recommendation dec = ACCEPT
    /\ Decision.confidence_level dec = HIGH.
Proof.
  intros H Ef Eb Es Ms Ps Rs Ml Pl Rl Hk.
  destruct (score_ready self query 0.6 0.4 H)
    as (search' & g' & sem & sc0 & Ef' & Eb' & Es' & Ns & Nl & Eh
        & Ls & Lb & Lh & Hn & E0).
  rewrite Ef in Ef'. injection Ef' as <-. rewrite Eb in Eb'. injection Eb' as <-.
  assert (sem = semantic_scores) by congruence. subst sem.
  destruct (@normalize_best_row _ _ _ _ Ns Ms Ps Rs) as [(s1 & Hs1 & E1) Us].
  destruct (@normalize_best_row _ _ _ _ Nl Ml Pl Rl) as [(l1 & Hl1 & E2) Ul].
  assert (Hh : nth_error (Retrieval.hybrid_scores sc0) r
               = Some (0.6 * s1 + 0.4 * l1)).
  { rewrite Eh. apply nth_error_zip_add; apply nth_error_scale; assumption. }
  destruct (@top_entry self query top_k 0.6 0.4 H Hk)
    as (sc & best & rest & x & y & E & Er & Hc & Hlev & Hx & Hy & Hmaxf).
  assert (sc0 = sc) by congruence. subst sc0.
  pose proof (Hmaxf r _ Hh) as B.
  rewrite Forall_forall in Us, Ul.
  pose proof (Us x Hx) as X1. pose proof (Ul y Hy) as Y1.
  set (f := 0.6 * x + 0.4 * y) in *.
  assert (F1 : 1 <= f) by lra.
  assert (F2 : f <= 1) by (unfold f; lra).
  assert (R1 : Numpy.round 1 4 == 1) by reflexivity.
  assert (C1 : Candidate.confidence_score best == 1).
  { rewrite Hc. apply Qle_antisym.
    - eapply Qle_trans; [apply round_mono; exact F2|].
      rewrite R1. apply Qle_refl.
    - eapply Qle_trans; [|apply round_mono; exact F1].
      rewrite R1. apply Qle_refl. }
  destruct (@select_best_sop_cases self query top_k threshold _ Er)
    as (dec & Ed & _ & (_ & _ & Dc & Dl & Dr & _)).
  exists dec. split; [assumption|].
  rewrite Dc, Dl, Dr, Hlev. split; [assumption|]. split.
  - apply recommend_breakpoints. rewrite C1. lra.
  - apply level_of_breakpoints. lra.
Qed.

Lemma best_in_both_modalities_is_accepted_witness :
  exists dec,
    Retrieval.select_best_sop
      (Samples.index_with [(0%Z, 0.2); (1%Z, 0.1)] [0.3; 0.1]) "weather" 3 0.4
    = Ok dec
    /\ Decision.confidence_score dec == 1
    /\ Decision.recommendation dec = ACCEPT
    /\ Decision.confidence_level dec = HIGH.
Proof.
  apply (@best_in_both_modalities_is_accepted
           (Samples.index_with [(0%Z, 0.2); (1%Z, 0.1)] [0.3; 0.1])
           "weather" 3 0.4
           (fun _ _ => [(0%Z, 0.2); (1%Z, 0.1)]) (fun _ => [0.3; 0.1])
           [0.2; 0.1] 0.2 0.3 0%nat); try reflexivity.
  lia.
Defined.

(** * Further properties of the parser *)

Section ParseOutcome.

Open Scope string_scope.

(** The three outcomes of one turn of the loop of [parse_sops]. *)
Lemma parse_section_outcome (section : string) :
  if CatalogSpec.kept (PyStr.strip section)
  then match PyStr.int (CatalogSpec.number_text (PyStr.strip section)) with
       | Ok n => exists chunk,
                   Catalog.parse_section section = Ok (Some chunk)
                   /\ Catalog.sop_number chunk = n
       | Raise e => Catalog.parse_section section = Raise e
       end
  else Catalog.parse_section section = Ok None.
Proof.
  destruct (CatalogSpec.kept (PyStr.strip section)) eqn:K;
    [|apply parse_section_skips; assumption].
  unfold Catalog.parse_section, CatalogSpec.number_text.
  unfold CatalogSpec.kept in K.
  set (s := PyStr.strip section) in *.
  fold (CatalogSpec.first_line s).
  apply andb_true_iff in K. destruct K as [K1 K2]. rewrite K1, K2.
  destruct (split1_contains _ _ K2) as (a & b & S1 & _ & _).
  rewrite S1. cbn [hd].
  destruct (PyStr.int (PyStr.replace a "SOP-" "")) as [n|e]; cbn [bind].
  - eexists. split; reflexivity.
  - reflexivity.
Qed.

Lemma parse_sections_outcome (sections : list string) :
  ((exists chunks, Catalog.parse_sections sections = Ok chunks)
   <-> Forall (fun section =>
                 CatalogSpec.kept (PyStr.strip section) = true ->
                 exists n, PyStr.int (CatalogSpec.number_text
                                        (PyStr.strip section)) = Ok n)
              sections)
  /\ (forall e, Catalog.parse_sections sections = Raise e ->
                exists section,
                  In section sections
                  /\ CatalogSpec.kept (PyStr.strip section) = true
                  /\ PyStr.int (CatalogSpec.number_text (PyStr.strip section))
                     = Raise e).
Proof.
  induction sections as [|section rest [IH1 IH2]]; cbn [Catalog.parse_sections].
  - split; [split; [constructor | eauto] | discriminate].
  - pose proof (parse_section_outcome section) as O.
    destruct (CatalogSpec.kept (PyStr.strip section)) eqn:K.
    + destruct (PyStr.int (CatalogSpec.number_text (PyStr.strip section)))
        as [n|e0] eqn:I.
      * destruct O as (chunk & -> & _). cbn [bind].
        destruct (Catalog.parse_sections rest) as [cs|e1] eqn:R; cbn [bind].
        -- split; [|discriminate]. split; [intros _|eauto].
           constructor; [eauto | apply IH1; eauto].
        -- split.
           ++ split; [intros [? C]; discriminate|].
              intros F. apply Forall_inv_tail in F. apply IH1 in F.
              destruct F as [? C]. discriminate.
           ++ intros e [= <-]. destruct (IH2 e1 eq_refl) as (x & Hx & Kx & Ix).
              exists x. repeat split; try assumption. right. assumption.
      * rewrite O. cbn [bind]. split.
        -- split; [intros [? C]; discriminate|].
           intros F. apply Forall_inv in F. destruct (F K) as [n C].
           congruence.
        -- intros e [= <-]. exists section.
           repeat split; try assumption. left. reflexivity.
    + rewrite O. cbn [bind].
      destruct (Catalog.parse_sections rest) as [cs|e1] eqn:R; cbn [bind].
      * split; [|discriminate]. split; [intros _|eauto].
        constructor; [intros C; congruence | apply IH1; eauto].
      * split.
        -- split; [intros [? C]; discriminate|].
           intros F. apply Forall_inv_tail in F. apply IH1 in F.
           destruct F as [? C]. discriminate.
        -- intros e [= <-]. destruct (IH2 e1 eq_refl) as (x & Hx & Kx & Ix).
           exists x. repeat split; try assumption. right. assumption.
Qed.

Lemma Forall2_Forall_left (A B : Type) (P : A -> B -> Prop) (Q : A -> Prop)
      (l : list A) (l' : list B) :
  Forall2 P l l' -> (forall a b, P a b -> Q a) -> Forall Q l.
Proof.
  intros F H. induction F; constructor; eauto.
Qed.

End ParseOutcome.


(** X11: when no piece of the text passes the two guards, [build_index]
    raises [ValueError("No SOP chunks found in the file")], whatever the
    collaborators are. *)
Theorem build_index_without_records_raises
        (text : string) (search : string -> nat -> list (Z * Q))
        (get_scores : string -> list Q) :
  filter CatalogSpec.kept (map PyStr.strip (PyStr.split text "---")) = [] ->
  Retrieval.build_index text search get_scores
  = Raise (ValueError "No SOP chunks found in the file").
Proof.
  intros H. unfold Retrieval.build_index.
  destruct (Catalog.parse_sops text) as [chunks|e] eqn:E; cbn [bind].
  - destruct (parse_sections_kept _ E) as [Hc _]. rewrite H in Hc.
    destruct chunks; [reflexivity | discriminate].
  - destruct (proj2 (parse_sections_outcome _) e E) as (piece & Hin & K & _).
    exfalso.
    assert (Hf : In (PyStr.strip piece)
                    (filter CatalogSpec.kept
                            (map PyStr.strip (PyStr.split text "---")))).
    { apply filter_In. split; [apply in_map; assumption | assumption]. }
    rewrite H in Hf. destruct Hf.
Qed.

Lemma build_index_without_records_raises_witness :
  Retrieval.build_index "Runbook
---
no procedure here" (fun _ _ => []) (fun _ => [])
  = Raise (ValueError "No SOP chunks found in the file").
Proof.
  apply (@build_index_without_records_raises "Runbook
---
no procedure here" (fun _ _ => []) (fun _ => [])).
  reflexivity.
Defined.

(** X12: an index built from a text only ever returns records of that
    text: every candidate carries the identifier, title and number of a
    chunk that [parse_sops] produced, and its preview is the first 200
    characters, followed by three dots, of a trimmed piece of the text
    that passed the guards. *)
Theorem retrieved_candidates_come_from_the_text
        (text : string) (search : string -> nat -> list (Z * Q))
        (get_scores : string -> list Q) (self : Identifier)
        (query : string) (top_k : Z) (semantic_weight bm25_weight : Q) :
  Retrieval.build_index text search get_scores = Ok self ->
  Retrieval.ready self query = true ->
  exists chunks rs,
    Catalog.parse_sops text = Ok chunks
    /\ Retrieval.retrieve_relevant_sops self query top_k
         semantic_weight bm25_weight = Ok rs
    /\ Forall
         (fun r =>
            exists chunk,
              In chunk chunks
              /\ Candidate.id r = Catalog.id chunk
              /\ Candidate.title r = Catalog.title chunk
              /\ Candidate.sop_number r = Catalog.sop_number chunk
              /\ Candidate.content_preview r
                 = (PyStr.take 200 (Catalog.content chunk) ++ "...")%string
              /\ In (Catalog.content chunk)
                    (filter CatalogSpec.kept
                            (map PyStr.strip (PyStr.split text "---"))))
         rs.
Proof.
  intros B H. unfold Retrieval.build_index in B.
  destruct (Catalog.parse_sops text) as [chunks|e] eqn:E; cbn [bind] in B;
    [|discriminate].
  destruct chunks as [|c cs]; [discriminate|]. injection B as <-.
  destruct (parse_sections_kept _ E) as [Hc _].
  destruct (retrieve_entries _ query top_k semantic_weight bm25_weight H)
    as (sc & rs & _ & Er & F).
  exists (c :: cs), rs. split; [reflexivity|]. split; [assumption|].
  cbn [sop_chunks] in F.
  eapply Forall2_Forall_left; [exact F|].
  intros r idx (chunk & x & y & Hch & _ & _ & _ & ->).
  exists chunk. apply nth_error_In in Hch.
  repeat split; try assumption.
  rewrite <- Hc. apply in_map. assumption.
Qed.

Lemma retrieved_candidates_come_from_the_text_witness :
  exists chunks rs,
    Catalog.parse_sops Samples.two_sops = Ok chunks
    /\ Retrieval.retrieve_relevant_sops Samples.thirds "api" 2 0.6 0.4 = Ok rs
    /\ Forall
         (fun r =>
            exists chunk,
              In chunk chunks
              /\ Candidate.id r = Catalog.id chunk
              /\ Candidate.title r = Catalog.title chunk
              /\ Candidate.sop_number r = Catalog.sop_number chunk
              /\ Candidate.content_preview r
                 = (PyStr.take 200 (Catalog.content chunk) ++ "...")%string
              /\ In (Catalog.content chunk)
                    (filter CatalogSpec.kept
                            (map PyStr.strip
                                 (PyStr.split Samples.two_sops "---"))))
         rs.
Proof.
  apply (@retrieved_candidates_come_from_the_text
           Samples.two_sops (fun _ _ => [(0%Z, 0.9); (1%Z, 0.3)])
           (fun _ => [0.5; 1]) Samples.thirds "api" 2 0.6 0.4);
    reflexivity.
Defined.

(** * Properties of the tokenisation *)

Section TokenFacts.

Open Scope string_scope.

Lemma lower_char_word (c : ascii) :
  Tokenizer.is_word (Tokenizer.lower_char c) = Tokenizer.is_word c.
Proof. destruct c as [[] [] [] [] [] [] [] []]; reflexivity. Qed.

Lemma lower_char_idem (c : ascii) :
  Tokenizer.lower_char (Tokenizer.lower_char c) = Tokenizer.lower_char c.
Proof. destruct c as [[] [] [] [] [] [] [] []]; reflexivity. Qed.

Lemma lower_app (a b : string) :
  Tokenizer.lower (a ++ b) = Tokenizer.lower a ++ Tokenizer.lower b.
Proof.
  induction a as [|c a IH]; simpl; [reflexivity | rewrite IH; reflexivity].
Qed.

Lemma lower_idem (text : string) :
  Tokenizer.lower (Tokenizer.lower text) = Tokenizer.lower text.
Proof.
  induction text as [|c text IH]; simpl; [reflexivity|].
  rewrite lower_char_idem, IH. reflexivity.
Qed.


Lemma concat_empty_cons (h : string) (l : list string) :
  String.concat "" (h :: l) = h ++ String.concat "" l.
Proof.
  destruct l; simpl; [|reflexivity].
  induction h as [|c h IH]; simpl; congruence.
Qed.

(** What one pass of [scan] delivers: runs of word characters, none of
    them empty after the first, whose characters are those of the text in
    order, and which inherit every property of the characters of the
    text. *)
Lemma scan_spec (p : ascii -> bool) (text : string) :
  Tokenizer.all_chars Tokenizer.is_word (fst (Tokenizer.scan text)) = true
  /\ Forall (fun t => t <> ""
                      /\ Tokenizer.all_chars Tokenizer.is_word t = true)
            (snd (Tokenizer.scan text))
  /\ fst (Tokenizer.scan text) ++ String.concat "" (snd (Tokenizer.scan text))
     = Tokenizer.word_chars text
  /\ (Tokenizer.all_chars p text = true ->
      Forall (fun t => Tokenizer.all_chars p t = true)
             (fst (Tokenizer.scan text) :: snd (Tokenizer.scan text))).
Proof.
  induction text as [|c text (Hrun & Hruns & Hcat & Hp)]; cbn [Tokenizer.scan].
  - repeat split; repeat constructor.
  - destruct (Tokenizer.scan text) as [run runs]. cbn [fst snd] in *.
    cbn [Tokenizer.word_chars Tokenizer.all_chars].
    destruct (Tokenizer.is_word c) eqn:W; cbn [fst snd].
    + split; [cbn [Tokenizer.all_chars]; rewrite W; assumption|].
      split; [assumption|]. split; [cbn [append]; congruence|].
      intros H. apply andb_true_iff in H. destruct H as [Hc H].
      specialize (Hp H). apply Forall_cons_iff in Hp. destruct Hp as [P1 P2].
      constructor; [|assumption].
      cbn [Tokenizer.all_chars]. rewrite Hc. assumption.
    + split; [reflexivity|]. rewrite <- Hcat.
      destruct run as [|d run].
      * split; [assumption|]. split; [reflexivity|].
        intros H. apply andb_true_iff in H. destruct H as [_ H].
        specialize (Hp H). apply Forall_cons_iff in Hp.
        constructor; [reflexivity | tauto].
      * split; [constructor; [split; [discriminate | assumption] | assumption]|].
        split; [rewrite concat_empty_cons; reflexivity|].
        intros H. apply andb_true_iff in H. destruct H as [_ H].
        specialize (Hp H). constructor; [reflexivity | assumption].
Qed.

Lemma findall_words_spec (p : ascii -> bool) (text : string) :
  Forall (fun t => t <> ""
                   /\ Tokenizer.all_chars Tokenizer.is_word t = true)
         (Tokenizer.findall_words text)
  /\ String.concat "" (Tokenizer.findall_words text)
     = Tokenizer.word_chars text
  /\ (Tokenizer.all_chars p text = true ->
      Forall (fun t => Tokenizer.all_chars p t = true)
             (Tokenizer.findall_words text)).
Proof.
  destruct (scan_spec p text) as (Hrun & Hruns & Hcat & Hp).
  unfold Tokenizer.findall_words.
  destruct (Tokenizer.scan text) as [run runs]. cbn [fst snd] in *.
  destruct run as [|d run].
  - split; [assumption|]. split; [assumption|].
    intros H. specialize (Hp H). apply Forall_cons_iff in Hp. tauto.
  - split; [constructor; [split; [discriminate | assumption] | assumption]|].
    split; [rewrite concat_empty_cons; assumption|].
    exact Hp.
Qed.

Lemma all_chars_lower (text : string) :
  Tokenizer.all_chars (fun c => Ascii.eqb (Tokenizer.lower_char c) c)
                      (Tokenizer.lower text) = true.
Proof.
  induction text as [|c text IH]; simpl; [reflexivity|].
  rewrite lower_char_idem, Ascii.eqb_refl. assumption.
Qed.

Lemma all_chars_lower_fixed (token : string) :
  Tokenizer.all_chars (fun c => Ascii.eqb (Tokenizer.lower_char c) c) token
  = true ->
  Tokenizer.lower token = token.
Proof.
  induction token as [|c token IH]; simpl; [reflexivity|].
  intros H. apply andb_true_iff in H. destruct H as [Hc H].
  apply Ascii.eqb_eq in Hc. rewrite Hc, IH by assumption. reflexivity.
Qed.

(** The runs of a text followed by a text that starts outside a word. *)
Lemma scan_app (x z : string) (runs_z : list string) :
  Tokenizer.scan z = ("", runs_z) ->
  Tokenizer.scan (x ++ z)
  = (fst (Tokenizer.scan x), (snd (Tokenizer.scan x) ++ runs_z)%list).
Proof.
  intros Hz. induction x as [|c x IH]; cbn [append Tokenizer.scan].
  - rewrite Hz. reflexivity.
  - rewrite IH. destruct (Tokenizer.scan x) as [run runs]. cbn [fst snd].
    destruct (Tokenizer.is_word c); [reflexivity|].
    destruct run; reflexivity.
Qed.

Lemma findall_words_separator (x y : string) (c : ascii) :
  Tokenizer.is_word c = false ->
  Tokenizer.findall_words (x ++ String c y)
  = (Tokenizer.findall_words x ++ Tokenizer.findall_words y)%list.
Proof.
  intros W. unfold Tokenizer.findall_words.
  rewrite (@scan_app x (String c y)
             (let (run, runs) := Tokenizer.scan y in
              match run with "" => runs | _ => run :: runs end)).
  - destruct (Tokenizer.scan x) as [run runs]. cbn [fst snd].
    destruct run; reflexivity.
  - cbn [Tokenizer.scan]. rewrite W.
    destruct (Tokenizer.scan y) as [run runs]. reflexivity.
Qed.

Lemma tokenize_separator (before after : string) (c : ascii) :
  Tokenizer.is_word c = false ->
  Tokenizer._tokenize (before ++ String c after)
  = (Tokenizer._tokenize before ++ Tokenizer._tokenize after)%list.
Proof.
  intros W. unfold Tokenizer._tokenize.
  rewrite lower_app. cbn [Tokenizer.lower].
  apply findall_words_separator. rewrite lower_char_word. assumption.
Qed.

End TokenFacts.

(** X13: every token that [_tokenize] returns is non-empty, consists of
    word characters only and is in lower case; punctuation and white
    space never reach the lexical scorer. *)
Theorem tokens_are_lowercase_words (text : string) :
  Forall (fun token =>
            token <> ""%string
            /\ Tokenizer.all_chars Tokenizer.is_word token = true
            /\ Tokenizer.lower token = token)
         (Tokenizer._tokenize text).
Proof.
  unfold Tokenizer._tokenize.
  destruct (findall_words_spec
              (fun c => Ascii.eqb (Tokenizer.lower_char c) c)
              (Tokenizer.lower text)) as (H1 & _ & H3).
  specialize (H3 (all_chars_lower text)).
  rewrite Forall_forall in *. intros token Hin.
  destruct (H1 token Hin) as [Hne Hw].
  repeat split; try assumption.
  apply all_chars_lower_fixed. apply H3. assumption.
Qed.




(** * Properties of the incident processing *)

Section IncidentFacts.

Open Scope string_scope.

Variable dict_str : list (string * Incident.value) -> string.

Lemma tokenize_skip (c : ascii) (text : string) :
  Tokenizer.is_word c = false ->
  Tokenizer._tokenize (String c text) = Tokenizer._tokenize text.
Proof.
  intros W. apply (@tokenize_separator "" text c W).
Qed.

Lemma tokenize_label (label text : string) :
  Tokenizer._tokenize (label ++ ": " ++ text)
  = (Tokenizer._tokenize label ++ Tokenizer._tokenize text)%list.
Proof.
  cbn [append]. rewrite tokenize_separator by reflexivity.
  rewrite tokenize_skip by reflexivity. reflexivity.
Qed.

Lemma tokenize_bar (a b : string) :
  Tokenizer._tokenize (a ++ " | " ++ b)
  = (Tokenizer._tokenize a ++ Tokenizer._tokenize b)%list.
Proof.
  cbn [append]. rewrite tokenize_separator by reflexivity.
  rewrite !tokenize_skip by reflexivity. reflexivity.
Qed.

Lemma part_text (items : list (string * Incident.value))
      (key label text : string) :
  Incident.text_of items key = Some text ->
  Incident.part dict_str (Incident.VDict items) key label
  = Ok (if String.eqb text "" then [] else [label ++ ": " ++ text]).
Proof.
  unfold Incident.text_of, Incident.part, Incident.get. cbn [bind].
  destruct (Incident.lookup items key) as [[| | |s|]|]; try discriminate;
    intros [= <-]; try reflexivity.
  cbn [Incident.truthy Incident.str]. destruct (String.eqb s ""); reflexivity.
Qed.

Lemma part_of_dict (items : list (string * Incident.value)) (key label : string) :
  exists parts,
    Incident.part dict_str (Incident.VDict items) key label = Ok parts.
Proof.
  unfold Incident.part, Incident.get. cbn [bind]. eauto.
Qed.

Lemma part_of_other (v : Incident.value) (key label : string) :
  Incident.is_dict v = false ->
  exists msg,
    Incident.part dict_str v key label = Raise (AttributeError msg).
Proof.
  destruct v; try discriminate; intros _; unfold Incident.part; cbn; eauto.
Qed.

End IncidentFacts.

(** X16: [process_incident] raises [AttributeError], without querying the
    index, when [incident_details] is present but is not a dictionary
    ([None], a string, a number), and likewise when [log_insights] is:
    the default [{}] of [get] only replaces a missing key. *)
Theorem process_incident_needs_dictionaries
        (dict_str : list (string * Incident.value) -> string)
        (self : Identifier) (input_data : list (string * Incident.value))
        (v : Incident.value) :
  Incident.is_dict v = false ->
  Incident.lookup input_data "incident_details" = Some v
  \/ (Incident.lookup input_data "log_insights" = Some v
      /\ forall w, Incident.lookup input_data "incident_details" = Some w ->
                   Incident.is_dict w = true) ->
  exists msg,
    Incident.process_incident dict_str self input_data
    = Raise (AttributeError msg).
Proof.
  intros Hv H.
  unfold Incident.process_incident, Incident.incident_context.
  cbn [Incident.get bind].
  destruct H as [E|[E Hw]].
  - rewrite E.
    destruct (@part_of_other dict_str v "short_description" "Issue" Hv)
      as [msg ->].
    exists msg. reflexivity.
  - rewrite E.
    assert (D : exists items,
               match Incident.lookup input_data "incident_details" with
               | Some x => x
               | None => Incident.VDict []
               end = Incident.VDict items).
    { destruct (Incident.lookup input_data "incident_details") as [w|];
        [|eauto].
      specialize (Hw w eq_refl). destruct w; try discriminate. eauto. }
    destruct D as [items ->].
    destruct (@part_of_dict dict_str items "short_description" "Issue")
      as [p1 ->].
    destruct (@part_of_dict dict_str items "description" "Description")
      as [p2 ->].
    cbn [bind].
    destruct (@part_of_other dict_str v "full_analysis" "Log Summary" Hv)
      as [msg ->].
    exists msg. reflexivity.
Qed.

Lemma process_incident_needs_dictionaries_witness :
  exists msg,
    Incident.process_incident (fun _ => "{...}"%string) Samples.thirds
      [("incident_details"%string, Incident.VNone)]
    = Raise (AttributeError msg).
Proof.
  apply (@process_incident_needs_dictionaries
           (fun _ => "{...}"%string) Samples.thirds
           [("incident_details"%string, Incident.VNone)] Incident.VNone).
  - reflexivity.
  - left. reflexivity.
Defined.

(** X17: when the three fields read by [process_incident] are strings (or
    [None], or missing), the query it builds is tokenised into the labels
    and the fields: [issue] before the tokens of a non-empty short
    description, [description] before those of a non-empty description,
    [log] and [summary] before those of a non-empty log analysis.  The
    label words thus take part in the lexical score of every incident.
    When all three fields are empty the query is [str(input_data)]. *)
Theorem incident_labels_enter_the_query
        (dict_str : list (string * Incident.value) -> string)
        (input_data incident log_insights : list (string * Incident.value))
        (short long log : string) :
  Incident.get (Incident.VDict input_data) "incident_details"
               (Incident.VDict []) = Ok (Incident.VDict incident) ->
  Incident.get (Incident.VDict input_data) "log_insights"
               (Incident.VDict []) = Ok (Incident.VDict log_insights) ->
  Incident.text_of incident "short_description" = Some short ->
  Incident.text_of incident "description" = Some long ->
  Incident.text_of log_insights "full_analysis" = Some log ->
  exists context,
    Incident.incident_context dict_str input_data = Ok context
    /\ if (String.eqb short "" && String.eqb long "" && String.eqb log "")%bool
       then context = dict_str input_data
       else Tokenizer._tokenize context
            = labelled_tokens ["issue"%string] short
              ++ labelled_tokens ["description"%string] long
              ++ labelled_tokens ["log"%string; "summary"%string] log.
Proof.
  intros E1 E2 T1 T2 T3. unfold Incident.incident_context.
  rewrite E1, E2. cbn [bind].
  rewrite (@part_text dict_str _ _ "Issue" _ T1),
          (@part_text dict_str _ _ "Description" _ T2),
          (@part_text dict_str _ _ "Log Summary" _ T3).
  cbn [bind]. unfold labelled_tokens, Incident.join_parts.
  destruct (String.eqb short ""); destruct (String.eqb long "");
    destruct (String.eqb log ""); cbn [andb app String.concat];
    match goal with
    | |- context [String.eqb ?c ""] =>
        first [ change (String.eqb c "") with true
              | change (String.eqb c "") with false ]
    end;
    eexists; (split; [reflexivity|]); try reflexivity;
    rewrite ?app_nil_r;
    repeat first
      [ rewrite tokenize_bar
      | rewrite (tokenize_label "Issue")
      | rewrite (tokenize_label "Description")
      | rewrite (tokenize_label "Log Summary") ];
    reflexivity.
Qed.

Lemma incident_labels_enter_the_query_witness :
  exists context,
    Incident.incident_context (fun _ => "{...}"%string)
      (Incident.cli_incident "API is slow") = Ok context
    /\ if (String.eqb "" "" && String.eqb "API is slow" ""
           && String.eqb "" "")%bool
       then context
            = (fun _ => "{...}"%string) (Incident.cli_incident "API is slow")
       else Tokenizer._tokenize context
            = labelled_tokens ["issue"%string] ""
              ++ labelled_tokens ["description"%string] "API is slow"
              ++ labelled_tokens ["log"%string; "summary"%string] "".
Proof.
  apply (@incident_labels_enter_the_query
           (fun _ => "{...}"%string) (Incident.cli_incident "API is slow")
           [("description"%string, Incident.VStr "API is slow")] []
           "" "API is slow" ""); reflexivity.
Defined.

(** X18: [process_incident] always calls [select_best_sop] with
    [top_k = 3] and the threshold 0.4; on an index ready for the query it
    builds, it therefore always selects a record and never answers
    [NO_MATCH], keeps [min(3, n)] candidates and hands over the
    others, [min(3, n) - 1] of them, as alternatives. *)
Theorem process_incident_always_selects
        (dict_str : list (string * Incident.value) -> string)
        (self : Identifier) (input_data : list (string * Incident.value))
        (context : string) :
  Incident.incident_context dict_str input_data = Ok context ->
  Retrieval.ready self context = true ->
  exists dec best alternatives,
    Incident.process_incident dict_str self input_data = Ok dec
    /\ Retrieval.select_best_sop self context 3 0.4 = Ok dec
    /\ Decision.retrieved_sops dec = best :: alternatives
    /\ Decision.alternative_sops dec = Some alternatives
    /\ Decision.selected_sop_id dec = Some (Candidate.id best)
    /\ Decision.recommendation dec <> NO_MATCH
    /\ List.length (Decision.retrieved_sops dec)
       = Nat.min 3 (List.length (sop_chunks self)).
Proof.
  intros Ec H.
  destruct (@top_entry self context 3 0.6 0.4 H ltac:(lia))
    as (sc & best & rest & x & y & E & Er & _).
  destruct (@retrieve_ready self context 3 0.6 0.4 H) as (sc' & rs & E' & Er' & F).
  assert (rs = best :: rest) by congruence. subst rs.
  destruct (@score_ready self context 0.6 0.4 H)
    as (search & g & sem & sc0 & _ & _ & _ & _ & _ & _ & _ & _ & Lh & _ & E0).
  assert (sc0 = sc') by congruence. subst sc0.
  destruct (@select_best_sop_cases self context 3 0.4 _ Er)
    as (dec & Ed & Hr & (Hid & _ & _ & _ & Hrec & Ha)).
  exists dec, best, rest.
  unfold Incident.process_incident. rewrite Ec. cbn [bind].
  repeat split; try assumption.
  - rewrite Hrec. apply recommend_is_a_verdict.
  - rewrite Hr, (Forall2_length F). unfold Retrieval.top_indices.
    rewrite slice_to_length, length_rev, argsort_length, Lh. reflexivity.
Qed.

Lemma process_incident_always_selects_witness :
  exists dec best alternatives,
    Incident.process_incident (fun _ => "{...}"%string) Samples.thirds
      (Incident.cli_incident "API is slow") = Ok dec
    /\ Retrieval.select_best_sop Samples.thirds "Description: API is slow"
         3 0.4 = Ok dec
    /\ Decision.retrieved_sops dec = best :: alternatives
    /\ Decision.alternative_sops dec = Some alternatives
    /\ Decision.selected_sop_id dec = Some (Candidate.id best)
    /\ Decision.recommendation dec <> NO_MATCH
    /\ List.length (Decision.retrieved_sops dec)
       = Nat.min 3 (List.length (sop_chunks Samples.thirds)).
Proof.
  apply (@process_incident_always_selects
           (fun _ => "{...}"%string) Samples.thirds
           (Incident.cli_incident "API is slow") "Description: API is slow");
    reflexivity.
Defined.

(** * Properties of building, saving and loading *)

Section PathFacts.

Open Scope string_scope.

Lemma occurs_cons (sub : string) (c : ascii) (s : string) :
  PyStr.occurs sub (String c s)
  = (String.prefix sub (String c s) || PyStr.occurs sub s)%bool.
Proof. reflexivity. Qed.

(** A text without the old string is left as it is. *)
Lemma replace_absent (old new s : string) :
  PyStr.occurs old s = false -> PyStr.replace s old new = s.
Proof.
  unfold PyStr.replace. induction s as [|c s IH]; [reflexivity|].
  rewrite occurs_cons. intros H. apply orb_false_iff in H.
  destruct H as [H1 H2]. cbn [PyStr.replace_go]. rewrite H1.
  rewrite IH by assumption. reflexivity.
Qed.

Variable c0 : ascii.
Variable old0 new : string.

Let old : string := String c0 old0.

Lemma replace_go_skip (p r : string) :
  PyStr.replace_go old new (String.length p) (p ++ r)
  = PyStr.replace_go old new 0 r.
Proof.
  induction p as [|c p IH]; simpl; [reflexivity | exact IH].
Qed.

Lemma replace_go_match (r : string) :
  PyStr.replace_go old new 0 (old ++ r) = new ++ PyStr.replace_go old new 0 r.
Proof.
  pose proof (prefix_refl_app old r) as H.
  change (old ++ r) with (String c0 (old0 ++ r)) in *.
  cbn [PyStr.replace_go]. rewrite H. f_equal.
  replace (String.length old - 1)%nat with (String.length old0)
    by (unfold old; simpl; lia).
  apply replace_go_skip.
Qed.

(** When the new string is not shorter than the old one, replacing never
    shortens a text. *)
Lemma replace_length_bounded (n : nat) :
  (String.length old <= String.length new)%nat ->
  forall s : string,
    (String.length s <= n)%nat ->
    (String.length s <= String.length (PyStr.replace_go old new 0 s))%nat.
Proof.
  intros Hl. induction n as [|n IH]; intros s Hn.
  - destruct s; [simpl; lia | simpl in Hn; lia].
  - destruct s as [|c s]; [simpl; lia|].
    destruct (String.prefix old (String c s)) eqn:E.
    + destruct (prefix_inv _ _ E) as [r Er]. rewrite Er.
      rewrite replace_go_match, !length_app.
      assert (L : String.length (String c s) = String.length (old ++ r))
        by (rewrite Er; reflexivity).
      rewrite length_app in L. unfold old in L. simpl in L, Hn.
      assert (String.length r <= n)%nat by lia.
      pose proof (IH r ltac:(assumption)). lia.
    + cbn [PyStr.replace_go]. rewrite E. simpl in *.
      pose proof (IH s ltac:(lia)). lia.
Qed.

(** When the new string is longer than the old one, a text that contains
    the old string grows. *)
Lemma replace_grows (s : string) :
  (String.length old < String.length new)%nat ->
  PyStr.occurs old s = true ->
  (String.length s < String.length (PyStr.replace s old new))%nat.
Proof.
  intros Hl. unfold PyStr.replace. induction s as [|c s IH].
  - discriminate.
  - rewrite occurs_cons. intros H.
    destruct (String.prefix old (String c s)) eqn:E.
    + destruct (prefix_inv _ _ E) as [r Er]. rewrite Er.
      rewrite replace_go_match, !length_app.
      pose proof (@replace_length_bounded (String.length r)
                    ltac:(lia) r ltac:(lia)).
      lia.
    + cbn [orb] in H. cbn [PyStr.replace_go]. rewrite E. simpl.
      specialize (IH H). lia.
Qed.

End PathFacts.

Section LifecycleFacts.

Open Scope string_scope.

(** The FAISS file and the metadata file are one file exactly when the
    path does not contain [.pkl]. *)
Lemma faiss_index_path_same (path : string) :
  Lifecycle.faiss_index_path path = path <-> PyStr.occurs ".pkl" path = false.
Proof.
  unfold Lifecycle.faiss_index_path. split.
  - intros E. destruct (PyStr.occurs ".pkl" path) eqn:O; [|reflexivity].
    pose proof (@replace_grows "." "pkl" ".faiss" path
                  ltac:(simpl; lia) O) as G.
    rewrite E in G. lia.
  - apply replace_absent.
Qed.

Lemma head_without_slash (p : string) :
  PyStr.contains "/" p = false -> Lifecycle.head_to_last_slash p = "".
Proof.
  destruct p as [|c p]; [reflexivity|]. cbn [PyStr.contains].
  destruct (Ascii.eqb "/" c) eqn:E; [discriminate|].
  intros H. cbn [Lifecycle.head_to_last_slash]. rewrite H.
  rewrite Ascii.eqb_sym, E. reflexivity.
Qed.

(** A path without a slash has no directory part. *)
Lemma dirname_without_slash (p : string) :
  PyStr.contains "/" p = false -> Lifecycle.dirname p = "".
Proof.
  intros H. unfold Lifecycle.dirname. rewrite (head_without_slash _ H).
  reflexivity.
Qed.

End LifecycleFacts.

Section BuildFacts.

Open Scope string_scope.

Variables Vectors Embeddings Disk : Type.
Variable lib : Lifecycle.Libraries Vectors Embeddings Disk.

(** Once the index is made, [build_index] is its three writes. *)
Lemma build_index_saves
      (st : Lifecycle.State Vectors) (d : Disk)
      (sop_file_path save_path : string) (chunks : list Catalog.Chunk)
      (index : Vectors) (get_scores : list string -> list Q) :
  Lifecycle.indexed lib st d sop_file_path chunks index get_scores ->
  Lifecycle.build_index lib sop_file_path save_path st d
  = Lifecycle.seq
      (@Lifecycle.writing Vectors Disk
         (fun d => Lifecycle.makedirs lib d (Lifecycle.dirname save_path)))
      (fun _ =>
         Lifecycle.seq
           (@Lifecycle.writing Vectors Disk
              (fun d => Lifecycle.write_index lib d index
                          (Lifecycle.faiss_index_path save_path)))
           (fun _ =>
              @Lifecycle.writing Vectors Disk
                (fun d => Lifecycle.dump lib d
                            (Lifecycle.built_data st chunks)
                            save_path)))
      (Lifecycle.built_state st chunks index get_scores) d.
Proof.
  intros (content & emb & R & P & N & E & A & B).
  unfold Lifecycle.build_index.
  unfold Lifecycle.seq at 1. unfold Lifecycle.reading at 1. rewrite R.
  unfold Lifecycle.seq at 1. unfold Lifecycle.call at 1. rewrite P.
  cbn [Lifecycle.python].
  unfold Lifecycle.seq at 1. unfold Lifecycle.assign at 1.
  destruct chunks as [|c cs]; [congruence|].
  unfold Lifecycle.seq at 1. unfold Lifecycle.attr at 1.
  unfold Lifecycle.seq at 1. unfold Lifecycle.call at 1.
  cbn [Lifecycle.model_name Lifecycle.set_sop_chunks]. rewrite E.
  unfold Lifecycle.seq at 1. unfold Lifecycle.attr at 1.
  unfold Lifecycle.seq at 1. unfold Lifecycle.assign at 1.
  unfold Lifecycle.seq at 1. unfold Lifecycle.call at 1.
  cbn [Lifecycle.vector_dimension Lifecycle.set_sop_chunks]. rewrite A.
  unfold Lifecycle.seq at 1. unfold Lifecycle.assign at 1.
  unfold Lifecycle.seq at 1. unfold Lifecycle.assign at 1.
  unfold Lifecycle.seq at 1. unfold Lifecycle.call at 1. rewrite B.
  unfold Lifecycle.seq at 1. unfold Lifecycle.assign at 1.
  reflexivity.
Qed.

(** What a build that returns has done. *)
Lemma build_index_returns
      (st st1 : Lifecycle.State Vectors) (d d1 : Disk)
      (sop_file_path save_path : string) :
  Lifecycle.build_index lib sop_file_path save_path st d = (inr tt, st1, d1) ->
  exists chunks index get_scores d2 d3,
    Lifecycle.indexed lib st d sop_file_path chunks index get_scores
    /\ Lifecycle.makedirs lib d (Lifecycle.dirname save_path) = (None, d2)
    /\ Lifecycle.write_index lib d2 index
         (Lifecycle.faiss_index_path save_path) = (None, d3)
    /\ Lifecycle.dump lib d3 (Lifecycle.built_data st chunks) save_path
       = (None, d1)
    /\ st1 = Lifecycle.built_state st chunks index get_scores.
Proof.
  unfold Lifecycle.build_index, Lifecycle.seq, Lifecycle.reading,
    Lifecycle.call, Lifecycle.assign, Lifecycle.attr, Lifecycle.writing,
    Lifecycle.raise.
  destruct (Lifecycle.read_text lib d sop_file_path) as [e|content] eqn:R;
    [discriminate|].
  destruct (Catalog.parse_sops content) as [chunks|e] eqn:P;
    cbn [Lifecycle.python]; [|discriminate].
  destruct chunks as [|c cs]; [discriminate|].
  cbn [Lifecycle.model_name Lifecycle.vector_dimension
         Lifecycle.set_sop_chunks].
  destruct (Lifecycle.encode lib _ _) as [e|emb] eqn:E; [discriminate|].
  destruct (Lifecycle.add lib _ _) as [e|index] eqn:A; [discriminate|].
  destruct (Lifecycle.BM25Okapi lib _) as [e|get_scores] eqn:B;
    [discriminate|].
  destruct (Lifecycle.makedirs lib d _) as [[e|] d2] eqn:M; [discriminate|].
  destruct (Lifecycle.write_index lib d2 _ _) as [[e|] d3] eqn:W;
    [discriminate|].
  destruct (Lifecycle.dump lib d3 _ _) as [[e|] d4] eqn:D; [discriminate|].
  intros [= <- <-].
  exists (c :: cs), index, get_scores, d2, d3.
  split.
  { exists content, emb. repeat split; try assumption. discriminate. }
  repeat split; assumption.
Qed.

End BuildFacts.

Section LoadFacts.

Open Scope string_scope.

Variables Vectors Embeddings Disk : Type.
Variable lib : Lifecycle.Libraries Vectors Embeddings Disk.

(** A text without any piece that passes the guards parses to the empty
    catalog. *)
Lemma parse_sops_without_records (text : string) :
  filter CatalogSpec.kept (map PyStr.strip (PyStr.split text "---")) = [] ->
  Catalog.parse_sops text = Ok [].
Proof.
  intros H.
  destruct (Catalog.parse_sops text) as [chunks|e] eqn:E.
  - destruct (parse_sections_kept _ E) as [Hc _]. rewrite H in Hc.
    destruct chunks; [reflexivity | discriminate].
  - destruct (proj2 (parse_sections_outcome _) e E) as (piece & Hin & K & _).
    exfalso.
    assert (Hf : In (PyStr.strip piece)
                    (filter CatalogSpec.kept
                            (map PyStr.strip (PyStr.split text "---")))).
    { apply filter_In. split; [apply in_map; assumption | assumption]. }
    rewrite H in Hf. destruct Hf.
Qed.

(** [load_index] when both files are there and are read. *)
Lemma load_index_reads
      (st : Lifecycle.State Vectors) (d : Disk) (index_path : string)
      (data : Lifecycle.IndexData) (chunks : list Catalog.Chunk)
      (tokenized : list (list string)) (index : Vectors)
      (get_scores : list string -> list Q) :
  Lifecycle.path_exists lib d index_path = true ->
  Lifecycle.load lib d index_path = inr data ->
  Lifecycle.data_sop_chunks data = Some chunks ->
  Lifecycle.data_tokenized_corpus data = Some tokenized ->
  Lifecycle.path_exists lib d (Lifecycle.faiss_index_path index_path) = true ->
  Lifecycle.read_index lib d (Lifecycle.faiss_index_path index_path)
  = inr index ->
  Lifecycle.BM25Okapi lib tokenized = inr get_scores ->
  Lifecycle.load_index lib index_path st d
  = (inr tt,
     Lifecycle.mkState
       (Lifecycle.model_name st)
       (Lifecycle.get (Lifecycle.data_vector_dimension data) 384%Z)
       chunks (Some index) (Some get_scores) tokenized,
     d).
Proof.
  intros X L C T XF R B.
  unfold Lifecycle.load_index, Lifecycle.seq, Lifecycle.reading,
    Lifecycle.call, Lifecycle.assign, Lifecycle.attr, Lifecycle.raise.
  rewrite X. cbn [negb]. rewrite L, C. cbn [Lifecycle.item]. rewrite T.
  cbn [Lifecycle.item]. rewrite XF. cbn [negb]. rewrite R, B.
  reflexivity.
Qed.

End LoadFacts.

Section SampleFiles.

Open Scope string_scope.

Lemma write_same (d : LifecycleSamples.disk) (path : string)
      (f : LifecycleSamples.file) :
  LifecycleSamples.write d path f path = Some f.
Proof. unfold LifecycleSamples.write. rewrite String.eqb_refl. reflexivity. Qed.

Lemma write_other (d : LifecycleSamples.disk) (path other : string)
      (f : LifecycleSamples.file) :
  other <> path -> LifecycleSamples.write d path f other = d other.
Proof.
  intros N. unfold LifecycleSamples.write.
  destruct (String.eqb other path) eqn:E; [|reflexivity].
  apply String.eqb_eq in E. contradiction.
Qed.

(** On the sample files an index that was written is read back. *)
Lemma sample_write_index_is_read_back
      (d : LifecycleSamples.disk) (index : list (Z * Q)) (path : string)
      (d' : LifecycleSamples.disk) :
  Lifecycle.write_index LifecycleSamples.lib d index path = (None, d') ->
  Lifecycle.path_exists LifecycleSamples.lib d' path = true
  /\ Lifecycle.read_index LifecycleSamples.lib d' path = inr index.
Proof.
  cbn. intros [= <-]. rewrite write_same. split; reflexivity.
Qed.

(** On the sample files a snapshot that was pickled is read back, and
    the other files are as before. *)
Lemma sample_dump_is_read_back
      (d : LifecycleSamples.disk) (data : Lifecycle.IndexData) (path : string)
      (d' : LifecycleSamples.disk) :
  Lifecycle.dump LifecycleSamples.lib d data path = (None, d') ->
  Lifecycle.path_exists LifecycleSamples.lib d' path = true
  /\ Lifecycle.load LifecycleSamples.lib d' path = inr data
  /\ forall other,
       other <> path ->
       Lifecycle.path_exists LifecycleSamples.lib d' other
       = Lifecycle.path_exists LifecycleSamples.lib d other
       /\ Lifecycle.read_index LifecycleSamples.lib d' other
          = Lifecycle.read_index LifecycleSamples.lib d other.
Proof.
  cbn. intros [= <-]. rewrite write_same.
  split; [reflexivity|]. split; [reflexivity|].
  intros other N. rewrite (write_other d _ N). split; reflexivity.
Qed.

(** On the sample files no file is both a snapshot and an index. *)
Lemma sample_files_have_one_kind
      (d : LifecycleSamples.disk) (path : string)
      (data : Lifecycle.IndexData) (index : list (Z * Q)) :
  Lifecycle.load LifecycleSamples.lib d path = inr data ->
  Lifecycle.read_index LifecycleSamples.lib d path = inr index ->
  False.
Proof.
  cbn. destruct (d path) as [[content|data'|index']|]; discriminate.
Qed.

End SampleFiles.

(** X19: [load_index] after [build_index].  On files where an index and
    a snapshot that were written are read back, and where pickling the
    snapshot leaves the other files alone, a [build_index] that returned
    can be loaded from its save path by any object that uses the same
    model, and the loading object ends up equal to the building one:
    catalog, tokenised corpus, dimension, FAISS index and scorer.  The
    save path must contain [.pkl], which keeps the two files apart. *)
Theorem load_after_build_restores_the_object
        (Vectors Embeddings Disk : Type)
        (lib : Lifecycle.Libraries Vectors Embeddings Disk)
        (st st1 other : Lifecycle.State Vectors) (d d1 : Disk)
        (sop_file_path save_path : string) :
  (forall d index path d',
      Lifecycle.write_index lib d index path = (None, d') ->
      Lifecycle.path_exists lib d' path = true
      /\ Lifecycle.read_index lib d' path = inr index) ->
  (forall d data path d',
      Lifecycle.dump lib d data path = (None, d') ->
      Lifecycle.path_exists lib d' path = true
      /\ Lifecycle.load lib d' path = inr data
      /\ forall other,
           other <> path ->
           Lifecycle.path_exists lib d' other = Lifecycle.path_exists lib d other
           /\ Lifecycle.read_index lib d' other
              = Lifecycle.read_index lib d other) ->
  Lifecycle.build_index lib sop_file_path save_path st d = (inr tt, st1, d1) ->
  PyStr.occurs ".pkl" save_path = true ->
  Lifecycle.model_name other = Lifecycle.model_name st ->
  Lifecycle.load_index lib save_path other d1 = (inr tt, st1, d1).
Proof.
  intros HW HD B O M.
  destruct (build_index_returns _ _ _ _ _ B)
    as (chunks & index & get_scores & d2 & d3 & I & _ & W & D & ->).
  destruct I as (content & emb & _ & _ & _ & _ & _ & S).
  assert (N : Lifecycle.faiss_index_path save_path <> save_path).
  { intros E. apply faiss_index_path_same in E. congruence. }
  destruct (HW _ _ _ _ W) as (XF & RF).
  destruct (HD _ _ _ _ D) as (X & L & K).
  destruct (K _ N) as (XF' & RF').
  rewrite (@load_index_reads _ _ _ lib other d1 save_path
             (Lifecycle.built_data st chunks) chunks
             (map Tokenizer._tokenize (map Catalog.content chunks))
             index get_scores); try assumption; try reflexivity;
    try congruence.
  unfold Lifecycle.built_state. cbn. rewrite M. reflexivity.
Qed.

Lemma load_after_build_restores_the_object_witness :
  Lifecycle.load_index LifecycleSamples.lib "./data/sop_index.pkl"
    LifecycleSamples.fresh
    (snd (LifecycleSamples.built "./data/sop_index.pkl"))
  = (inr tt,
     snd (fst (LifecycleSamples.built "./data/sop_index.pkl")),
     snd (LifecycleSamples.built "./data/sop_index.pkl")).
Proof.
  apply (@load_after_build_restores_the_object
           _ _ _ LifecycleSamples.lib LifecycleSamples.fresh
           (snd (fst (LifecycleSamples.built "./data/sop_index.pkl")))
           LifecycleSamples.fresh LifecycleSamples.files
           (snd (LifecycleSamples.built "./data/sop_index.pkl"))
           "./data/structured_sops.txt" "./data/sop_index.pkl"
           sample_write_index_is_read_back sample_dump_is_read_back);
    reflexivity.
Defined.

(** X20: [load_index] never returns for a path that does not contain
    [.pkl], on files of which none is both a snapshot and a FAISS index:
    it then looks for the index in the file of the snapshot itself.
    Since [build_index] writes both to that one path, what it saved there
    cannot be loaded. *)
Theorem load_index_needs_pkl_in_the_path
        (Vectors Embeddings Disk : Type)
        (lib : Lifecycle.Libraries Vectors Embeddings Disk)
        (st : Lifecycle.State Vectors) (d : Disk) (index_path : string) :
  (forall d path data index,
      Lifecycle.load lib d path = inr data ->
      Lifecycle.read_index lib d path = inr index -> False) ->
  PyStr.occurs ".pkl" index_path = false ->
  exists e st1, Lifecycle.load_index lib index_path st d = (inl e, st1, d).
Proof.
  intros K O.
  assert (E : Lifecycle.faiss_index_path index_path = index_path)
    by (apply faiss_index_path_same; exact O).
  unfold Lifecycle.load_index, Lifecycle.seq, Lifecycle.reading,
    Lifecycle.call, Lifecycle.assign, Lifecycle.attr, Lifecycle.raise.
  rewrite E.
  destruct (Lifecycle.path_exists lib d index_path) eqn:X; cbn [negb];
    [|do 2 eexists; reflexivity].
  destruct (Lifecycle.load lib d index_path) as [e|data] eqn:L;
    [do 2 eexists; reflexivity|].
  destruct (Lifecycle.item "sop_chunks" _) as [e|chunks];
    [do 2 eexists; reflexivity|].
  destruct (Lifecycle.item "tokenized_corpus" _) as [e|tokenized];
    [do 2 eexists; reflexivity|].
  cbn beta. rewrite X. cbn [negb].
  destruct (Lifecycle.read_index lib d index_path) as [e|index] eqn:R;
    [do 2 eexists; reflexivity|].
  destruct (K _ _ _ _ L R).
Qed.

Lemma load_index_needs_pkl_in_the_path_witness :
  fst (fst (LifecycleSamples.built "./data/sop_index")) = inr tt
  /\ exists e st1,
       Lifecycle.load_index LifecycleSamples.lib "./data/sop_index"
         LifecycleSamples.fresh
         (snd (LifecycleSamples.built "./data/sop_index"))
       = (inl e, st1, snd (LifecycleSamples.built "./data/sop_index")).
Proof.
  split; [reflexivity|].
  apply (@load_index_needs_pkl_in_the_path
           _ _ _ LifecycleSamples.lib LifecycleSamples.fresh
           (snd (LifecycleSamples.built "./data/sop_index"))
           "./data/sop_index" sample_files_have_one_kind).
  reflexivity.
Defined.

(** X21: [load_index] is not atomic.  When the snapshot is there and is
    read but the FAISS file is missing, the method raises
    [FileNotFoundError] after it has replaced the catalog, the tokenised
    corpus and the dimension: the object is left with the catalog of the
    snapshot and with the FAISS index and the scorer it had before. *)
Theorem failed_load_leaves_a_mixed_object
        (Vectors Embeddings Disk : Type)
        (lib : Lifecycle.Libraries Vectors Embeddings Disk)
        (st : Lifecycle.State Vectors) (d : Disk) (index_path : string)
        (data : Lifecycle.IndexData) (chunks : list Catalog.Chunk)
        (tokenized : list (list string)) :
  Lifecycle.path_exists lib d index_path = true ->
  Lifecycle.load lib d index_path = inr data ->
  Lifecycle.data_sop_chunks data = Some chunks ->
  Lifecycle.data_tokenized_corpus data = Some tokenized ->
  Lifecycle.path_exists lib d (Lifecycle.faiss_index_path index_path)
  = false ->
  exists st1,
    Lifecycle.load_index lib index_path st d
    = (inl (Lifecycle.FileNotFoundError
              ("FAISS index file not found: "
                 ++ Lifecycle.faiss_index_path index_path)),
       st1, d)
    /\ Lifecycle.sop_chunks st1 = chunks
    /\ Lifecycle.tokenized_corpus st1 = tokenized
    /\ Lifecycle.faiss_index st1 = Lifecycle.faiss_index st
    /\ Lifecycle.bm25 st1 = Lifecycle.bm25 st
    /\ Lifecycle.identifier lib st1
       = mkIdentifier chunks
           (faiss_index (Lifecycle.identifier lib st))
           (bm25 (Lifecycle.identifier lib st)).
Proof.
  intros X L C T XF.
  unfold Lifecycle.load_index, Lifecycle.seq, Lifecycle.reading,
    Lifecycle.call, Lifecycle.assign, Lifecycle.attr, Lifecycle.raise.
  rewrite X. cbn [negb]. rewrite L, C. cbn [Lifecycle.item]. rewrite T.
  cbn [Lifecycle.item]. rewrite XF. cbn [negb].
  eexists. split; [reflexivity|].
  repeat split; reflexivity.
Qed.

Lemma failed_load_leaves_a_mixed_object_witness :
  exists st1,
    Lifecycle.load_index LifecycleSamples.lib "./data/first.pkl"
      LifecycleSamples.object LifecycleSamples.files_with_snapshot
    = (inl (Lifecycle.FileNotFoundError
              ("FAISS index file not found: "
                 ++ Lifecycle.faiss_index_path "./data/first.pkl")),
       st1, LifecycleSamples.files_with_snapshot)
    /\ Lifecycle.sop_chunks st1
       = firstn 1 (Lifecycle.sop_chunks LifecycleSamples.object)
    /\ Lifecycle.tokenized_corpus st1
       = firstn 1 (Lifecycle.tokenized_corpus LifecycleSamples.object)
    /\ Lifecycle.faiss_index st1
       = Lifecycle.faiss_index LifecycleSamples.object
    /\ Lifecycle.bm25 st1 = Lifecycle.bm25 LifecycleSamples.object
    /\ Lifecycle.identifier LifecycleSamples.lib st1
       = mkIdentifier
           (firstn 1 (Lifecycle.sop_chunks LifecycleSamples.object))
           (faiss_index (Lifecycle.identifier LifecycleSamples.lib
                                              LifecycleSamples.object))
           (bm25 (Lifecycle.identifier LifecycleSamples.lib
                                       LifecycleSamples.object)).
Proof.
  apply (@failed_load_leaves_a_mixed_object
           _ _ _ LifecycleSamples.lib LifecycleSamples.object
           LifecycleSamples.files_with_snapshot "./data/first.pkl"
           LifecycleSamples.first_record
           (firstn 1 (Lifecycle.sop_chunks LifecycleSamples.object))
           (firstn 1 (Lifecycle.tokenized_corpus LifecycleSamples.object)));
    reflexivity.
Defined.

(** X22: [build_index] cannot save to a bare file name.  The directory
    of a save path without a slash is the empty string, which
    [os.makedirs] refuses; the method raises that error with no file
    written, after the whole index has been made in memory. *)
Theorem build_index_cannot_save_to_a_bare_file_name
        (Vectors Embeddings Disk : Type)
        (lib : Lifecycle.Libraries Vectors Embeddings Disk)
        (st : Lifecycle.State Vectors) (d : Disk)
        (sop_file_path save_path : string) (chunks : list Catalog.Chunk)
        (index : Vectors) (get_scores : list string -> list Q)
        (e : Lifecycle.error) :
  Lifecycle.indexed lib st d sop_file_path chunks index get_scores ->
  Lifecycle.makedirs lib d "" = (Some e, d) ->
  PyStr.contains "/" save_path = false ->
  Lifecycle.build_index lib sop_file_path save_path st d
  = (inl e, Lifecycle.built_state st chunks index get_scores, d).
Proof.
  intros I F S.
  rewrite (@build_index_saves _ _ _ lib st d sop_file_path save_path
             chunks index get_scores I).
  unfold Lifecycle.seq at 1. unfold Lifecycle.writing at 1.
  rewrite (dirname_without_slash _ S), F. reflexivity.
Qed.

Lemma build_index_cannot_save_to_a_bare_file_name_witness :
  Lifecycle.build_index LifecycleSamples.lib "./data/structured_sops.txt"
    "sop_index.pkl" LifecycleSamples.fresh LifecycleSamples.files
  = (inl (Lifecycle.FileNotFoundError
            "[Errno 2] No such file or directory: ''"),
     Lifecycle.built_state LifecycleSamples.fresh
       (Lifecycle.sop_chunks LifecycleSamples.object)
       LifecycleSamples.index LifecycleSamples.get_scores,
     LifecycleSamples.files).
Proof.
  apply (@build_index_cannot_save_to_a_bare_file_name
           _ _ _ LifecycleSamples.lib LifecycleSamples.fresh
           LifecycleSamples.files "./data/structured_sops.txt"
           "sop_index.pkl" (Lifecycle.sop_chunks LifecycleSamples.object)
           LifecycleSamples.index LifecycleSamples.get_scores
           (Lifecycle.FileNotFoundError
              "[Errno 2] No such file or directory: ''")).
  - do 2 eexists.
    split; [reflexivity|]. split; [reflexivity|].
    split; [discriminate|]. split; [reflexivity|].
    split; reflexivity.
  - reflexivity.
  - reflexivity.
Defined.

(** X23: a [build_index] on a catalog file without any record raises
    [ValueError("No SOP chunks found in the file")] after it has emptied
    the catalog of the object and before it touches the index, the
    scorer or the files: an object that could answer before raises the
    "Index not built or loaded" error on every retrieval afterwards. *)
Theorem build_index_without_records_clears_the_catalog
        (Vectors Embeddings Disk : Type)
        (lib : Lifecycle.Libraries Vectors Embeddings Disk)
        (st : Lifecycle.State Vectors) (d : Disk)
        (sop_file_path save_path content : string) :
  Lifecycle.read_text lib d sop_file_path = inr content ->
  filter CatalogSpec.kept (map PyStr.strip (PyStr.split content "---")) = [] ->
  Lifecycle.build_index lib sop_file_path save_path st d
  = (inl (Lifecycle.Python (ValueError "No SOP chunks found in the file")),
     Lifecycle.set_sop_chunks [] st, d)
  /\ forall query top_k semantic_weight bm25_weight,
       Retrieval.retrieve_relevant_sops
         (Lifecycle.identifier lib (Lifecycle.set_sop_chunks [] st))
         query top_k semantic_weight bm25_weight
       = Raise (ValueError
           "Index not built or loaded. Call build_index() or load_index() first.").
Proof.
  intros R H. split.
  - unfold Lifecycle.build_index, Lifecycle.seq, Lifecycle.reading,
      Lifecycle.call, Lifecycle.assign, Lifecycle.raise.
    rewrite R, (parse_sops_without_records _ H). reflexivity.
  - intros query top_k sw bw. reflexivity.
Qed.

Lemma build_index_without_records_clears_the_catalog_witness :
  Lifecycle.build_index LifecycleSamples.lib "./data/notes.txt"
    "./data/sop_index.pkl" LifecycleSamples.object LifecycleSamples.files
  = (inl (Lifecycle.Python (ValueError "No SOP chunks found in the file")),
     Lifecycle.set_sop_chunks [] LifecycleSamples.object,
     LifecycleSamples.files)
  /\ forall query top_k semantic_weight bm25_weight,
       Retrieval.retrieve_relevant_sops
         (Lifecycle.identifier LifecycleSamples.lib
            (Lifecycle.set_sop_chunks [] LifecycleSamples.object))
         query top_k semantic_weight bm25_weight
       = Raise (ValueError
           "Index not built or loaded. Call build_index() or load_index() first.").
Proof.
  apply (@build_index_without_records_clears_the_catalog
           _ _ _ LifecycleSamples.lib LifecycleSamples.object
           LifecycleSamples.files "./data/notes.txt" "./data/sop_index.pkl"
           "meeting notes");
    reflexivity.
Defined.

(** X24: [load_index] never reads the model name that [build_index]
    stored in the snapshot and never writes a file: however it ends, the
    object keeps its own model, with which the queries are embedded, and
    the files are as before; and when it raises, the scorer is the one
    the object had. *)
Theorem load_index_keeps_the_model_of_the_object
        (Vectors Embeddings Disk : Type)
        (lib : Lifecycle.Libraries Vectors Embeddings Disk)
        (st st1 : Lifecycle.State Vectors) (d d1 : Disk)
        (index_path : string) (outcome : Lifecycle.error + unit) :
  Lifecycle.load_index lib index_path st d = (outcome, st1, d1) ->
  Lifecycle.model_name st1 = Lifecycle.model_name st
  /\ d1 = d
  /\ (outcome <> inr tt -> Lifecycle.bm25 st1 = Lifecycle.bm25 st).
Proof.
  unfold Lifecycle.load_index, Lifecycle.seq, Lifecycle.reading,
    Lifecycle.call, Lifecycle.assign, Lifecycle.attr, Lifecycle.raise.
  destruct (Lifecycle.path_exists lib d index_path); cbn [negb];
    [|intros [= <- <- <-]; repeat split].
  destruct (Lifecycle.load lib d index_path) as [e|data];
    [intros [= <- <- <-]; repeat split|].
  destruct (Lifecycle.item "sop_chunks" _) as [e|chunks];
    [intros [= <- <- <-]; repeat split|].
  destruct (Lifecycle.item "tokenized_corpus" _) as [e|tokenized];
    [intros [= <- <- <-]; repeat split|].
  cbn beta.
  destruct (Lifecycle.path_exists lib d _); cbn [negb];
    [|intros [= <- <- <-]; repeat split].
  destruct (Lifecycle.read_index lib d _) as [e|index];
    [intros [= <- <- <-]; repeat split|].
  destruct (Lifecycle.BM25Okapi lib tokenized) as [e|get_scores];
    intros [= <- <- <-]; repeat split.
  intros N. contradiction N. reflexivity.
Qed.

Lemma load_index_keeps_the_model_of_the_object_witness :
  Lifecycle.model_name
    (snd (fst (Lifecycle.load_index LifecycleSamples.lib
                 "./data/sop_index.pkl"
                 (Lifecycle.init (list (Z * Q)) "paraphrase-MiniLM-L3-v2")
                 (snd (LifecycleSamples.built "./data/sop_index.pkl")))))
  = Lifecycle.model_name
      (Lifecycle.init (list (Z * Q)) "paraphrase-MiniLM-L3-v2")
  /\ snd (Lifecycle.load_index LifecycleSamples.lib
            "./data/sop_index.pkl"
            (Lifecycle.init (list (Z * Q)) "paraphrase-MiniLM-L3-v2")
            (snd (LifecycleSamples.built "./data/sop_index.pkl")))
     = snd (LifecycleSamples.built "./data/sop_index.pkl")
  /\ (fst (fst (Lifecycle.load_index LifecycleSamples.lib
                  "./data/sop_index.pkl"
                  (Lifecycle.init (list (Z * Q)) "paraphrase-MiniLM-L3-v2")
                  (snd (LifecycleSamples.built "./data/sop_index.pkl"))))
      <> inr tt ->
      Lifecycle.bm25
        (snd (fst (Lifecycle.load_index LifecycleSamples.lib
                     "./data/sop_index.pkl"
                     (Lifecycle.init (list (Z * Q)) "paraphrase-MiniLM-L3-v2")
                     (snd (LifecycleSamples.built "./data/sop_index.pkl")))))
      = Lifecycle.bm25
          (Lifecycle.init (list (Z * Q)) "paraphrase-MiniLM-L3-v2")).
Proof.
  apply (@load_index_keeps_the_model_of_the_object
           _ _ _ LifecycleSamples.lib
           (Lifecycle.init (list (Z * Q)) "paraphrase-MiniLM-L3-v2")
           _ (snd (LifecycleSamples.built "./data/sop_index.pkl")) _
           "./data/sop_index.pkl" _).
  reflexivity.
Defined.
